(** * Notes-and-bookmarks backend: tag normalisation, query construction,
      metadata fetch and the resource handlers.

    The development follows the JavaScript sources: [routes/notes.js],
    [routes/bookmarks.js], [utils/fetchMetadata.js] and the two Mongoose
    schemas.  JavaScript values are embedded as an inductive type of JSON
    values, strings as lists of UTF-16 code units, exceptions as an error
    monad, and the document store as a finite map from record id to
    record.  The routes run behind the [auth] middleware: [user] is the
    id of the authenticated caller.  What lies outside the repository is
    taken as a parameter: the cast of a route parameter to a record id,
    the case folding and the patterns of the store's regular-expression
    engine beyond alternations of literals, and the remote pages. *)

From Stdlib Require Import NArith ZArith Lia.
From stdpp Require Import base option list strings gmap sorting.

Set Default Proof Using "Type".
Local Open Scope N_scope.

(** ** JavaScript strings *)

(** A JavaScript string is a sequence of UTF-16 code units. *)
Abbreviation jsstring := (list N).

(** An ASCII literal as a JavaScript string. *)
Definition lit (s : string) : jsstring :=
  (fun a => N.of_nat (Ascii.nat_of_ascii a)) <$> String.list_ascii_of_string s.

(** ECMAScript LineTerminator: LF, CR, LS, PS. *)
Definition isLineTerminator (c : N) : bool :=
  (c =? 10) || (c =? 13) || (c =? 0x2028) || (c =? 0x2029).

(** The characters removed by [String.prototype.trim] and matched by the
    regular-expression class [\s]: ECMAScript WhiteSpace (TAB, VT, FF,
    ZWNBSP and the Unicode space separators) together with
    LineTerminator. *)
Definition isWhiteSpace (c : N) : bool :=
  (c =? 9) || (c =? 11) || (c =? 12) || (c =? 32) || (c =? 160)
  || (c =? 0x1680) || ((0x2000 <=? c) && (c <=? 0x200A))
  || (c =? 0x202F) || (c =? 0x205F) || (c =? 0x3000) || (c =? 0xFEFF)
  || isLineTerminator c.

Fixpoint dropWhile (p : N -> bool) (s : jsstring) : jsstring :=
  match s with
  | [] => []
  | c :: s' => if p c then dropWhile p s' else s
  end.

Definition trimStart (s : jsstring) : jsstring := dropWhile isWhiteSpace s.
Definition trimEnd (s : jsstring) : jsstring :=
  reverse (dropWhile isWhiteSpace (reverse s)).

(** [s.trim()] *)
Definition trim (s : jsstring) : jsstring := trimEnd (trimStart s).

(** [s.length > 0] *)
Definition nonEmpty (s : jsstring) : bool :=
  match s with [] => false | _ => true end.

(** [s.split(re)] for a regular expression [re = [...]+] that is one
    character class [sep] repeated greedily.  A match starts at a
    separator and extends over the whole run of separators; the piece
    before it is emitted when the run ends, and the text after the last
    match is the last piece (so a leading or trailing separator gives an
    empty first or last piece, and the empty string gives one empty
    piece). *)
Fixpoint split_run (sep : N -> bool) (cur s : jsstring) : list jsstring :=
  match s with
  | [] => [cur]
  | c :: s' =>
      if sep c then
        match s' with
        | c' :: _ => if sep c' then split_run sep cur s'
                     else cur :: split_run sep [] s'
        | [] => cur :: split_run sep [] s'
        end
      else split_run sep (cur ++ [c]) s'
  end.

Definition split (sep : N -> bool) (s : jsstring) : list jsstring :=
  split_run sep [] s.

(** The class [[,\s#]] of the tag pattern [/[,\s#]+/]. *)
Definition isTagSep (c : N) : bool :=
  (c =? 44) || isWhiteSpace c || (c =? 35).

(** [[...new Set(a)]]: a Set keeps its elements in insertion order and
    [add] of a member is a no-op. *)
Definition Set_add (acc : list jsstring) (x : jsstring) : list jsstring :=
  if bool_decide (x ∈ acc) then acc else acc ++ [x].

Definition Set_from (a : list jsstring) : list jsstring :=
  foldl Set_add [] a.

(** ** JSON values and exceptions *)

(** The values a parsed JSON request body can hold.  A number is carried
    as the text [Number::toString] gives for it, which determines the
    number up to the sign of zero; JSON has no NaN or infinities. *)
#[warnings="-register-all"]
Inductive JValue : Type :=
  | JNull
  | JBool (b : bool)
  | JNum (repr : jsstring)
  | JStr (s : jsstring)
  | JArr (elems : list JValue)
  | JObj (fields : list (jsstring * JValue)).

(** A destructured body field: [None] is [undefined] (the key is
    absent). *)
Abbreviation field := (option JValue).

(** A validation message of the store: a text of the schema, or the
    text Mongoose builds when [value] cannot be cast at [path]. *)
Inductive Message : Type :=
  | Text (s : jsstring)
  | CastFailed (path : jsstring) (value : JValue).

(** What can be thrown, by [error.name]. *)
Inductive JsError : Type :=
  | TypeError
  | ValidationError (errors : list Message)
  | CastError
  | OtherError.

(** The completion of an expression: a value, or a thrown exception. *)
Inductive Js (A : Type) : Type :=
  | Ok (a : A)
  | Throw (e : JsError).
Arguments Ok {A} a.
Arguments Throw {A} e.

#[global] Instance Js_ret : MRet Js := fun _ a => Ok a.
#[global] Instance Js_bind : MBind Js := fun _ _ f m =>
  match m with Ok a => f a | Throw e => Throw e end.

(** JavaScript truthiness, [ToBoolean]. *)
Definition truthy (v : field) : bool :=
  match v with
  | None | Some JNull => false
  | Some (JBool b) => b
  | Some (JNum r) => negb (bool_decide (r = lit "0"))
  | Some (JStr s) => nonEmpty s
  | Some (JArr _) | Some (JObj _) => true
  end.

Definition hasOwn (k : jsstring) (fields : list (jsstring * JValue)) : bool :=
  bool_decide (k ∈ fields.*1).

(** [String(v)].  An array is joined with commas, [null] elements giving
    the empty string.  A plain object inherits [Object.prototype.toString]
    and gives "[object Object]", unless it has an own property named
    [toString]: a JSON value is never callable, so neither [toString] nor
    [valueOf] yields a primitive and [String] throws a TypeError. *)
Fixpoint ToString (v : JValue) : Js jsstring :=
  match v with
  | JNull => Ok (lit "null")
  | JBool true => Ok (lit "true")
  | JBool false => Ok (lit "false")
  | JNum r => Ok r
  | JStr s => Ok s
  | JArr l =>
      (fix join (l : list JValue) : Js jsstring :=
         match l with
         | [] => Ok []
         | x :: l' =>
             a ← match x with JNull => Ok [] | _ => ToString x end;
             match l' with
             | [] => Ok a
             | _ => b ← join l'; Ok (a ++ lit "," ++ b)
             end
         end) l
  | JObj fs =>
      if hasOwn (lit "toString") fs then Throw TypeError
      else Ok (lit "[object Object]")
  end.

(** [a.map(f)] for an [f] that may throw: elements are visited in order
    and the first exception ends the loop. *)
Fixpoint mapJs {A B} (f : A -> Js B) (l : list A) : Js (list B) :=
  match l with
  | [] => Ok []
  | x :: l' => y ← f x; ys ← mapJs f l'; Ok (y :: ys)
  end.

(** ** Tag normaliser *)

(** The tag processing of the two POST handlers:
<<
    let tagsArray = [];
    if (tags) {
      if (Array.isArray(tags)) {
        tagsArray = tags.map(tag => String(tag).trim()).filter(tag => tag.length > 0);
      } else if (typeof tags === 'string') {
        tagsArray = tags.split(/[,\s#]+/).map(tag => tag.trim()).filter(tag => tag.length > 0);
      }
    }
    tagsArray = [...new Set(tagsArray)];
>> *)
Definition processTags (tags : field) : Js (list jsstring) :=
  tagsArray ←
    (if truthy tags then
       match tags with
       | Some (JArr l) =>
           ts ← mapJs (fun tag => s ← ToString tag; Ok (trim s)) l;
           Ok (List.filter nonEmpty ts)
       | Some (JStr s) =>
           Ok (List.filter nonEmpty (trim <$> split isTagSep s))
       | _ => Ok []
       end
     else Ok []);
  Ok (Set_from tagsArray).

(** The tag processing of the two PUT handlers, entered when
    [tags !== undefined]; it has no truthiness test. *)
Definition processTagsUpdate (tags : JValue) : Js (list jsstring) :=
  tagsArray ←
    match tags with
    | JArr l =>
        ts ← mapJs (fun tag => s ← ToString tag; Ok (trim s)) l;
        Ok (List.filter nonEmpty ts)
    | JStr s =>
        Ok (List.filter nonEmpty (trim <$> split isTagSep s))
    | _ => Ok []
    end;
  Ok (Set_from tagsArray).

(** ** Specification-level vocabulary for the tag normaliser *)

(** Empty or whitespace-only. *)
Definition blank (s : jsstring) : bool := forallb isWhiteSpace s.

(** The maximal runs of non-separator characters of [s], in order. *)
Fixpoint tokens_from (sep : N -> bool) (cur s : jsstring) : list jsstring :=
  match s with
  | [] => if nonEmpty cur then [cur] else []
  | c :: s' =>
      if sep c then
        if nonEmpty cur then cur :: tokens_from sep [] s'
        else tokens_from sep [] s'
      else tokens_from sep (cur ++ [c]) s'
  end.

Definition tokens (sep : N -> bool) (s : jsstring) : list jsstring :=
  tokens_from sep [] s.

(** Position of the first occurrence of [x] in [l] ([length l] when
    there is none). *)
Fixpoint first_index (x : jsstring) (l : list jsstring) : nat :=
  match l with
  | [] => 0%nat
  | y :: l' => if decide (x = y) then 0%nat else S (first_index x l')
  end.

(** The entries of a tag input before deduplication, following the
    words of the specification: an array gives its elements coerced to
    strings, trimmed, empties dropped; a string gives its pieces between
    runs of comma, whitespace or [#]; anything else gives none. *)
Definition tagEntries (tags : field) : Js (list jsstring) :=
  match tags with
  | Some (JArr l) =>
      ss ← mapJs ToString l; Ok (List.filter nonEmpty (trim <$> ss))
  | Some (JStr s) => Ok (tokens isTagSep s)
  | _ => Ok []
  end.

(** No whitespace at the front, resp. at the back. *)
Definition noLead (s : jsstring) : Prop :=
  match s with c :: _ => isWhiteSpace c = false | [] => True end.
Definition noTrail (s : jsstring) : Prop := noLead (reverse s).

(** ** Metadata fetcher ([utils/fetchMetadata.js]) *)

(** What the four selector reads give on a loaded page.  [attr] gives
    [undefined] ([None]) when no element matches or the attribute is
    missing; [text] gives the empty string when no element matches. *)
Record Page : Type := {
  og_title : option jsstring;       (* $('meta[property="og:title"]').attr('content') *)
  twitter_title : option jsstring;  (* $('meta[name="twitter:title"]').attr('content') *)
  title_text : jsstring;            (* $('title').text() *)
  h1_text : jsstring                (* $('h1').first().text() *)
}.

(** The remote world: what [axios.get(url, {timeout: 5000, ...})]
    followed by [cheerio.load(response.data)] and the selector reads
    gives for a URL.  [Throw] covers every way the [try] block can fail:
    timeout, network error, error status, a body that cannot be
    loaded. *)
Abbreviation Remote := (jsstring -> Js Page).

(** Truthiness of a value that is a string or [undefined]. *)
Definition truthyStr (v : option jsstring) : bool :=
  match v with Some s => nonEmpty s | None => false end.

(** [a || b] *)
Definition orElse (a b : option jsstring) : option jsstring :=
  if truthyStr a then a else b.

(** [s.replace(/\s+/g, ' ')]: every maximal run of whitespace becomes one
    space; [in_run] tells that the previous character was whitespace. *)
Fixpoint replace_ws_runs (in_run : bool) (s : jsstring) : jsstring :=
  match s with
  | [] => []
  | c :: s' =>
      if isWhiteSpace c then
        if in_run then replace_ws_runs true s'
        else 32 :: replace_ws_runs true s'
      else c :: replace_ws_runs false s'
  end.

(** [title.trim().replace(/\s+/g, ' ')] *)
Definition cleanTitle (s : jsstring) : jsstring :=
  replace_ws_runs false (trim s).

(** The body of the [try] block. *)
Definition fetchMetadata_try (remote : Remote) (url : jsstring)
  : Js (option jsstring) :=
  p ← remote url;
  let title :=
    orElse (orElse (orElse (og_title p) (twitter_title p))
                   (Some (title_text p)))
           (Some (h1_text p)) in
  let title := if truthyStr title then cleanTitle <$> title else title in
  Ok (orElse title None).

(** [fetchMetadata]: the [catch] clause logs and returns [null]
    ([None]). *)
Definition fetchMetadata (remote : Remote) (url : jsstring) : option jsstring :=
  match fetchMetadata_try remote url with
  | Ok title => title
  | Throw _ => None
  end.

(** Specification-level vocabulary: the candidates in priority order,
    the first non-empty one, and words joined by single spaces. *)
Definition candidates (p : Page) : list (option jsstring) :=
  [og_title p; twitter_title p; Some (title_text p); Some (h1_text p)].

Fixpoint firstNonEmpty (cs : list (option jsstring)) : option jsstring :=
  match cs with
  | [] => None
  | Some (c :: s) :: _ => Some (c :: s)
  | _ :: cs' => firstNonEmpty cs'
  end.

Fixpoint joinSpace (ws : list jsstring) : jsstring :=
  match ws with
  | [] => []
  | [w] => w
  | w :: ws' => w ++ 32 :: joinSpace ws'
  end.

(** The fetcher in the words of the specification: the first non-empty
    candidate, whitespace collapsed and trimmed; null when there is none
    or the fetch fails. *)
Definition fetchMetadata_as_claimed (remote : Remote) (url : jsstring)
  : option jsstring :=
  match remote url with
  | Throw _ => None
  | Ok p => cleanTitle <$> firstNonEmpty (candidates p)
  end.

(** A page whose Open-Graph title is blank and whose title element is
    not. *)
Definition blank_og_page : Page :=
  {| og_title := Some (lit "   "); twitter_title := None;
     title_text := lit "Real  Title"; h1_text := [] |}.

(** ** Regular expressions of the two routes *)

Fixpoint stripPrefix (pre s : jsstring) : option jsstring :=
  match pre, s with
  | [], _ => Some s
  | a :: pre', c :: s' => if a =? c then stripPrefix pre' s' else None
  | _ :: _, [] => None
  end.

(** [/^https?:\/\/.+/.test(s)].  After "http" the optional [s] is tried
    first and given up when the rest does not match; [.] matches any
    character but a line terminator. *)
Definition urlPattern_test (s : jsstring) : bool :=
  let rest r :=
    match stripPrefix (lit "://") r with
    | Some (c :: _) => negb (isLineTerminator c)
    | _ => false
    end in
  match stripPrefix (lit "http") s with
  | Some r =>
      match r with
      | c :: r' => if c =? 115 then rest r' || rest r else rest r
      | [] => rest r
      end
  | None => false
  end.

(** Characters with a meaning of their own in a PCRE pattern (outside a
    character class), and NUL, which a stored pattern cannot hold. *)
Definition isMeta (c : N) : bool :=
  bool_decide (c ∈ 0 :: lit "\^$.[]|()*+?{}").

(** [s.split(d)] for a one-character separator [d]. *)
Fixpoint split_on (d : N) (cur s : jsstring) : list jsstring :=
  match s with
  | [] => [cur]
  | c :: s' => if c =? d then cur :: split_on d [] s'
               else split_on d (cur ++ [c]) s'
  end.

Section regex.
(** Case folding of the store's regular-expression engine: two
    characters match caselessly when they fold to the same one. *)
Variable foldCase : N -> N.

Fixpoint prefix_ci (a s : jsstring) : bool :=
  match a, s with
  | [], _ => true
  | x :: a', y :: s' => (foldCase x =? foldCase y) && prefix_ci a' s'
  | _ :: _, [] => false
  end.

(** Unanchored search for a literal, caseless. *)
Fixpoint search_ci (a s : jsstring) : bool :=
  prefix_ci a s || match s with [] => false | _ :: s' => search_ci a s' end.

(** Patterns outside the fragment modelled here: [None] when the
    pattern does not compile. *)
Variable regexOther : jsstring -> option (jsstring -> bool).

(** [{ $regex: q, $options: 'i' }].  A pattern whose only
    metacharacter is [|] is an alternation of literals and matches
    where one of them occurs; every other pattern with metacharacters
    is left to [regexOther].  A pattern that does not compile makes
    the query fail. *)
Definition regexCompile (q : jsstring) : Js (jsstring -> bool) :=
  if forallb (fun c => negb (isMeta c) || (c =? 124)) q then
    Ok (fun s => existsb (fun alt => search_ci alt s) (split_on 124 [] q))
  else
    match regexOther q with
    | Some m => Ok m
    | None => Throw OtherError
    end.

(** Specification-level: [a] occurs in [s] as a substring, up to
    case. *)
Definition occurs_ci (a s : jsstring) : Prop :=
  exists pre mid post,
    s = pre ++ mid ++ post /\ foldCase <$> mid = foldCase <$> a.
End regex.

(** ASCII case folding, for examples. *)
Definition asciiFold (c : N) : N :=
  if (65 <=? c) && (c <=? 90) then c + 32 else c.

(** ** Requests, responses, the store *)

(** A query-string parameter: a string, or the array or object that a
    repeated or bracketed parameter is parsed into. *)
Inductive QValue : Type :=
  | QStr (s : jsstring)
  | QOther.

Definition truthyQ (v : option QValue) : bool :=
  match v with
  | None => false
  | Some (QStr s) => nonEmpty s
  | Some QOther => true
  end.

(** [tags.split(',').map(tag => tag.trim()).filter(tag => tag.length > 0)] *)
Definition tagFilter (s : jsstring) : list jsstring :=
  List.filter nonEmpty (trim <$> split_on 44 [] s).

(** [v === 'true'] *)
Definition isString_true (v : option QValue) : bool :=
  match v with
  | Some (QStr s) => bool_decide (s = lit "true")
  | _ => false
  end.

Inductive Body (D : Type) : Type :=
  | BError (errors : list Message)  (* { error: errors.join(', ') } *)
  | BDoc (id : N) (doc : D)
  | BList (docs : list (N * D))
  | BMessage (text : jsstring).
Arguments BError {D} errors.
Arguments BDoc {D} id doc.
Arguments BList {D} docs.
Arguments BMessage {D} text.

Record Response (D : Type) : Type := respond {
  status : nat;
  body : Body D
}.
Arguments respond {D} status body.
Arguments status {D} r.
Arguments body {D} r.

(** Calls to the collaborators, in the order in which they are made. *)
Inductive Call : Type :=
  | CallFetchMetadata (url : jsstring)
  | CallSave
  | CallFind
  | CallFindOne (id : jsstring)
  | CallFindOneAndUpdate (id : jsstring)
  | CallFindOneAndDelete (id : jsstring).

(** The collection (records by [_id]) and the calls made so far. *)
Record World (D : Type) : Type := {
  store : gmap N D;
  calls : list Call
}.
Arguments Build_World {D} store calls.
Arguments store {D} w.
Arguments calls {D} w.

(** A computation of a handler: it may change the world and may
    throw. *)
Definition Handler (D A : Type) : Type := World D -> Js A * World D.

Definition hret {D A} (a : A) : Handler D A := fun w => (Ok a, w).
Definition hthrow {D A} (e : JsError) : Handler D A := fun w => (Throw e, w).
Definition hbind {D A B} (m : Handler D A) (k : A -> Handler D B)
  : Handler D B :=
  fun w => match m w with
           | (Ok a, w') => k a w'
           | (Throw e, w') => (Throw e, w')
           end.
Definition liftJs {D A} (c : Js A) : Handler D A := fun w => (c, w).
Definition logCall {D} (c : Call) : Handler D unit :=
  fun w => (Ok tt, {| store := store w; calls := calls w ++ [c] |}).

Notation "'let*' x := m 'in' k" := (hbind m (fun x => k))
  (at level 10, x name, m at level 100, k at level 200, only parsing).

(** [try { body } catch (error) { handler }] around a whole route. *)
Definition tryCatch {D R} (body : Handler D R) (handler : JsError -> R)
  : World D -> R * World D :=
  fun w => match body w with
           | (Ok r, w') => (r, w')
           | (Throw e, w') => (handler e, w')
           end.

(** What the routes and the queries read of a record. *)
Class Document (D : Type) : Type := {
  doc_user : D -> N;
  doc_createdAt : D -> Z;
  doc_tags : D -> list jsstring;
  doc_isFavorite : D -> option bool;
  doc_touch : Z -> D -> D   (* the [timestamps] option sets [updatedAt] *)
}.

(** Mongoose's [Boolean] caster. *)
Definition castBoolean (v : JValue) : Js (option bool) :=
  match v with
  | JNull => Ok None
  | JBool b => Ok (Some b)
  | JNum r =>
      if bool_decide (r = lit "1") then Ok (Some true)
      else if bool_decide (r = lit "0") then Ok (Some false)
      else Throw CastError
  | JStr s =>
      if bool_decide (s ∈ [lit "true"; lit "1"; lit "yes"]) then Ok (Some true)
      else if bool_decide (s ∈ [lit "false"; lit "0"; lit "no"]) then Ok (Some false)
      else Throw CastError
  | JArr _ | JObj _ => Throw CastError
  end.

(** [v ? v.trim() : ''] *)
Definition trimOrEmpty (v : field) : Js jsstring :=
  if truthy v then
    match v with
    | Some (JStr s) => Ok (trim s)
    | _ => Throw TypeError   (* [trim] is not a function *)
    end
  else Ok [].

(** The check [!v || typeof v !== 'string' || !v.trim()] of a required
    string: [Some s] when [v] passes, as the string [s]. *)
Definition requiredString (v : field) : option jsstring :=
  if negb (truthy v) then None
  else match v with
       | Some (JStr s) => if negb (nonEmpty (trim s)) then None else Some s
       | _ => None
       end.

(** [maxlength: [n, message]] *)
Definition maxlength (n : nat) (message : string) (s : jsstring)
  : list Message :=
  if bool_decide (n < length s)%nat then [Text (lit message)] else [].

(** [required: [true, message]] on a string path. *)
Definition required (message : string) (s : jsstring) : list Message :=
  if nonEmpty s then [] else [Text (lit message)].

(** ** The store collaborator (Mongoose model calls) *)

(** A filter of the list routes:
    [{ user, $or: [{f: {$regex: q, $options: 'i'}}, ...], tags: {$in: [...]}, isFavorite: true }],
    each part but [user] optional. *)
Record Query (D : Type) : Type := {
  q_user : N;
  q_or : option (list (D -> jsstring) * QValue);
  q_tags_in : option (list jsstring);
  q_isFavorite : option bool
}.
Arguments Build_Query {D} q_user q_or q_tags_in q_isFavorite.
Arguments q_user {D} q.
Arguments q_or {D} q.
Arguments q_tags_in {D} q.
Arguments q_isFavorite {D} q.

(** [.sort({ createdAt: -1 })] *)
Definition newerFirst {D} `{Document D} : relation (N * D) :=
  fun a b => (doc_createdAt b.2 <= doc_createdAt a.2)%Z.

#[global] Instance newerFirst_dec {D} `{Document D} (a b : N * D) :
  Decision (newerFirst a b) := Z_le_dec _ _.

Section store.
(** The cast of a route parameter to a record id: [None] when the
    string is not a well-formed id. *)
Variable castObjectId : jsstring -> option N.
Variable foldCase : N -> N.
Variable regexOther : jsstring -> option (jsstring -> bool).
Context {D : Type} `{Document D}.

(** The record with this id that this user owns. *)
Definition owned (user : N) (k : N) (st : gmap N D) : option D :=
  match st !! k with
  | Some d => if doc_user d =? user then Some d else None
  | None => None
  end.

(** [Model.findOne({ _id: id, user })] *)
Definition findOne (id : jsstring) (user : N) : Handler D (option (N * D)) :=
  let* _ := logCall (CallFindOne id) in
  match castObjectId id with
  | None => hthrow CastError
  | Some k => fun w => (Ok (pair k <$> owned user k (store w)), w)
  end.

(** [Model.findOneAndDelete({ _id: id, user })] *)
Definition findOneAndDelete (id : jsstring) (user : N)
  : Handler D (option (N * D)) :=
  let* _ := logCall (CallFindOneAndDelete id) in
  match castObjectId id with
  | None => hthrow CastError
  | Some k => fun w =>
      match owned user k (store w) with
      | Some d => (Ok (Some (k, d)),
                   {| store := delete k (store w); calls := calls w |})
      | None => (Ok None, w)
      end
  end.

(** [Model.findOneAndUpdate({ _id: id, user }, updateData, { new: true, runValidators: true })].
    [update] is the cast of [updateData] (a cast failure throws a
    CastError) and [errors] is what the update validators report on
    it.  The filter is cast first, then the update, then the
    validators run; the record found is changed, stamped and
    returned. *)
Definition findOneAndUpdate (id : jsstring) (user : N)
    (update : Js (D -> D)) (errors : list Message) (now : Z)
  : Handler D (option (N * D)) :=
  let* _ := logCall (CallFindOneAndUpdate id) in
  match castObjectId id with
  | None => hthrow CastError
  | Some k =>
      let* f := liftJs update in
      match errors with
      | _ :: _ => hthrow (ValidationError errors)
      | [] => fun w =>
          match owned user k (store w) with
          | Some d =>
              let d' := doc_touch now (f d) in
              (Ok (Some (k, d')),
               {| store := <[k := d']> (store w); calls := calls w |})
          | None => (Ok None, w)
          end
      end
  end.

(** [doc.save()] of a new document with the id [newId] it was given
    on construction.  [errors] are the cast and validation failures of
    the document; an id that is already taken is a duplicate-key
    error. *)
Definition save (newId : N) (errors : list Message) (d : D)
  : Handler D (N * D) :=
  let* _ := logCall CallSave in
  match errors with
  | _ :: _ => hthrow (ValidationError errors)
  | [] => fun w =>
      match store w !! newId with
      | Some _ => (Throw OtherError, w)
      | None => (Ok (newId, d),
                 {| store := <[newId := d]> (store w); calls := calls w |})
      end
  end.

(** Whether a record passes a filter whose pattern compiled to
    [re]. *)
Definition matches (query : Query D) (re : jsstring -> bool) (d : D) : bool :=
  (doc_user d =? q_user query)
  && match q_or query with
     | Some (fs, _) => existsb (fun f => re (f d)) fs
     | None => true
     end
  && match q_tags_in query with
     | Some ts => existsb (fun t => bool_decide (t ∈ doc_tags d)) ts
     | None => true
     end
  && match q_isFavorite query with
     | Some b => bool_decide (doc_isFavorite d = Some b)
     | None => true
     end.

(** The pattern of [$or]; a [$regex] that is not a string cannot be
    cast. *)
Definition queryPattern (query : Query D) : Js (jsstring -> bool) :=
  match q_or query with
  | None => Ok (fun _ => true)
  | Some (_, QStr q) => regexCompile foldCase regexOther q
  | Some (_, QOther) => Throw CastError
  end.

(** [Model.find(query).sort({ createdAt: -1 })] *)
Definition find (query : Query D) : Handler D (list (N * D)) :=
  let* _ := logCall CallFind in
  let* re := liftJs (queryPattern query) in
  fun w =>
    (Ok (merge_sort newerFirst
           (List.filter (fun kd => matches query re kd.2)
                        (map_to_list (store w)))), w).

(** ** Routes shared in shape by the two resources *)

(** The resource's name in messages: "note"/"Note" or
    "bookmark"/"Bookmark". *)
Variable what What : string.

Definition msg (parts : list string) : list Message :=
  [Text (lit (String.concat EmptyString parts))].

(** The query construction of [GET /]. *)
Definition buildQuery (fields : list (D -> jsstring)) (user : N)
    (q tags favorite : option QValue) : Js (Query D) :=
  let query : Query D := Build_Query user None None None in
  let query : Query D :=
    if truthyQ q then
      match q with
      | Some qv => Build_Query (q_user query) (Some (fields, qv))
                               (q_tags_in query) (q_isFavorite query)
      | None => query
      end
    else query in
  query ←
    (if truthyQ tags return Js (Query D) then
       match tags with
       | Some (QStr s) =>
           let tagArray := tagFilter s in
           if bool_decide (0 < length tagArray)%nat
           then Ok (Build_Query (q_user query) (q_or query)
                                (Some tagArray) (q_isFavorite query))
           else Ok query
       | _ => Throw TypeError   (* [split] is not a function *)
       end
     else Ok query);
  let query :=
    if isString_true favorite
    then Build_Query (q_user query) (q_or query) (q_tags_in query) (Some true)
    else query in
  Ok query.

(** The [catch] clause of [PUT /:id]. *)
Definition updateCatch (error : JsError) : Response D :=
  match error with
  | ValidationError errors => respond 400 (BError errors)
  | CastError => respond 400 (BError (msg ["Invalid "; what; " ID"]))
  | _ => respond 500 (BError (msg ["Server error while updating "; what]))
  end.

(** [GET /] *)
Definition listRoute (fields : list (D -> jsstring)) (user : N)
    (q tags favorite : option QValue) : World D -> Response D * World D :=
  tryCatch
    (let* query := liftJs (buildQuery fields user q tags favorite) in
     let* docs := find query in
     hret (respond 200 (BList docs)))
    (fun error =>
       respond 500 (BError (msg ["Server error while fetching "; what; "s"]))).

(** [GET /:id] *)
Definition getRoute (user : N) (id : jsstring)
  : World D -> Response D * World D :=
  tryCatch
    (let* found := findOne id user in
     match found with
     | None => hret (respond 404 (BError (msg [What; " not found"])))
     | Some (k, d) => hret (respond 200 (BDoc k d))
     end)
    (fun error =>
       match error with
       | CastError => respond 400 (BError (msg ["Invalid "; what; " ID"]))
       | _ => respond 500 (BError (msg ["Server error while fetching "; what]))
       end).

(** [DELETE /:id] *)
Definition deleteRoute (user : N) (id : jsstring)
  : World D -> Response D * World D :=
  tryCatch
    (let* found := findOneAndDelete id user in
     match found with
     | None => hret (respond 404 (BError (msg [What; " not found"])))
     | Some _ => hret (respond 200 (BMessage
                         (lit (String.concat EmptyString
                                 [What; " deleted successfully"]))))
     end)
    (fun error =>
       match error with
       | CastError => respond 400 (BError (msg ["Invalid "; what; " ID"]))
       | _ => respond 500 (BError (msg ["Server error while deleting "; what]))
       end).

(** [PUT /:id].  [prepared] is the first half of the route, which
    either answers at once (a field check failed) or gives
    [updateData]; [cast] and [validate] are the schema's part in
    [findOneAndUpdate]. *)
Definition updateRoute {U} (prepared : Js (Response D + U))
    (cast : U -> Js (D -> D)) (validate : U -> list Message)
    (user : N) (id : jsstring) (now : Z)
  : World D -> Response D * World D :=
  tryCatch
    (let* p := liftJs prepared in
     match p with
     | inl early => hret early
     | inr updateData =>
         let* found := findOneAndUpdate id user (cast updateData)
                         (validate updateData) now in
         match found with
         | None => hret (respond 404 (BError (msg [What; " not found"])))
         | Some (k, d) => hret (respond 200 (BDoc k d))
         end
     end)
    updateCatch.

(** The [catch] clause of [POST /]. *)
Definition createCatch (error : JsError) : Response D :=
  match error with
  | ValidationError errors => respond 400 (BError errors)
  | _ => respond 500 (BError (msg ["Server error while creating "; what]))
  end.
End store.

(** [v || false] *)
Definition orFalse (v : field) : JValue :=
  match v with
  | Some x => if truthy v then x else JBool false
  | None => JBool false
  end.

(** The outcome of the check of a field that is validated only when it
    is present ([v !== undefined]). *)
Inductive Checked : Type :=
  | Rejected
  | Accepted (s : option jsstring).   (* [None]: the field is absent *)

Definition checkPresent (v : field) : Checked :=
  match v with
  | None => Accepted None
  | Some _ =>
      match requiredString v with
      | Some s => Accepted (Some s)
      | None => Rejected
      end
  end.

(** The failure of a cast at a document path, as a validation error. *)
Definition castErrors {A} (path : string) (v : JValue) (c : Js A)
  : list Message :=
  match c with Ok _ => [] | Throw _ => [CastFailed (lit path) v] end.

(** [tags !== undefined] and the tag processing of the PUT routes. *)
Definition updateTags (tags : field) : Js (option (list jsstring)) :=
  match tags with
  | Some v => ts ← processTagsUpdate v; Ok (Some ts)
  | None => Ok None
  end.

(** The cast of an [isFavorite] that is being set. *)
Definition castFavorite (v : field) : Js (option (option bool)) :=
  match v with
  | Some x => b ← castBoolean x; Ok (Some b)
  | None => Ok None
  end.

(** ** Notes ([models/Note.js], [routes/notes.js]) *)

Record Note : Type := {
  note_user : N;
  note_title : jsstring;
  note_content : jsstring;
  note_tags : list jsstring;
  note_isFavorite : option bool;   (* [None] is [null] *)
  note_createdAt : Z;
  note_updatedAt : Z
}.

#[global] Instance Note_Document : Document Note := {|
  doc_user := note_user;
  doc_createdAt := note_createdAt;
  doc_tags := note_tags;
  doc_isFavorite := note_isFavorite;
  doc_touch now d :=
    {| note_user := note_user d; note_title := note_title d;
       note_content := note_content d; note_tags := note_tags d;
       note_isFavorite := note_isFavorite d;
       note_createdAt := note_createdAt d; note_updatedAt := now |}
|}.

(** [req.body] of the note routes, destructured. *)
Record NoteBody : Type := {
  nb_title : field;
  nb_content : field;
  nb_tags : field;
  nb_isFavorite : field
}.

(** [new Note({ user, title, content, tags, isFavorite })] under the
    schema: string paths are trimmed, [isFavorite] is cast, and the
    failures are those [save] will report. *)
Definition newNote (user : N) (title content : jsstring)
    (tags : list jsstring) (isFavorite : JValue) (now : Z)
  : list Message * Note :=
  let title := trim title in
  let content := trim content in
  let fav := castBoolean isFavorite in
  (castErrors "isFavorite" isFavorite fav
   ++ required "Title is required" title
   ++ maxlength 200 "Title cannot exceed 200 characters" title
   ++ required "Content is required" content,
   {| note_user := user; note_title := title; note_content := content;
      note_tags := trim <$> tags;
      note_isFavorite := match fav with Ok b => b | Throw _ => None end;
      note_createdAt := now; note_updatedAt := now |}).

(** [updateData] of [PUT /:id]: the keys that were set. *)
Record NoteUpdate : Type := {
  nu_title : option jsstring;
  nu_content : option jsstring;
  nu_tags : option (list jsstring);
  nu_isFavorite : field
}.

(** The update as the schema casts it. *)
Definition castNoteUpdate (u : NoteUpdate) : Js (Note -> Note) :=
  fav ← castFavorite (nu_isFavorite u);
  Ok (fun d : Note =>
        {| note_user := note_user d;
           note_title := default (note_title d) (trim <$> nu_title u);
           note_content := default (note_content d) (trim <$> nu_content u);
           note_tags := default (note_tags d) ((fun ts : list jsstring => trim <$> ts) <$> nu_tags u);
           note_isFavorite := default (note_isFavorite d) fav;
           note_createdAt := note_createdAt d;
           note_updatedAt := note_updatedAt d |}).

(** The update validators: those of the paths being set. *)
Definition noteUpdateErrors (u : NoteUpdate) : list Message :=
  match nu_title u with
  | Some t => required "Title is required" (trim t)
              ++ maxlength 200 "Title cannot exceed 200 characters" (trim t)
  | None => []
  end
  ++ match nu_content u with
     | Some c => required "Content is required" (trim c)
     | None => []
     end.

(** The first half of [PUT /:id]: the checks of the fields that are
    present, and [updateData]. *)
Definition noteUpdateData (req : NoteBody) : Js (Response Note + NoteUpdate) :=
  match checkPresent (nb_title req) with
  | Rejected => Ok (inl (respond 400 (BError [Text (lit "Title is required")])))
  | Accepted title =>
  match checkPresent (nb_content req) with
  | Rejected => Ok (inl (respond 400 (BError [Text (lit "Content is required")])))
  | Accepted content =>
      tags ← updateTags (nb_tags req);
      Ok (inr {| nu_title := trim <$> title; nu_content := trim <$> content;
                 nu_tags := tags; nu_isFavorite := nb_isFavorite req |})
  end end.

Section notes.
Variable castObjectId : jsstring -> option N.
Variable foldCase : N -> N.
Variable regexOther : jsstring -> option (jsstring -> bool).

(** [POST /] *)
Definition createNote (user : N) (req : NoteBody) (newId : N) (now : Z)
  : World Note -> Response Note * World Note :=
  tryCatch
    (match requiredString (nb_title req) with
     | None => hret (respond 400 (BError [Text (lit "Title is required")]))
     | Some title =>
     match requiredString (nb_content req) with
     | None => hret (respond 400 (BError [Text (lit "Content is required")]))
     | Some content =>
         let* tagsArray := liftJs (processTags (nb_tags req)) in
         let note := newNote user (trim title) (trim content) tagsArray
                             (orFalse (nb_isFavorite req)) now in
         let* saved := save newId note.1 note.2 in
         hret (respond 201 (BDoc saved.1 saved.2))
     end end)
    (createCatch "note").

(** [GET /] *)
Definition listNotes (user : N) (q tags favorite : option QValue)
  : World Note -> Response Note * World Note :=
  listRoute foldCase regexOther "note" [note_title; note_content]
            user q tags favorite.

(** [GET /:id] *)
Definition getNote (user : N) (id : jsstring)
  : World Note -> Response Note * World Note :=
  getRoute castObjectId "note" "Note" user id.

(** [PUT /:id] *)
Definition updateNote (user : N) (id : jsstring) (req : NoteBody) (now : Z)
  : World Note -> Response Note * World Note :=
  updateRoute castObjectId "note" "Note" (noteUpdateData req)
              castNoteUpdate noteUpdateErrors user id now.

(** [DELETE /:id] *)
Definition deleteNote (user : N) (id : jsstring)
  : World Note -> Response Note * World Note :=
  deleteRoute castObjectId "note" "Note" user id.
End notes.

(** ** Bookmarks ([models/Bookmark.js], [routes/bookmarks.js]) *)

Record Bookmark : Type := {
  bm_user : N;
  bm_url : jsstring;
  bm_title : jsstring;
  bm_description : jsstring;
  bm_tags : list jsstring;
  bm_isFavorite : option bool;
  bm_createdAt : Z;
  bm_updatedAt : Z
}.

#[global] Instance Bookmark_Document : Document Bookmark := {|
  doc_user := bm_user;
  doc_createdAt := bm_createdAt;
  doc_tags := bm_tags;
  doc_isFavorite := bm_isFavorite;
  doc_touch now d :=
    {| bm_user := bm_user d; bm_url := bm_url d; bm_title := bm_title d;
       bm_description := bm_description d; bm_tags := bm_tags d;
       bm_isFavorite := bm_isFavorite d;
       bm_createdAt := bm_createdAt d; bm_updatedAt := now |}
|}.

Record BookmarkBody : Type := {
  bb_url : field;
  bb_title : field;
  bb_description : field;
  bb_tags : field;
  bb_isFavorite : field
}.

Definition urlMessage : string :=
  "Please provide a valid URL (must start with http:// or https://)".

(** The schema's validator of [url]. *)
Definition urlErrors (url : jsstring) : list Message :=
  required "URL is required" url
  ++ (if urlPattern_test url then [] else [Text (lit urlMessage)]).

(** [new Bookmark({ user, url, title, description, tags, isFavorite })]
    under the schema. *)
Definition newBookmark (user : N) (url title description : jsstring)
    (tags : list jsstring) (isFavorite : JValue) (now : Z)
  : list Message * Bookmark :=
  let url := trim url in
  let title := trim title in
  let description := trim description in
  let fav := castBoolean isFavorite in
  (castErrors "isFavorite" isFavorite fav
   ++ urlErrors url
   ++ maxlength 200 "Title cannot exceed 200 characters" title
   ++ maxlength 500 "Description cannot exceed 500 characters" description,
   {| bm_user := user; bm_url := url; bm_title := title;
      bm_description := description; bm_tags := trim <$> tags;
      bm_isFavorite := match fav with Ok b => b | Throw _ => None end;
      bm_createdAt := now; bm_updatedAt := now |}).

Record BookmarkUpdate : Type := {
  bu_url : option jsstring;
  bu_title : option jsstring;
  bu_description : option jsstring;
  bu_tags : option (list jsstring);
  bu_isFavorite : field
}.

Definition castBookmarkUpdate (u : BookmarkUpdate) : Js (Bookmark -> Bookmark) :=
  fav ← castFavorite (bu_isFavorite u);
  Ok (fun d : Bookmark =>
        {| bm_user := bm_user d;
           bm_url := default (bm_url d) (trim <$> bu_url u);
           bm_title := default (bm_title d) (trim <$> bu_title u);
           bm_description := default (bm_description d) (trim <$> bu_description u);
           bm_tags := default (bm_tags d) ((fun ts : list jsstring => trim <$> ts) <$> bu_tags u);
           bm_isFavorite := default (bm_isFavorite d) fav;
           bm_createdAt := bm_createdAt d;
           bm_updatedAt := bm_updatedAt d |}).

Definition bookmarkUpdateErrors (u : BookmarkUpdate) : list Message :=
  match bu_url u with Some v => urlErrors (trim v) | None => [] end
  ++ match bu_title u with
     | Some t => maxlength 200 "Title cannot exceed 200 characters" (trim t)
     | None => []
     end
  ++ match bu_description u with
     | Some t => maxlength 500 "Description cannot exceed 500 characters" (trim t)
     | None => []
     end.

(** The test [!bookmarkTitle || bookmarkTitle.trim() === ''] on the
    title of the request: [Ok None] when it holds, [Ok (Some s)] when
    the title is the non-blank string [s]; a truthy title that is not a
    string has no [trim]. *)
Definition givenTitle (title : field) : Js (option jsstring) :=
  if negb (truthy title) then Ok None
  else match title with
       | Some (JStr s) =>
           if bool_decide (trim s = []) then Ok None else Ok (Some s)
       | _ => Throw TypeError
       end.

(** [v !== undefined] and [v ? v.trim() : ''] *)
Definition updateText (v : field) : Js (option jsstring) :=
  match v with
  | Some _ => s ← trimOrEmpty v; Ok (Some s)
  | None => Ok None
  end.

Definition bookmarkUpdateData (req : BookmarkBody)
  : Js (Response Bookmark + BookmarkUpdate) :=
  match checkPresent (bb_url req) with
  | Rejected => Ok (inl (respond 400 (BError [Text (lit "URL is required")])))
  | Accepted url =>
  if negb (from_option (fun u => urlPattern_test (trim u)) true url) then
    Ok (inl (respond 400 (BError [Text (lit urlMessage)])))
  else
    title ← updateText (bb_title req);
    description ← updateText (bb_description req);
    tags ← updateTags (bb_tags req);
    Ok (inr {| bu_url := trim <$> url; bu_title := title;
               bu_description := description; bu_tags := tags;
               bu_isFavorite := bb_isFavorite req |})
  end.

Section bookmarks.
Variable castObjectId : jsstring -> option N.
Variable foldCase : N -> N.
Variable regexOther : jsstring -> option (jsstring -> bool).
Variable remote : Remote.

(** The title of a new bookmark: the one given, or else the fetched
    one, or else the URL. *)
Definition bookmarkTitleOf (title : field) (url : jsstring)
  : Handler Bookmark jsstring :=
  let* given := liftJs (givenTitle title) in
  match given with
  | Some s => hret s
  | None =>
      let* _ := logCall (CallFetchMetadata url) in
      let bookmarkTitle := fetchMetadata remote url in
      hret (if negb (truthyStr bookmarkTitle) then url
            else default url bookmarkTitle)
  end.

(** [POST /] *)
Definition createBookmark (user : N) (req : BookmarkBody) (newId : N)
    (now : Z) : World Bookmark -> Response Bookmark * World Bookmark :=
  tryCatch
    (match requiredString (bb_url req) with
     | None => hret (respond 400 (BError [Text (lit "URL is required")]))
     | Some url =>
     if negb (urlPattern_test (trim url)) then
       hret (respond 400 (BError [Text (lit urlMessage)]))
     else
       let* tagsArray := liftJs (processTags (bb_tags req)) in
       let* bookmarkTitle := bookmarkTitleOf (bb_title req) url in
       let* description := liftJs (trimOrEmpty (bb_description req)) in
       let bookmark := newBookmark user (trim url) (trim bookmarkTitle)
                         description tagsArray
                         (orFalse (bb_isFavorite req)) now in
       let* saved := save newId bookmark.1 bookmark.2 in
       hret (respond 201 (BDoc saved.1 saved.2))
     end)
    (createCatch "bookmark").

(** [GET /] *)
Definition listBookmarks (user : N) (q tags favorite : option QValue)
  : World Bookmark -> Response Bookmark * World Bookmark :=
  listRoute foldCase regexOther "bookmark" [bm_title; bm_description; bm_url]
            user q tags favorite.

(** [GET /:id] *)
Definition getBookmark (user : N) (id : jsstring)
  : World Bookmark -> Response Bookmark * World Bookmark :=
  getRoute castObjectId "bookmark" "Bookmark" user id.

(** [PUT /:id] *)
Definition updateBookmark (user : N) (id : jsstring) (req : BookmarkBody)
    (now : Z) : World Bookmark -> Response Bookmark * World Bookmark :=
  updateRoute castObjectId "bookmark" "Bookmark" (bookmarkUpdateData req)
              castBookmarkUpdate bookmarkUpdateErrors user id now.

(** [DELETE /:id] *)
Definition deleteBookmark (user : N) (id : jsstring)
  : World Bookmark -> Response Bookmark * World Bookmark :=
  deleteRoute castObjectId "bookmark" "Bookmark" user id.
End bookmarks.

(** The cast of a 24-digit hexadecimal string, for examples. *)
Definition hexDigit (c : N) : option N :=
  if (48 <=? c) && (c <=? 57) then Some (c - 48)
  else if (97 <=? c) && (c <=? 102) then Some (c - 87)
  else if (65 <=? c) && (c <=? 70) then Some (c - 55)
  else None.

Definition hexObjectId (s : jsstring) : option N :=
  if bool_decide (length s = 24%nat) then
    foldl (fun acc c => a ← acc; d ← hexDigit c; Some (16 * a + d)) (Some 0) s
  else None.

(** A request starts with an empty call log. *)
Definition fresh {D} (st : gmap N D) : World D :=
  {| store := st; calls := [] |}.

(** Specification-level: the id names no record, or a record of another
    user. *)
Definition notOwned {D} `{Document D} (user k : N) (st : gmap N D) : Prop :=
  st !! k = None \/ exists d, st !! k = Some d /\ doc_user d <> user.

(** Specification-level: the body of an update request is acceptable
    when its fields pass the route's checks and the store's casts and
    validators, so that only the record remains to be found. *)
Definition acceptable {D U} (prepared : Js (Response D + U))
    (cast : U -> Js (D -> D)) (validate : U -> list Message) : Prop :=
  exists u f, prepared = Ok (inr u) /\ cast u = Ok f /\ validate u = [].

(** The world without the record [k]. *)
Definition without {D} (k : N) (w : World D) : World D :=
  {| store := delete k (store w); calls := calls w |}.

(** The world once [findOneAndUpdate] has been called. *)
Definition logged {D} (id : jsstring) (w : World D) : World D :=
  {| store := store w; calls := calls w ++ [CallFindOneAndUpdate id] |}.

(** Records and requests for examples. *)
Definition sample_id : jsstring := lit "000000000000000000000064".

Definition sample_note : Note :=
  {| note_user := 7; note_title := lit "Meeting notes";
     note_content := lit "agenda"; note_tags := [lit "work"];
     note_isFavorite := Some false;
     note_createdAt := 5; note_updatedAt := 5 |}.

Definition sample_bookmark : Bookmark :=
  {| bm_user := 7; bm_url := lit "https://example.org";
     bm_title := lit "Example"; bm_description := [];
     bm_tags := [lit "web"]; bm_isFavorite := Some true;
     bm_createdAt := 6; bm_updatedAt := 6 |}.

(** A body whose title is the empty string. *)
Definition blank_title_body : NoteBody :=
  {| nb_title := Some (JStr []); nb_content := None; nb_tags := None;
     nb_isFavorite := None |}.

(** [{ "isFavorite": true }] *)
Definition favorite_note_body : NoteBody :=
  {| nb_title := None; nb_content := None; nb_tags := None;
     nb_isFavorite := Some (JBool true) |}.

Definition favorite_bookmark_body : BookmarkBody :=
  {| bb_url := None; bb_title := None; bb_description := None;
     bb_tags := None; bb_isFavorite := Some (JBool true) |}.

(** Specification-level: a text matches the http(s) pattern when it is
    "http://" or "https://" followed by at least one character that is
    not a line terminator. *)
Definition matchesHttp (t : jsstring) : Prop :=
  exists c rest,
    isLineTerminator c = false
    /\ (t = lit "http://" ++ c :: rest \/ t = lit "https://" ++ c :: rest).

(** A URL field that is a string matching the pattern once trimmed. *)
Definition httpUrl (v : field) : Prop :=
  exists s, v = Some (JStr s) /\ matchesHttp (trim s).

(** A field that holds no text: absent, not a string, or blank. *)
Definition noText (v : field) : Prop :=
  match v with
  | Some (JStr s) => blank s = true
  | _ => True
  end.

(** The world once [save] has been called. *)
Definition saving {D} (w : World D) : World D :=
  {| store := store w; calls := calls w ++ [CallSave] |}.



(** Specification-level: no title is supplied, a title is supplied. *)
Definition titleAbsentOrBlank (v : field) : Prop :=
  v = None \/ exists s, v = Some (JStr s) /\ blank s = true.

Definition nonBlankTitle (v : field) : Prop :=
  exists s, v = Some (JStr s) /\ blank s = false.

(** The world once the metadata fetcher has been called. *)
Definition fetching {D} (url : jsstring) (w : World D) : World D :=
  {| store := store w; calls := calls w ++ [CallFetchMetadata url] |}.

(** A remote world in which every fetch fails. *)
Definition unreachable : Remote := fun _ => Throw OtherError.

(** [{ "url": "http://x.com " }] *)
Definition padded_url_body : BookmarkBody :=
  {| bb_url := Some (JStr (lit "http://x.com ")); bb_title := None;
     bb_description := None; bb_tags := None; bb_isFavorite := None |}.

(** [{ "url": "http://x.com", "title": "  " }] *)
Definition blank_title_bookmark_body : BookmarkBody :=
  {| bb_url := Some (JStr (lit "http://x.com"));
     bb_title := Some (JStr (lit "  "));
     bb_description := None; bb_tags := None; bb_isFavorite := None |}.

(** [{ "url": "http://x.com", "title": "X" }] *)
Definition titled_bookmark_body : BookmarkBody :=
  {| bb_url := Some (JStr (lit "http://x.com"));
     bb_title := Some (JStr (lit "X"));
     bb_description := None; bb_tags := None; bb_isFavorite := None |}.

(** Specification-level: what an update of [d] into [d'] by the request
    [req] must satisfy -- owner and creation time kept, every absent
    field kept, every present field set from the request (a text
    trimmed, the tags through the tag normaliser, the flag cast). *)
Definition noteFieldsApplied (req : NoteBody) (d d' : Note) : Prop :=
  note_user d' = note_user d
  /\ note_createdAt d' = note_createdAt d
  /\ (nb_title req = None -> note_title d' = note_title d)
  /\ (nb_content req = None -> note_content d' = note_content d)
  /\ (nb_tags req = None -> note_tags d' = note_tags d)
  /\ (nb_isFavorite req = None -> note_isFavorite d' = note_isFavorite d)
  /\ (forall v, nb_title req = Some v ->
        exists s, v = JStr s /\ blank s = false /\ note_title d' = trim s)
  /\ (forall v, nb_content req = Some v ->
        exists s, v = JStr s /\ blank s = false /\ note_content d' = trim s)
  /\ (forall v, nb_tags req = Some v ->
        processTags (Some v) = Ok (note_tags d'))
  /\ (forall v, nb_isFavorite req = Some v ->
        castBoolean v = Ok (note_isFavorite d')).

Definition bookmarkFieldsApplied (req : BookmarkBody) (d d' : Bookmark)
  : Prop :=
  bm_user d' = bm_user d
  /\ bm_createdAt d' = bm_createdAt d
  /\ (bb_url req = None -> bm_url d' = bm_url d)
  /\ (bb_title req = None -> bm_title d' = bm_title d)
  /\ (bb_description req = None -> bm_description d' = bm_description d)
  /\ (bb_tags req = None -> bm_tags d' = bm_tags d)
  /\ (bb_isFavorite req = None -> bm_isFavorite d' = bm_isFavorite d)
  /\ (forall v, bb_url req = Some v ->
        exists s, v = JStr s /\ matchesHttp (trim s) /\ bm_url d' = trim s)
  /\ (forall v, bb_title req = Some v ->
        trimOrEmpty (Some v) = Ok (bm_title d'))
  /\ (forall v, bb_description req = Some v ->
        trimOrEmpty (Some v) = Ok (bm_description d'))
  /\ (forall v, bb_tags req = Some v ->
        processTags (Some v) = Ok (bm_tags d'))
  /\ (forall v, bb_isFavorite req = Some v ->
        castBoolean v = Ok (bm_isFavorite d')).

(** [{ "tags": "b, a b", "isFavorite": "yes" }] *)
Definition retag_body : NoteBody :=
  {| nb_title := None; nb_content := None;
     nb_tags := Some (JStr (lit "b, a b"));
     nb_isFavorite := Some (JStr (lit "yes")) |}.

(** A filter and its compiled pattern select these records of a
    store. *)
Definition selected {D} `{Document D} (query : Query D)
    (re : jsstring -> bool) (st : gmap N D) : list (N * D) :=
  merge_sort newerFirst
    (List.filter (fun kd => matches query re kd.2) (map_to_list st)).

(** The world once [find] has been called. *)
Definition finding {D} (w : World D) : World D :=
  {| store := store w; calls := calls w ++ [CallFind] |}.

(** Specification-level: a text of commas and whitespace only. *)
Definition commasAndSpace (s : jsstring) : bool :=
  forallb (fun c => (c =? 44) || isWhiteSpace c) s.

(** No regular-expression metacharacter. *)
Definition literalPattern (q : jsstring) : bool :=
  forallb (fun c => negb (isMeta c)) q.

(** The text fields searched in a note and in a bookmark. *)
Definition noteText (re : jsstring -> bool) (d : Note) : bool :=
  re (note_title d) || re (note_content d).

Definition bookmarkText (re : jsstring -> bool) (d : Bookmark) : bool :=
  re (bm_title d) || re (bm_description d) || re (bm_url d).

(** No pattern beyond the modelled fragment compiles. *)
Definition noOtherRegex : jsstring -> option (jsstring -> bool) :=
  fun _ => None.

(** ** Authentication middleware ([middleware/auth.js]) *)

(** [s.replace(pat, '')] for a string [pat]: the first occurrence of
    [pat] is removed, and [s] is returned as it is when there is
    none. *)
Fixpoint removeFirst (pat s : jsstring) {struct s} : jsstring :=
  match s with
  | [] => []
  | c :: s' =>
      match stripPrefix pat s with
      | Some rest => rest
      | None => c :: removeFirst pat s'
      end
  end.

(** The outcome of the middleware: it answers itself, or it sets
    [req.user] and calls [next()]. *)
Inductive Authed (D : Type) : Type :=
  | Denied (r : Response D)
  | Next (user : N).
Arguments Denied {D} r.
Arguments Next {D} user.

Section auth.
(** [jwt.verify(token, process.env.JWT_SECRET)]: the decoded payload;
    it throws on a token that is malformed, forged or expired. *)
Variable Payload : Type.
Variable jwtVerify : jsstring -> Js Payload.
(** [User.findById(decoded.userId).select('-password')]: the id of the
    user found, [None] for [null]; it throws when [userId] cannot be
    cast. *)
Variable findUserById : Payload -> Js (option N).
Context {D : Type}.

(** The body of the [try] block; [authorization] is
    [req.header('Authorization')]. *)
Definition auth_try (authorization : option jsstring) : Js (Authed D) :=
  let token := removeFirst (lit "Bearer ") <$> authorization in
  if negb (truthyStr token) then
    Ok (Denied (respond 401
          (BError [Text (lit "No token provided. Authentication required.")])))
  else
    decoded ← jwtVerify (default [] token);
    user ← findUserById decoded;
    match user with
    | None =>
        Ok (Denied (respond 401
              (BError [Text (lit "Invalid token. User not found.")])))
    | Some u => Ok (Next u)
    end.

Definition auth (authorization : option jsstring) : Authed D :=
  match auth_try authorization with
  | Ok a => a
  | Throw _ =>
      Denied (respond 401
                (BError [Text (lit "Invalid token. Please authenticate.")]))
  end.

(** [router.use(auth)]: a route runs only when the middleware calls
    [next()], for the user it has set. *)
Definition guarded (route : N -> World D -> Response D * World D)
    (authorization : option jsstring) : World D -> Response D * World D :=
  fun w =>
    match auth authorization with
    | Denied r => (r, w)
    | Next user => route user w
    end.
End auth.

(** Specification-level: [pat] occurs in [s]. *)
Definition occursIn (pat s : jsstring) : Prop :=
  exists a b, s = a ++ pat ++ b.

(** ** The routers *)

(** A request to the notes router, by verb and path, with what the
    environment supplies to a handler that stores: the id of a new
    document and the time. *)
Inductive NoteRequest : Type :=
  | PostNote (req : NoteBody) (newId : N) (now : Z)
  | ListNotes (q tags favorite : option QValue)
  | GetNote (id : jsstring)
  | PutNote (id : jsstring) (req : NoteBody) (now : Z)
  | DeleteNote (id : jsstring).

Inductive BookmarkRequest : Type :=
  | PostBookmark (req : BookmarkBody) (newId : N) (now : Z)
  | ListBookmarks (q tags favorite : option QValue)
  | GetBookmark (id : jsstring)
  | PutBookmark (id : jsstring) (req : BookmarkBody) (now : Z)
  | DeleteBookmark (id : jsstring).

Section routers.
Variable castObjectId : jsstring -> option N.
Variable foldCase : N -> N.
Variable regexOther : jsstring -> option (jsstring -> bool).
Variable remote : Remote.

Definition notesRouter (user : N) (r : NoteRequest)
  : World Note -> Response Note * World Note :=
  match r with
  | PostNote req newId now => createNote user req newId now
  | ListNotes q tags favorite =>
      listNotes foldCase regexOther user q tags favorite
  | GetNote id => getNote castObjectId user id
  | PutNote id req now => updateNote castObjectId user id req now
  | DeleteNote id => deleteNote castObjectId user id
  end.

Definition bookmarksRouter (user : N) (r : BookmarkRequest)
  : World Bookmark -> Response Bookmark * World Bookmark :=
  match r with
  | PostBookmark req newId now => createBookmark remote user req newId now
  | ListBookmarks q tags favorite =>
      listBookmarks foldCase regexOther user q tags favorite
  | GetBookmark id => getBookmark castObjectId user id
  | PutBookmark id req now => updateBookmark castObjectId user id req now
  | DeleteBookmark id => deleteBookmark castObjectId user id
  end.

(** The requests of a session, one after the other, each by its
    user. *)
Definition serveNotes (rs : list (N * NoteRequest)) (st : gmap N Note)
  : gmap N Note :=
  foldl (fun st ur => store (notesRouter ur.1 ur.2 (fresh st)).2) st rs.

Definition serveBookmarks (rs : list (N * BookmarkRequest))
    (st : gmap N Bookmark) : gmap N Bookmark :=
  foldl (fun st ur => store (bookmarksRouter ur.1 ur.2 (fresh st)).2) st rs.
End routers.

(** The records that a response shows. *)
Definition shown {D} (r : Response D) : list (N * D) :=
  match body r with
  | BDoc k d => [(k, d)]
  | BList l => l
  | BError _ | BMessage _ => []
  end.

(** Specification-level: the form in which the routes keep a tag list,
    a note and a bookmark. *)
Definition tagsOK (ts : list jsstring) : Prop :=
  NoDup ts /\ Forall (fun t => nonEmpty t = true /\ trim t = t) ts.

Definition noteOK (d : Note) : Prop :=
  nonEmpty (note_title d) = true /\ trim (note_title d) = note_title d
  /\ (length (note_title d) <= 200)%nat
  /\ nonEmpty (note_content d) = true
  /\ trim (note_content d) = note_content d
  /\ tagsOK (note_tags d).

Definition bookmarkOK (d : Bookmark) : Prop :=
  matchesHttp (bm_url d) /\ trim (bm_url d) = bm_url d
  /\ trim (bm_title d) = bm_title d /\ (length (bm_title d) <= 200)%nat
  /\ trim (bm_description d) = bm_description d
  /\ (length (bm_description d) <= 500)%nat
  /\ tagsOK (bm_tags d).

(** An authentication environment for examples: one token, "tok", of
    the user 7. *)
Definition demoVerify (t : jsstring) : Js N :=
  if bool_decide (t = lit "tok") then Ok 7 else Throw OtherError.

Definition demoFindUser (userId : N) : Js (option N) :=
  if userId =? 7 then Ok (Some 7) else Ok None.

(** The store call of a request: each route makes one kind of call. *)
Definition noteCall (r : NoteRequest) : Call :=
  match r with
  | PostNote _ _ _ => CallSave
  | ListNotes _ _ _ => CallFind
  | GetNote id => CallFindOne id
  | PutNote id _ _ => CallFindOneAndUpdate id
  | DeleteNote id => CallFindOneAndDelete id
  end.

Definition bookmarkCall (r : BookmarkRequest) : Call :=
  match r with
  | PostBookmark _ _ _ => CallSave
  | ListBookmarks _ _ _ => CallFind
  | GetBookmark id => CallFindOne id
  | PutBookmark id _ _ => CallFindOneAndUpdate id
  | DeleteBookmark id => CallFindOneAndDelete id
  end.

(** A page with a title element only, and a remote world that serves
    it for every URL. *)
Definition titled_page : Page :=
  {| og_title := None; twitter_title := None;
     title_text := lit "  Example   Domain "; h1_text := [] |}.

Definition online : Remote := fun _ => Ok titled_page.

(** A URL of 207 characters, and bodies for examples. *)
Definition long_url : jsstring := lit "http://" ++ repeat 97 200.

Definition long_url_body : BookmarkBody :=
  {| bb_url := Some (JStr long_url); bb_title := None;
     bb_description := None; bb_tags := None; bb_isFavorite := None |}.

Definition valid_note_body : NoteBody :=
  {| nb_title := Some (JStr (lit " Shopping "));
     nb_content := Some (JStr (lit "milk"));
     nb_tags := Some (JStr (lit "home, list"));
     nb_isFavorite := Some (JBool true) |}.

(** [{ "toString": 1 }] *)
Definition unprintable : JValue := JObj [(lit "toString", JNum (lit "1"))].

(** [{ "title": "T", "content": "c", "tags": [{ "toString": 1 }] }] *)
Definition unprintable_tag_body : NoteBody :=
  {| nb_title := Some (JStr (lit "T")); nb_content := Some (JStr (lit "c"));
     nb_tags := Some (JArr [unprintable]); nb_isFavorite := None |}.

(** * Properties *)

Example processTags_spec_example_1 :
  processTags (Some (JArr [JStr (lit "a"); JStr (lit " a "); JStr ([]); JStr (lit "b")]))
  = Ok [lit "a"; lit "b"].
Proof. vm_compute. reflexivity. Qed.

Example processTags_spec_example_2 :
  processTags (Some (JStr (lit "foo, bar #baz  qux")))
  = Ok [lit "foo"; lit "bar"; lit "baz"; lit "qux"].
Proof. vm_compute. reflexivity. Qed.

Example ToString_nested :
  ToString (JArr [JNum (lit "1"); JNull; JArr [JStr (lit "x"); JBool true]; JObj []])
  = Ok (lit "1,,x,true,[object Object]").
Proof. vm_compute. reflexivity. Qed.

Example split_edges :
  split isTagSep (lit ",a,, b#") = [[]; lit "a"; lit "b"; []]
  /\ split isTagSep ([]) = [[]]
  /\ split isTagSep (lit " ,") = [[]; []].
Proof. vm_compute. auto. Qed.

(** ** Trimming *)

Section trimming.
Implicit Types (s t : jsstring) (p : N -> bool).

Lemma dropWhile_head p s c r : dropWhile p s = c :: r -> p c = false.
Proof.
  induction s as [|a s IH]; simpl; [done|].
  destruct (p a) eqn:Ha; [done|]. by intros [= <- <-].
Qed.

Lemma dropWhile_suffix p s : exists a, s = a ++ dropWhile p s.
Proof.
  induction s as [|c s [a IH]]; simpl; [by exists []|].
  destruct (p c); [|by exists []].
  exists (c :: a). simpl. by rewrite <- IH.
Qed.

Lemma dropWhile_id p s :
  match s with c :: _ => p c = false | [] => True end -> dropWhile p s = s.
Proof. destruct s as [|c s]; simpl; [done|]. by intros ->. Qed.

Lemma dropWhile_all p s : forallb p s = true -> dropWhile p s = [].
Proof.
  induction s as [|c s IH]; simpl; [done|].
  intros [-> ?]%andb_prop. auto.
Qed.

Lemma trimStart_noLead s : noLead (trimStart s).
Proof.
  unfold trimStart, noLead.
  destruct (dropWhile isWhiteSpace s) eqn:E; [done|].
  by eapply dropWhile_head.
Qed.

Lemma trimEnd_noTrail s : noTrail (trimEnd s).
Proof.
  unfold noTrail, trimEnd. rewrite reverse_involutive.
  apply (trimStart_noLead (reverse s)).
Qed.

Lemma trimStart_id s : noLead s -> trimStart s = s.
Proof. apply dropWhile_id. Qed.

Lemma trimEnd_id s : noTrail s -> trimEnd s = s.
Proof.
  intros H. unfold trimEnd.
  rewrite (dropWhile_id _ (reverse s)); [apply reverse_involutive | exact H].
Qed.

Lemma trimEnd_prefix s : exists b, s = trimEnd s ++ b.
Proof.
  unfold trimEnd.
  destruct (dropWhile_suffix isWhiteSpace (reverse s)) as [a Ha].
  exists (reverse a).
  rewrite <- reverse_app, <- Ha. by rewrite reverse_involutive.
Qed.

Lemma trimEnd_noLead s : noLead s -> noLead (trimEnd s).
Proof.
  intros H. destruct (trimEnd_prefix s) as [b Hb].
  destruct (trimEnd s) as [|c r]; [done|].
  rewrite Hb in H. exact H.
Qed.

Lemma trim_noLead s : noLead (trim s).
Proof. apply trimEnd_noLead, trimStart_noLead. Qed.

Lemma trim_noTrail s : noTrail (trim s).
Proof. apply trimEnd_noTrail. Qed.

Lemma trim_id s : noLead s -> noTrail s -> trim s = s.
Proof.
  intros H1 H2. unfold trim. rewrite (trimStart_id s H1). by apply trimEnd_id.
Qed.

Lemma trim_idemp s : trim (trim s) = trim s.
Proof. apply trim_id; [apply trim_noLead | apply trim_noTrail]. Qed.

Lemma blank_noLead s : nonEmpty s = true -> noLead s -> blank s = false.
Proof. destruct s as [|c s]; [done|]. simpl. by intros _ ->. Qed.

(** What survives [trim] and the [length > 0] filter is neither empty
    nor whitespace-only. *)
Lemma trim_nonEmpty_not_blank s :
  nonEmpty (trim s) = true -> blank (trim s) = false.
Proof. intros H. apply blank_noLead; [done | apply trim_noLead]. Qed.

Lemma trim_blank s : blank s = true -> trim s = [].
Proof.
  intros H. unfold trim, trimStart.
  by rewrite (dropWhile_all _ _ H).
Qed.

Lemma no_ws_trim s :
  Forall (fun c => isWhiteSpace c = false) s -> trim s = s.
Proof.
  intros H. apply trim_id.
  - destruct H; simpl; auto.
  - unfold noTrail. apply Forall_reverse in H. destruct H; simpl; auto.
Qed.
End trimming.

(** ** Splitting *)

Section splitting.
Variable sep : N -> bool.
Implicit Types (s cur : jsstring).

Lemma split_run_sep_head cur c s :
  sep c = true ->
  List.filter nonEmpty (split_run sep cur (c :: s))
  = List.filter nonEmpty (cur :: split_run sep [] s)
  /\ List.filter nonEmpty (split_run sep [] (c :: s))
     = List.filter nonEmpty (split_run sep [] s).
Proof.
  revert cur c. induction s as [|c' s IH]; intros cur c Hc.
  - simpl. rewrite Hc. simpl. done.
  - change (split_run sep cur (c :: c' :: s))
      with (if sep c then if sep c' then split_run sep cur (c' :: s)
                          else cur :: split_run sep [] (c' :: s)
            else split_run sep (cur ++ [c]) (c' :: s)).
    change (split_run sep [] (c :: c' :: s))
      with (if sep c then if sep c' then split_run sep [] (c' :: s)
                          else [] :: split_run sep [] (c' :: s)
            else split_run sep ([] ++ [c]) (c' :: s)).
    rewrite Hc. destruct (sep c') eqn:Hc'.
    + destruct (IH cur c' Hc') as [E1 E2]. split; [|done].
      rewrite E1. cbn [List.filter]. by rewrite E2.
    + done.
Qed.

(** Dropping the empty pieces of [split] leaves the maximal runs of
    non-separators. *)
Lemma filter_split_run cur s :
  List.filter nonEmpty (split_run sep cur s) = tokens_from sep cur s.
Proof.
  revert cur. induction s as [|c s IH]; intros cur; [done|].
  destruct (sep c) eqn:Hc.
  - destruct (split_run_sep_head cur c s Hc) as [-> _].
    simpl. rewrite Hc, IH. done.
  - simpl. rewrite Hc. apply IH.
Qed.

Lemma split_run_pieces cur s p :
  Forall (fun c => sep c = false) cur ->
  p ∈ split_run sep cur s -> Forall (fun c => sep c = false) p.
Proof.
  revert cur. induction s as [|c s IH]; intros cur Hcur.
  - simpl. by intros ->%list_elem_of_singleton.
  - simpl. destruct (sep c) eqn:Hc.
    + destruct s as [|c' s'].
      * simpl. intros [->| ->%list_elem_of_singleton]%elem_of_cons; auto.
      * destruct (sep c') eqn:Hc'; [by apply IH|].
        intros [->|H]%elem_of_cons; [done|]. by apply (IH []).
    + apply IH. apply Forall_app. split; [done|]. by constructor.
Qed.

Lemma tokens_from_pieces cur s p :
  Forall (fun c => sep c = false) cur ->
  p ∈ tokens_from sep cur s ->
  nonEmpty p = true /\ Forall (fun c => sep c = false) p.
Proof.
  rewrite <- filter_split_run. intros Hcur [Hp Hne]%list_elem_of_In%filter_In.
  split; [done|]. eapply split_run_pieces; [done|]. by apply list_elem_of_In.
Qed.
End splitting.

Lemma isTagSep_ws c : isTagSep c = false -> isWhiteSpace c = false.
Proof. unfold isTagSep. intros H. by destruct (c =? 44), (isWhiteSpace c). Qed.

(** The pieces of a tag string hold no whitespace, so trimming them
    changes nothing. *)
Lemma tag_pieces s :
  List.filter nonEmpty (trim <$> split isTagSep s) = tokens isTagSep s.
Proof.
  unfold tokens. rewrite <- filter_split_run. f_equal.
  transitivity (id <$> split isTagSep s); [|apply list_fmap_id].
  apply list_fmap_ext. intros i p Hp. apply no_ws_trim.
  eapply Forall_impl; [|apply isTagSep_ws].
  eapply (split_run_pieces isTagSep []); [done|].
  eapply list_elem_of_lookup_2, Hp.
Qed.

(** ** Deduplication through a Set *)

Section dedup.
Implicit Types (x y : jsstring) (l acc : list jsstring).

Lemma Set_from_snoc l x : Set_from (l ++ [x]) = Set_add (Set_from l) x.
Proof. unfold Set_from. by rewrite foldl_app. Qed.

Lemma elem_of_Set_add acc x y : y ∈ Set_add acc x <-> y ∈ acc \/ y = x.
Proof.
  unfold Set_add. case_bool_decide as H.
  - split; [auto|]. intros [?| ->]; done.
  - rewrite elem_of_app, list_elem_of_singleton. done.
Qed.

Lemma elem_of_Set_from l y : y ∈ Set_from l <-> y ∈ l.
Proof.
  induction l as [|x l IH] using rev_ind; [done|].
  rewrite Set_from_snoc, elem_of_Set_add, IH, elem_of_app, list_elem_of_singleton.
  done.
Qed.

Lemma NoDup_Set_from l : NoDup (Set_from l).
Proof.
  induction l as [|x l IH] using rev_ind; [constructor|].
  rewrite Set_from_snoc. unfold Set_add. case_bool_decide as H; [done|].
  apply NoDup_app. split_and!; [done| |apply NoDup_singleton].
  intros y Hy ->%list_elem_of_singleton. done.
Qed.

Lemma Set_from_NoDup l : NoDup l -> Set_from l = l.
Proof.
  induction l as [|x l IH] using rev_ind; [done|].
  intros (Hl & Hx & _)%NoDup_app. rewrite Set_from_snoc, IH by done.
  unfold Set_add. case_bool_decide as H; [|done].
  exfalso. eapply Hx; [done|]. by apply list_elem_of_singleton.
Qed.

Lemma first_index_lt x l : x ∈ l -> (first_index x l < length l)%nat.
Proof.
  induction l as [|y l IH]; [by intros ?%elem_of_nil|].
  simpl. case_decide; [lia|]. intros [?|Hx]%elem_of_cons; [done|].
  specialize (IH Hx). lia.
Qed.

Lemma first_index_app_l x l k :
  x ∈ l -> first_index x (l ++ k) = first_index x l.
Proof.
  induction l as [|y l IH]; [by intros ?%elem_of_nil|].
  simpl. case_decide; [done|]. intros [?|Hx]%elem_of_cons; [done|].
  by rewrite IH.
Qed.

Lemma first_index_fresh x l :
  x ∉ l -> first_index x (l ++ [x]) = length l.
Proof.
  induction l as [|y l IH]; simpl.
  - by rewrite decide_True.
  - intros [? ?]%not_elem_of_cons. rewrite decide_False by done. by rewrite IH.
Qed.

(** [first_index] is what its name says. *)
Lemma first_index_spec x l i :
  l !! i = Some x -> (forall j, (j < i)%nat -> l !! j <> Some x) ->
  first_index x l = i.
Proof.
  revert i. induction l as [|y l IH]; intros i Hi Hmin; [done|].
  simpl. case_decide as E.
  - destruct i as [|i]; [done|]. subst. by destruct (Hmin 0%nat); [lia|].
  - destruct i as [|i]; [by simplify_eq/=|]. f_equal. apply IH; [done|].
    intros j Hj. apply (Hmin (S j)). lia.
Qed.

(** The elements of the Set come out in the order in which they are
    first seen. *)
Lemma Set_from_order l i j x y :
  Set_from l !! i = Some x -> Set_from l !! j = Some y ->
  (i < j)%nat -> (first_index x l < first_index y l)%nat.
Proof.
  revert i j x y. induction l as [|z l IH] using rev_ind; intros i j x y.
  { done. }
  rewrite Set_from_snoc. unfold Set_add. case_bool_decide as Hz.
  - intros Hi Hj Hij.
    rewrite !first_index_app_l
      by (apply elem_of_Set_from; eapply list_elem_of_lookup_2; eauto).
    eauto.
  - intros Hi Hj Hij.
    assert (i < length (Set_from l))%nat as Hil.
    { apply lookup_lt_Some in Hj. rewrite length_app in Hj. simpl in Hj. lia. }
    rewrite lookup_app_l in Hi by done.
    assert (x ∈ l) as Hx.
    { apply elem_of_Set_from. by eapply list_elem_of_lookup_2. }
    rewrite (first_index_app_l x) by done.
    destruct (decide (j < length (Set_from l))%nat) as [Hjl|Hjl].
    + rewrite lookup_app_l in Hj by done.
      rewrite first_index_app_l
        by (apply elem_of_Set_from; by eapply list_elem_of_lookup_2).
      eauto.
    + rewrite lookup_app_r in Hj by lia.
      apply list_lookup_singleton_Some in Hj as [_ <-].
      rewrite first_index_fresh by (by rewrite <- elem_of_Set_from).
      by apply first_index_lt.
Qed.

Lemma Set_from_first_seen l i j x y :
  Set_from l !! i = Some x -> Set_from l !! j = Some y ->
  (i < j)%nat <-> (first_index x l < first_index y l)%nat.
Proof.
  intros Hi Hj. split; [by eapply Set_from_order|].
  intros Hlt. destruct (decide (i < j)%nat) as [|Hge]; [done|].
  exfalso. destruct (decide (i = j)) as [->|Hne].
  - simplify_eq. lia.
  - assert (j < i)%nat as Hji by lia.
    pose proof (Set_from_order l j i y x Hj Hi Hji). lia.
Qed.
End dedup.

(** ** The tag normaliser *)

Lemma mapJs_trim (l : list JValue) :
  mapJs (fun tag => s ← ToString tag; Ok (trim s)) l
  = ss ← mapJs ToString l; Ok (trim <$> (ss : list jsstring)).
Proof.
  induction l as [|v l IH]; [done|].
  simpl. destruct (ToString v) as [s|e]; [|done]. simpl.
  rewrite IH. by destruct (mapJs ToString l).
Qed.

Lemma mapJs_strings (ss : list jsstring) : mapJs ToString (JStr <$> ss) = Ok ss.
Proof.
  induction ss as [|s ss IH]; [done|].
  change (mapJs ToString (JStr <$> s :: ss))
    with (ys ← mapJs ToString (JStr <$> ss); Ok (s :: ys)).
  by rewrite IH.
Qed.

(** The normaliser is the specification's entry list passed through the
    Set. *)
Lemma processTags_entries tags :
  processTags tags = entries ← tagEntries tags; Ok (Set_from entries).
Proof.
  unfold processTags, tagEntries.
  destruct tags as [[| b | r | s | l | fs]|]; simpl; try done.
  - by destruct b.
  - by case_bool_decide.
  - destruct s as [|c s]; [done|]. simpl nonEmpty. cbv iota.
    simpl. by rewrite (tag_pieces (c :: s)).
  - rewrite mapJs_trim. by destruct (mapJs ToString l).
Qed.

(** The PUT handlers' copy agrees with the POST handlers' one. *)
Lemma processTagsUpdate_processTags v :
  processTagsUpdate v = processTags (Some v).
Proof.
  unfold processTagsUpdate, processTags.
  destruct v as [| b | r | s | l | fs]; simpl; try done.
  - by destruct b.
  - by case_bool_decide.
  - by destruct s.
Qed.

Lemma tagEntries_normal tags entries :
  tagEntries tags = Ok entries ->
  Forall (fun t => nonEmpty t = true /\ trim t = t) entries.
Proof.
  unfold tagEntries.
  destruct tags as [[| b | r | s | l | fs]|]; try (intros [= <-]; constructor).
  - intros [= <-]. apply Forall_forall. intros p Hp.
    apply (tokens_from_pieces isTagSep []) in Hp as [Hne Hp]; [|done].
    split; [done|]. apply no_ws_trim.
    eapply Forall_impl; [done|apply isTagSep_ws].
  - destruct (mapJs ToString l) as [ss|]; [|done]. simpl. intros [= <-].
    apply Forall_forall. intros t [Ht Hne]%list_elem_of_In%filter_In.
    split; [done|].
    apply list_elem_of_In, list_elem_of_fmap in Ht as (s & -> & _).
    apply trim_idemp.
Qed.

Lemma filter_nonEmpty_id (l : list jsstring) :
  Forall (fun t => nonEmpty t = true) l -> List.filter nonEmpty l = l.
Proof. induction 1 as [|t l Ht _ IH]; [done|]. simpl. by rewrite Ht, IH. Qed.

Lemma processTags_renormalise (out : list jsstring) :
  NoDup out ->
  Forall (fun t => nonEmpty t = true /\ trim t = t) out ->
  processTags (Some (JArr (JStr <$> out))) = Ok out.
Proof.
  intros Hnd Hout. rewrite processTags_entries. simpl.
  rewrite mapJs_strings. simpl.
  assert (trim <$> out = out) as ->.
  { transitivity (id <$> out); [|apply list_fmap_id].
    apply list_fmap_ext. intros i t Ht.
    by eapply (Forall_lookup_1 _ _ _ _ Hout) in Ht as [_ ?]. }
  rewrite filter_nonEmpty_id, Set_from_NoDup; [done..|].
  eapply Forall_impl; [done|]. by intros t [? _].
Qed.

(** C2.  Whatever the tag normaliser returns has no duplicate entry and
    no empty or whitespace-only entry, holds exactly the entries of the
    input in the order in which each is first seen, and is returned
    unchanged when it is normalised again. *)
Theorem tag_normaliser_normal_form (tags : field) (out : list jsstring) :
  processTags tags = Ok out ->
  NoDup out
  /\ (forall t, t ∈ out -> blank t = false)
  /\ (exists entries,
        tagEntries tags = Ok entries
        /\ (forall t, t ∈ out <-> t ∈ entries)
        /\ (forall i j x y,
              out !! i = Some x -> out !! j = Some y ->
              (i < j)%nat <-> (first_index x entries < first_index y entries)%nat))
  /\ processTags (Some (JArr (JStr <$> out))) = Ok out.
Proof.
  rewrite processTags_entries.
  destruct (tagEntries tags) as [entries|e] eqn:He; [|done].
  simpl. intros [= <-].
  pose proof (tagEntries_normal _ _ He) as Hnorm.
  assert (Forall (fun t => nonEmpty t = true /\ trim t = t) (Set_from entries))
    as Hout.
  { rewrite Forall_forall in Hnorm. apply Forall_forall.
    intros t Ht. apply Hnorm. by apply elem_of_Set_from. }
  split_and!.
  - apply NoDup_Set_from.
  - intros t Ht. rewrite Forall_forall in Hout.
    destruct (Hout t Ht) as [Hne Htrim]. rewrite <- Htrim. apply trim_nonEmpty_not_blank. by rewrite Htrim.
  - exists entries. split_and!; [done|apply elem_of_Set_from|].
    intros i j x y. apply Set_from_first_seen.
  - apply processTags_renormalise; [apply NoDup_Set_from|done].
Qed.

Lemma tag_normaliser_normal_form_witness :
  let tags := Some (JArr [JStr (lit "b"); JStr (lit " a "); JNum (lit "7");
                          JStr (lit "  "); JStr (lit "b"); JStr (lit "a")]) in
  let out := [lit "b"; lit "a"; lit "7"] in
  processTags tags = Ok out
  /\ NoDup out
  /\ processTags (Some (JArr (JStr <$> out))) = Ok out.
Proof.
  intros tags out.
  assert (processTags tags = Ok out) as H by (vm_compute; reflexivity).
  destruct (tag_normaliser_normal_form tags out H) as (Hnd & _ & _ & Hid).
  exact (conj H (conj Hnd Hid)).
Defined.

(** The normaliser returns on every string, and on every array whose
    elements can all be coerced. *)
Lemma processTags_total_string s : exists out, processTags (Some (JStr s)) = Ok out.
Proof. rewrite processTags_entries. simpl. eauto. Qed.

Lemma processTags_total_array (l : list JValue) ss :
  mapJs ToString l = Ok ss -> exists out, processTags (Some (JArr l)) = Ok out.
Proof. intros H. rewrite processTags_entries. simpl. rewrite H. simpl. eauto. Qed.

(** An object that carries its own [toString] property cannot be
    coerced: [String] throws. *)
Example processTags_own_toString :
  processTags (Some (JArr [JObj [(lit "toString", JNum (lit "1"))]]))
  = Throw TypeError.
Proof. vm_compute. reflexivity. Qed.

(** ** Title clean-up *)

Section cleaning.
Implicit Types (s cur w : jsstring).

Lemma dropWhile_span p s :
  exists a, s = a ++ dropWhile p s /\ forallb p a = true.
Proof.
  induction s as [|c s (a & IH & Ha)]; simpl; [by exists []|].
  destruct (p c) eqn:Hc; [|by exists []].
  exists (c :: a). simpl. rewrite Hc, Ha, <- IH. done.
Qed.

Lemma forallb_reverse p s : forallb p (reverse s) = forallb p s.
Proof.
  induction s as [|c s IH]; [done|].
  rewrite reverse_cons, forallb_app, IH. simpl.
  rewrite andb_true_r. apply andb_comm.
Qed.

Lemma trimEnd_span s :
  exists b, s = trimEnd s ++ b /\ blank b = true.
Proof.
  unfold trimEnd.
  destruct (dropWhile_span isWhiteSpace (reverse s)) as (a & Ha & Hws).
  exists (reverse a). split.
  - rewrite <- reverse_app, <- Ha. by rewrite reverse_involutive.
  - unfold blank. by rewrite forallb_reverse.
Qed.

Lemma trim_span s :
  exists a b, s = a ++ trim s ++ b /\ blank a = true /\ blank b = true.
Proof.
  destruct (dropWhile_span isWhiteSpace s) as (a & Ha & Hws).
  destruct (trimEnd_span (trimStart s)) as (b & Hb & Hwb).
  exists a, b. split_and!; [|done..].
  unfold trim. by rewrite <- Hb.
Qed.

Lemma trim_nil_blank s : trim s = [] -> blank s = true.
Proof.
  intros H. destruct (trim_span s) as (a & b & Hs & Ha & Hb).
  rewrite Hs, H. unfold blank in *. simpl. by rewrite forallb_app, Ha, Hb.
Qed.

Lemma nonEmpty_snoc cur c : nonEmpty (cur ++ [c]) = true.
Proof. by destruct cur. Qed.

Lemma tokens_from_blank cur w :
  blank w = true ->
  tokens_from isWhiteSpace cur w = if nonEmpty cur then [cur] else [].
Proof.
  revert cur. induction w as [|c w IH]; intros cur; [done|].
  simpl. intros [-> Hw]%andb_prop. rewrite (IH [] Hw). simpl.
  by destruct (nonEmpty cur).
Qed.

Lemma tokens_from_app_blank cur s w :
  blank w = true ->
  tokens_from isWhiteSpace cur (s ++ w) = tokens_from isWhiteSpace cur s.
Proof.
  intros Hw. revert cur. induction s as [|c s IH]; intros cur.
  - simpl. by apply tokens_from_blank.
  - simpl. by rewrite !IH.
Qed.

Lemma tokens_from_blank_app w s :
  blank w = true ->
  tokens_from isWhiteSpace [] (w ++ s) = tokens_from isWhiteSpace [] s.
Proof.
  induction w as [|c w IH]; [done|].
  simpl. intros [-> Hw]%andb_prop. simpl. auto.
Qed.

Lemma tokens_trim s :
  tokens isWhiteSpace (trim s) = tokens isWhiteSpace s.
Proof.
  destruct (trim_span s) as (a & b & Hs & Ha & Hb).
  unfold tokens. rewrite Hs at 2.
  by rewrite tokens_from_blank_app, tokens_from_app_blank.
Qed.

Lemma noTrail_tail c s : noTrail (c :: s) -> noTrail s.
Proof.
  unfold noTrail. rewrite reverse_cons.
  by destruct (reverse s).
Qed.

Lemma noTrail_singleton c : noTrail [c] -> isWhiteSpace c = false.
Proof. done. Qed.

Lemma tokens_from_nonempty cur s :
  noTrail s -> s <> [] -> tokens_from isWhiteSpace cur s <> [].
Proof.
  revert cur. induction s as [|c s IH]; intros cur Ht Hne; [by destruct Hne|].
  clear Hne. destruct s as [|c' s'].
  - apply noTrail_singleton in Ht. simpl. rewrite Ht.
    by rewrite nonEmpty_snoc.
  - pose proof (noTrail_tail _ _ Ht) as Ht'.
    change (tokens_from isWhiteSpace cur (c :: c' :: s'))
      with (if isWhiteSpace c then
              if nonEmpty cur then cur :: tokens_from isWhiteSpace [] (c' :: s')
              else tokens_from isWhiteSpace [] (c' :: s')
            else tokens_from isWhiteSpace (cur ++ [c]) (c' :: s')).
    destruct (isWhiteSpace c); [destruct (nonEmpty cur)|]; try done;
      by apply IH.
Qed.

Lemma joinSpace_cons w ws :
  ws <> [] -> joinSpace (w :: ws) = w ++ 32 :: joinSpace ws.
Proof. by destruct ws. Qed.

Lemma replace_ws_runs_words s :
  noTrail s ->
  (forall cur, nonEmpty cur = true \/ noLead s ->
     cur ++ replace_ws_runs false s
     = joinSpace (tokens_from isWhiteSpace cur s))
  /\ (s <> [] ->
      replace_ws_runs true s = joinSpace (tokens_from isWhiteSpace [] s)).
Proof.
  induction s as [|c s IH]; intros Ht.
  { split; [|done]. intros cur _. simpl. rewrite app_nil_r.
    by destruct cur. }
  pose proof (noTrail_tail _ _ Ht) as Ht'.
  destruct (IH Ht') as [IH1 IH2]. clear IH.
  assert (isWhiteSpace c = true -> s <> []) as Hs.
  { intros Hc ->. apply noTrail_singleton in Ht. congruence. }
  split.
  - intros cur Hcur. simpl. destruct (isWhiteSpace c) eqn:Hc.
    + destruct Hcur as [Hcur|Hl]; [|simpl in Hl; congruence].
      rewrite Hcur, joinSpace_cons by (apply tokens_from_nonempty; auto).
      rewrite IH2 by auto. done.
    + rewrite <- IH1 by (left; apply nonEmpty_snoc).
      by rewrite <- app_assoc.
  - intros _. simpl. destruct (isWhiteSpace c) eqn:Hc.
    + apply IH2; auto.
    + by rewrite <- (IH1 [c]) by (by left).
Qed.

(** Cleaning a title leaves its words -- the maximal runs of
    non-whitespace -- joined by single spaces. *)
Lemma cleanTitle_words s :
  cleanTitle s = joinSpace (tokens isWhiteSpace s).
Proof.
  rewrite <- tokens_trim. unfold cleanTitle, tokens.
  destruct (replace_ws_runs_words (trim s) (trim_noTrail s)) as [H _].
  rewrite <- (H []); [done|]. right. apply trim_noLead.
Qed.

Lemma cleanTitle_nonEmpty s : nonEmpty (cleanTitle s) = negb (blank s).
Proof.
  destruct (blank s) eqn:Hb.
  - unfold cleanTitle. by rewrite (trim_blank s Hb).
  - unfold cleanTitle. pose proof (trim_noLead s) as Hl.
    destruct (trim s) as [|c t] eqn:Ht.
    + apply trim_nil_blank in Ht. congruence.
    + simpl in *. by rewrite Hl.
Qed.
End cleaning.

Example cleanTitle_example :
  cleanTitle (lit "  Hello   big
   world ") = lit "Hello big world".
Proof. vm_compute. reflexivity. Qed.

(** ** The metadata fetcher *)

Lemma truthyStr_clean (v : option jsstring) :
  truthyStr v = true ->
  orElse (cleanTitle <$> v) None
  = match v with
    | Some c => if blank c then None else Some (cleanTitle c)
    | None => None
    end.
Proof.
  destruct v as [c|]; [|done]. intros _. unfold orElse. simpl.
  rewrite cleanTitle_nonEmpty. by destruct (blank c).
Qed.

Lemma fetchMetadata_page (remote : Remote) url p :
  remote url = Ok p ->
  fetchMetadata remote url
  = match firstNonEmpty (candidates p) with
    | Some c => if blank c then None else Some (cleanTitle c)
    | None => None
    end.
Proof.
  intros Hp. unfold fetchMetadata, fetchMetadata_try. rewrite Hp.
  destruct p as [og tw ti h1]. unfold candidates. cbn [mbind Js_bind og_title
    twitter_title title_text h1_text firstNonEmpty].
  destruct og as [[|c og]|], tw as [[|c' tw]|], ti as [|c'' ti], h1 as [|c''' h1];
    try (cbn [orElse truthyStr nonEmpty]; cbv iota;
         rewrite truthyStr_clean by done; done);
    done.
Qed.

(** C4 (as the code has it).  For every URL the fetcher returns without
    throwing.  It takes the first non-empty candidate among the
    Open-Graph title, the Twitter-card title, the text of the title
    element and the text of the first heading, and returns it trimmed
    with whitespace runs collapsed to single spaces (its words joined by
    single spaces); it returns null when there is no non-empty
    candidate, when that first non-empty candidate is whitespace only,
    and when the fetch or the parse fails. *)
Theorem fetchMetadata_first_candidate (remote : Remote) (url : jsstring) :
  fetchMetadata remote url
  = match remote url with
    | Throw _ => None
    | Ok p =>
        match firstNonEmpty (candidates p) with
        | Some c =>
            if blank c then None
            else Some (joinSpace (tokens isWhiteSpace c))
        | None => None
        end
    end.
Proof.
  destruct (remote url) as [p|e] eqn:Hp.
  - rewrite (fetchMetadata_page remote url p Hp).
    destruct (firstNonEmpty (candidates p)) as [c|]; [|done].
    by rewrite cleanTitle_words.
  - unfold fetchMetadata, fetchMetadata_try. by rewrite Hp.
Qed.

(** C4 as stated fails on a page whose first non-empty candidate is
    whitespace only: the fetcher returns null, not the cleaned candidate
    and not the next candidate. *)
Lemma fetchMetadata_blank_candidate :
  let remote : Remote := fun _ => Ok blank_og_page in
  firstNonEmpty (candidates blank_og_page) = Some (lit "   ")
  /\ fetchMetadata remote (lit "http://x.com") = None
  /\ fetchMetadata_as_claimed remote (lit "http://x.com") = Some []
  /\ fetchMetadata remote (lit "http://x.com")
     <> fetchMetadata_as_claimed remote (lit "http://x.com")
  /\ fetchMetadata remote (lit "http://x.com") <> Some (lit "Real Title").
Proof. vm_compute. split_and!; [done..| |]; discriminate. Qed.

(** ** The routes that resolve a record by id and owner *)

Ltac run_route :=
  unfold tryCatch, hbind, hret, hthrow, liftJs, logCall; cbn [fst snd store calls].

Section by_id.
Variable castObjectId : jsstring -> option N.
Context {D : Type} `{Document D}.
Variable what What : string.
Implicit Types (w : World D) (st : gmap N D) (user k : N) (id : jsstring).

Lemma owned_None user k st : owned user k st = None <-> notOwned user k st.
Proof.
  unfold owned, notOwned. destruct (st !! k) as [d|]; [|split; [by left|done]].
  destruct (N.eqb_spec (doc_user d) user) as [Hu|Hu].
  - split; [done|]. intros [?|(d' & [= <-] & ?)]; done.
  - split; [|done]. intros _. right. eauto.
Qed.

Lemma owned_Some user k st d :
  owned user k st = Some d <-> st !! k = Some d /\ doc_user d = user.
Proof.
  unfold owned. destruct (st !! k) as [d'|]; [|split; [done|by intros [? _]]].
  destruct (N.eqb_spec (doc_user d') user) as [Hu|Hu].
  - split; [by intros [= <-]|by intros [[= <-] _]].
  - split; [done|]. intros [[= <-] ?]. done.
Qed.

(** A record of another user counts for nothing: removing it from
    the store changes no answer. *)
Lemma owned_delete_other user k k' st :
  notOwned user k st -> owned user k' (delete k st) = owned user k' st.
Proof.
  intros Hk%owned_None. unfold owned in *.
  destruct (decide (k = k')) as [<-|Hne].
  - rewrite lookup_delete_eq. destruct (st !! k) as [d|]; [|done].
    by destruct (doc_user d =? user).
  - by rewrite lookup_delete_ne.
Qed.

Lemma getRoute_run user id w :
  getRoute castObjectId what What user id w
  = (match castObjectId id with
     | None => respond 400 (BError (msg ["Invalid "; what; " ID"]))
     | Some k =>
         match owned user k (store w) with
         | Some d => respond 200 (BDoc k d)
         | None => respond 404 (BError (msg [What; " not found"]))
         end
     end,
     {| store := store w; calls := calls w ++ [CallFindOne id] |}).
Proof.
  unfold getRoute, findOne. run_route.
  destruct (castObjectId id) as [k|]; [|done].
  cbn. by destruct (owned user k (store w)).
Qed.

Lemma deleteRoute_run user id w :
  deleteRoute castObjectId what What user id w
  = match castObjectId id with
    | None => (respond 400 (BError (msg ["Invalid "; what; " ID"])),
               {| store := store w;
                  calls := calls w ++ [CallFindOneAndDelete id] |})
    | Some k =>
        match owned user k (store w) with
        | Some d =>
            (respond 200 (BMessage (lit (String.concat EmptyString
                                           [What; " deleted successfully"]))),
             {| store := delete k (store w);
                calls := calls w ++ [CallFindOneAndDelete id] |})
        | None =>
            (respond 404 (BError (msg [What; " not found"])),
             {| store := store w;
                calls := calls w ++ [CallFindOneAndDelete id] |})
        end
    end.
Proof.
  unfold deleteRoute, findOneAndDelete. run_route.
  destruct (castObjectId id) as [k|]; [|done].
  cbn. by destruct (owned user k (store w)).
Qed.

Lemma findOneAndUpdate_run id user (update : Js (D -> D)) errors now w :
  findOneAndUpdate castObjectId id user update errors now w
  = let w1 := {| store := store w;
                 calls := calls w ++ [CallFindOneAndUpdate id] |} in
    match castObjectId id with
    | None => (Throw CastError, w1)
    | Some k =>
        match update with
        | Throw e => (Throw e, w1)
        | Ok f =>
            match errors with
            | _ :: _ => (Throw (ValidationError errors), w1)
            | [] =>
                match owned user k (store w) with
                | Some d =>
                    (Ok (Some (k, doc_touch now (f d))),
                     {| store := <[k := doc_touch now (f d)]> (store w);
                        calls := calls w ++ [CallFindOneAndUpdate id] |})
                | None => (Ok None, w1)
                end
            end
        end
    end.
Proof.
  unfold findOneAndUpdate. run_route.
  destruct (castObjectId id) as [k|]; [|done].
  destruct update as [f|e]; [|done].
  destruct errors; [|done].
  cbn. by destruct (owned user k (store w)).
Qed.
End by_id.

Section update_by_id.
Variable castObjectId : jsstring -> option N.
Context {D U : Type} `{Document D}.
Variable what What : string.
Variable prepared : Js (Response D + U).
Variable cast : U -> Js (D -> D).
Variable validate : U -> list Message.
Implicit Types (w : World D) (user k : N) (id : jsstring).

Lemma updateRoute_run user id now w :
  updateRoute castObjectId what What prepared cast validate user id now w
  = match prepared with
    | Throw e => (updateCatch what e, w)
    | Ok (inl early) => (early, w)
    | Ok (inr u) =>
        match castObjectId id with
        | None => (updateCatch what CastError, logged id w)
        | Some k =>
            match cast u with
            | Throw e => (updateCatch what e, logged id w)
            | Ok f =>
                match validate u with
                | _ :: _ =>
                    (updateCatch what (ValidationError (validate u)),
                     logged id w)
                | [] =>
                    match owned user k (store w) with
                    | Some d =>
                        (respond 200 (BDoc k (doc_touch now (f d))),
                         {| store := <[k := doc_touch now (f d)]> (store w);
                            calls := calls w ++ [CallFindOneAndUpdate id] |})
                    | None =>
                        (respond 404 (BError (msg [What; " not found"])),
                         logged id w)
                    end
                end
            end
        end
    end.
Proof.
  unfold updateRoute, tryCatch, hbind at 1, liftJs at 1.
  destruct prepared as [[early|u]|e]; [done| |done].
  unfold hbind. rewrite findOneAndUpdate_run. cbn zeta.
  destruct (castObjectId id) as [k|]; [|done].
  destruct (cast u) as [f|e]; [|done].
  destruct (validate u) as [|m ms]; [|done].
  by destruct (owned user k (store w)).
Qed.

Lemma updateCatch_status e :
  status (updateCatch (D:=D) what e) = 400%nat
  \/ status (updateCatch (D:=D) what e) = 500%nat.
Proof. destruct e; simpl; auto. Qed.

Lemma updateRoute_notOwned user id k now w :
  castObjectId id = Some k ->
  acceptable prepared cast validate ->
  notOwned user k (store w) ->
  updateRoute castObjectId what What prepared cast validate user id now w
  = (respond 404 (BError (msg [What; " not found"])), logged id w).
Proof.
  intros Hk (u & f & Hp & Hc & Hv) Hn%owned_None.
  rewrite updateRoute_run. by rewrite Hp, Hk, Hc, Hv, Hn.
Qed.

Lemma updateRoute_malformed user id now w :
  castObjectId id = None ->
  acceptable prepared cast validate ->
  updateRoute castObjectId what What prepared cast validate user id now w
  = (respond 400 (BError (msg ["Invalid "; what; " ID"])), logged id w).
Proof.
  intros Hk (u & f & Hp & Hc & Hv).
  rewrite updateRoute_run. by rewrite Hp, Hk.
Qed.

(** The answer to an update does not tell whether a record of
    another user exists. *)
Lemma updateRoute_without user id k now w :
  notOwned user k (store w) ->
  (updateRoute castObjectId what What prepared cast validate
               user id now (without k w)).1
  = (updateRoute castObjectId what What prepared cast validate
                 user id now w).1.
Proof.
  intros Hn. rewrite !updateRoute_run.
  destruct prepared as [[early|u]|e]; [done| |done].
  destruct (castObjectId id) as [k'|]; [|done].
  destruct (cast u) as [f|e]; [|done].
  destruct (validate u); [|done].
  cbn [without store]. rewrite (owned_delete_other user k k' _ Hn).
  by destruct (owned user k' (store w)).
Qed.

Lemma getRoute_without user id k w :
  notOwned user k (store w) ->
  (getRoute castObjectId what What user id (without k w)).1
  = (getRoute castObjectId what What user id w).1.
Proof.
  intros Hn. rewrite !getRoute_run. cbn [fst without store].
  destruct (castObjectId id) as [k'|]; [|done].
  by rewrite (owned_delete_other user k k' _ Hn).
Qed.

Lemma deleteRoute_without user id k w :
  notOwned user k (store w) ->
  (deleteRoute castObjectId what What user id (without k w)).1
  = (deleteRoute castObjectId what What user id w).1.
Proof.
  intros Hn. rewrite !deleteRoute_run. cbn [without store].
  destruct (castObjectId id) as [k'|]; [|done].
  rewrite (owned_delete_other user k k' _ Hn).
  by destruct (owned user k' (store w)).
Qed.

Hypothesis early_400 :
  forall r, prepared = Ok (inl r) -> status r = 400%nat.

Lemma updateRoute_statuses user id now w :
  status (updateRoute castObjectId what What prepared cast validate
                      user id now w).1
  ∈ [200; 400; 404; 500]%nat.
Proof using early_400.
  rewrite updateRoute_run.
  destruct prepared as [[early|u]|e] eqn:Hp.
  - cbn [fst]. rewrite (early_400 early eq_refl). set_solver.
  - destruct (castObjectId id) as [k|]; [|set_solver].
    destruct (cast u) as [f|e].
    + destruct (validate u); [|set_solver].
      destruct (owned user k (store w)); set_solver.
    + cbn [fst]. destruct (updateCatch_status e) as [-> | ->]; set_solver.
  - cbn [fst]. destruct (updateCatch_status e) as [-> | ->]; set_solver.
Qed.

(** A request that updates some record is one with an acceptable
    body. *)
Lemma updateRoute_200_acceptable user id now w :
  status (updateRoute castObjectId what What prepared cast validate
                      user id now w).1 = 200%nat ->
  acceptable prepared cast validate.
Proof using early_400.
  rewrite updateRoute_run. unfold acceptable.
  destruct prepared as [[early|u]|e] eqn:Hp.
  - cbn [fst]. rewrite (early_400 early eq_refl). done.
  - destruct (castObjectId id) as [k|]; [|done].
    destruct (cast u) as [f|e] eqn:Hc.
    + destruct (validate u) eqn:Hv; [|done]. eauto.
    + cbn [fst]. by destruct (updateCatch_status e) as [-> | ->].
  - cbn [fst]. by destruct (updateCatch_status e) as [-> | ->].
Qed.
End update_by_id.

Section update_store.
Variable castObjectId : jsstring -> option N.
Context {D U : Type} `{Document D}.
Variable what What : string.
Variable prepared : Js (Response D + U).
Variable cast : U -> Js (D -> D).
Variable validate : U -> list Message.

Lemma updateRoute_store_notOwned user id k now (w : World D) :
  castObjectId id = Some k -> notOwned user k (store w) ->
  store (updateRoute castObjectId what What prepared cast validate
                     user id now w).2 = store w.
Proof.
  intros Hk Hn%owned_None. rewrite updateRoute_run, Hk, Hn.
  destruct prepared as [[early|u]|e]; [done| |done].
  destruct (cast u) as [f|e]; [|done]. by destruct (validate u).
Qed.

(** An acceptable update of a record the caller owns succeeds. *)
Lemma updateRoute_owned user id k d now (w : World D) :
  castObjectId id = Some k -> owned user k (store w) = Some d ->
  acceptable prepared cast validate ->
  status (updateRoute castObjectId what What prepared cast validate
                      user id now w).1 = 200%nat.
Proof.
  intros Hk Ho (u & f & Hp & Hc & Hv).
  rewrite updateRoute_run. by rewrite Hp, Hk, Hc, Hv, Ho.
Qed.
End update_store.

Lemma noteUpdateData_early req r :
  noteUpdateData req = Ok (inl r) -> status r = 400%nat.
Proof.
  unfold noteUpdateData.
  destruct (checkPresent (nb_title req)); [by intros [= <-]|].
  destruct (checkPresent (nb_content req)); [by intros [= <-]|].
  by destruct (updateTags (nb_tags req)).
Qed.

Lemma bookmarkUpdateData_early req r :
  bookmarkUpdateData req = Ok (inl r) -> status r = 400%nat.
Proof.
  unfold bookmarkUpdateData.
  destruct (checkPresent (bb_url req)) as [|url]; [by intros [= <-]|].
  destruct (negb _); [by intros [= <-]|].
  destruct (updateText (bb_title req)); [|done].
  destruct (updateText (bb_description req)); [|done].
  by destruct (updateTags (bb_tags req)).
Qed.

(** The acceptable bodies are those of the requests that update some
    record. *)
Lemma updateNote_200_acceptable castObjectId user id req now w :
  status (updateNote castObjectId user id req now w).1 = 200%nat ->
  acceptable (noteUpdateData req) castNoteUpdate noteUpdateErrors.
Proof. apply updateRoute_200_acceptable, noteUpdateData_early. Qed.

Lemma updateBookmark_200_acceptable castObjectId user id req now w :
  status (updateBookmark castObjectId user id req now w).1 = 200%nat ->
  acceptable (bookmarkUpdateData req) castBookmarkUpdate bookmarkUpdateErrors.
Proof. apply updateRoute_200_acceptable, bookmarkUpdateData_early. Qed.

(** C1 (as the code has it).  With a well-formed id that names no
    record or a record of another user, get-one and delete answer 404
    "not found", and so does every update whose body is acceptable (an
    update whose body fails a field check is answered 400 before the
    store is asked); the store is left as it was; the answer to any of
    these requests, with any id and body, is the one it would be if the
    record did not exist; and no answer to an update has a status other
    than 200, 400, 404 or 500. *)
Theorem not_owned_is_not_found
    (castObjectId : jsstring -> option N) (user : N) (id : jsstring) (k : N) :
  castObjectId id = Some k ->
  (forall w : World Note, notOwned user k (store w) ->
     getNote castObjectId user id w
     = (respond 404 (BError [Text (lit "Note not found")]),
        {| store := store w; calls := calls w ++ [CallFindOne id] |})
     /\ deleteNote castObjectId user id w
        = (respond 404 (BError [Text (lit "Note not found")]),
           {| store := store w; calls := calls w ++ [CallFindOneAndDelete id] |})
     /\ (forall req now,
           acceptable (noteUpdateData req) castNoteUpdate noteUpdateErrors ->
           updateNote castObjectId user id req now w
           = (respond 404 (BError [Text (lit "Note not found")]), logged id w))
     /\ (forall req now,
           store (updateNote castObjectId user id req now w).2 = store w
           /\ status (updateNote castObjectId user id req now w).1
              ∈ [200; 400; 404; 500]%nat)
     /\ (forall id' req now,
           (getNote castObjectId user id' (without k w)).1
           = (getNote castObjectId user id' w).1
           /\ (deleteNote castObjectId user id' (without k w)).1
              = (deleteNote castObjectId user id' w).1
           /\ (updateNote castObjectId user id' req now (without k w)).1
              = (updateNote castObjectId user id' req now w).1))
  /\ (forall w : World Bookmark, notOwned user k (store w) ->
     getBookmark castObjectId user id w
     = (respond 404 (BError [Text (lit "Bookmark not found")]),
        {| store := store w; calls := calls w ++ [CallFindOne id] |})
     /\ deleteBookmark castObjectId user id w
        = (respond 404 (BError [Text (lit "Bookmark not found")]),
           {| store := store w; calls := calls w ++ [CallFindOneAndDelete id] |})
     /\ (forall req now,
           acceptable (bookmarkUpdateData req) castBookmarkUpdate
                      bookmarkUpdateErrors ->
           updateBookmark castObjectId user id req now w
           = (respond 404 (BError [Text (lit "Bookmark not found")]), logged id w))
     /\ (forall req now,
           store (updateBookmark castObjectId user id req now w).2 = store w
           /\ status (updateBookmark castObjectId user id req now w).1
              ∈ [200; 400; 404; 500]%nat)
     /\ (forall id' req now,
           (getBookmark castObjectId user id' (without k w)).1
           = (getBookmark castObjectId user id' w).1
           /\ (deleteBookmark castObjectId user id' (without k w)).1
              = (deleteBookmark castObjectId user id' w).1
           /\ (updateBookmark castObjectId user id' req now (without k w)).1
              = (updateBookmark castObjectId user id' req now w).1)).
Proof.
  intros Hk. split; intros w Hn; pose proof Hn as Ho%owned_None.
  - split_and!.
    + unfold getNote. by rewrite getRoute_run, Hk, Ho.
    + unfold deleteNote. by rewrite deleteRoute_run, Hk, Ho.
    + intros req now Hacc. unfold updateNote.
      by rewrite (updateRoute_notOwned _ _ _ _ _ _ user id k).
    + intros req now. split.
      * by apply updateRoute_store_notOwned with (k := k).
      * apply updateRoute_statuses, noteUpdateData_early.
    + intros id' req now. split_and!.
      * by apply getRoute_without.
      * by apply deleteRoute_without.
      * unfold updateNote. by apply updateRoute_without.
  - split_and!.
    + unfold getBookmark. by rewrite getRoute_run, Hk, Ho.
    + unfold deleteBookmark. by rewrite deleteRoute_run, Hk, Ho.
    + intros req now Hacc. unfold updateBookmark.
      by rewrite (updateRoute_notOwned _ _ _ _ _ _ user id k).
    + intros req now. split.
      * by apply updateRoute_store_notOwned with (k := k).
      * apply updateRoute_statuses, bookmarkUpdateData_early.
    + intros id' req now. split_and!.
      * by apply getRoute_without.
      * by apply deleteRoute_without.
      * unfold updateBookmark. by apply updateRoute_without.
Qed.

Lemma not_owned_is_not_found_witness :
  let st : gmap N Note := {[100 := sample_note]} in
  hexObjectId sample_id = Some 100
  /\ notOwned 8 100 st
  /\ getNote hexObjectId 8 sample_id (fresh st)
     = (respond 404 (BError [Text (lit "Note not found")]),
        {| store := st; calls := [CallFindOne sample_id] |})
  /\ updateNote hexObjectId 8 sample_id favorite_note_body 9 (fresh st)
     = (respond 404 (BError [Text (lit "Note not found")]),
        logged sample_id (fresh st)).
Proof.
  intros st.
  assert (hexObjectId sample_id = Some 100) as Hk by (vm_compute; reflexivity).
  assert (notOwned 8 100 st) as Hn.
  { right. exists sample_note. split; [vm_compute; reflexivity|].
    vm_compute. discriminate. }
  assert (acceptable (noteUpdateData favorite_note_body)
                     castNoteUpdate noteUpdateErrors) as Hacc.
  { eexists _, _. split_and!; reflexivity. }
  destruct (not_owned_is_not_found hexObjectId 8 sample_id 100 Hk) as [HN _].
  destruct (HN (fresh st) Hn) as (Hget & _ & Hupd & _).
  exact (conj Hk (conj Hn (conj Hget (Hupd favorite_note_body 9%Z Hacc)))).
Defined.

(** C1 as stated fails for an update whose body is rejected: the
    answer is 400, whoever owns the record. *)
Lemma update_not_owned_rejected_body :
  let st : gmap N Note := {[100 := sample_note]} in
  hexObjectId sample_id = Some 100
  /\ notOwned 8 100 st
  /\ (updateNote hexObjectId 8 sample_id blank_title_body 9 (fresh st)).1
     = respond 400 (BError [Text (lit "Title is required")])
  /\ status (updateNote hexObjectId 8 sample_id blank_title_body 9 (fresh st)).1
     <> 404%nat.
Proof.
  intros st. split_and!.
  - vm_compute. reflexivity.
  - right. exists sample_note. split; [vm_compute; reflexivity|].
    vm_compute. discriminate.
  - vm_compute. reflexivity.
  - vm_compute. discriminate.
Qed.

Section malformed.
Variable castObjectId : jsstring -> option N.
Context {D U : Type} `{Document D}.
Variable what What : string.
Variable prepared : Js (Response D + U).
Variable cast : U -> Js (D -> D).
Variable validate : U -> list Message.
Hypothesis early_400 :
  forall r, prepared = Ok (inl r) -> status r = 400%nat.

Lemma updateRoute_malformed_status user id now (w : World D) :
  castObjectId id = None ->
  status (updateRoute castObjectId what What prepared cast validate
                      user id now w).1 ∈ [400; 500]%nat.
Proof using early_400.
  intros Hk. rewrite updateRoute_run, Hk.
  destruct prepared as [[early|u]|e] eqn:Hp; cbn [fst].
  - rewrite (early_400 early eq_refl). set_solver.
  - set_solver.
  - destruct (updateCatch_status (D:=D) what e) as [-> | ->]; set_solver.
Qed.
End malformed.

(** C8 (as the code has it).  A non-match is not reported uniformly.
    With a well-formed id that names no record or a record of another
    user, get-one and delete answer 404, and so does an update with an
    acceptable body.  With a malformed id, get-one and delete answer 400
    "Invalid ... ID", so does an update with an acceptable body, and no
    update answers 404. *)
Theorem non_match_reporting
    (castObjectId : jsstring -> option N) (user : N) (id : jsstring) :
  (castObjectId id = None ->
     (forall w : World Note,
        getNote castObjectId user id w
        = (respond 400 (BError [Text (lit "Invalid note ID")]),
           {| store := store w; calls := calls w ++ [CallFindOne id] |})
        /\ deleteNote castObjectId user id w
           = (respond 400 (BError [Text (lit "Invalid note ID")]),
              {| store := store w;
                 calls := calls w ++ [CallFindOneAndDelete id] |})
        /\ (forall req now,
              acceptable (noteUpdateData req) castNoteUpdate noteUpdateErrors ->
              updateNote castObjectId user id req now w
              = (respond 400 (BError [Text (lit "Invalid note ID")]),
                 logged id w))
        /\ (forall req now,
              status (updateNote castObjectId user id req now w).1
              ∈ [400; 500]%nat))
     /\ (forall w : World Bookmark,
        getBookmark castObjectId user id w
        = (respond 400 (BError [Text (lit "Invalid bookmark ID")]),
           {| store := store w; calls := calls w ++ [CallFindOne id] |})
        /\ deleteBookmark castObjectId user id w
           = (respond 400 (BError [Text (lit "Invalid bookmark ID")]),
              {| store := store w;
                 calls := calls w ++ [CallFindOneAndDelete id] |})
        /\ (forall req now,
              acceptable (bookmarkUpdateData req) castBookmarkUpdate
                         bookmarkUpdateErrors ->
              updateBookmark castObjectId user id req now w
              = (respond 400 (BError [Text (lit "Invalid bookmark ID")]),
                 logged id w))
        /\ (forall req now,
              status (updateBookmark castObjectId user id req now w).1
              ∈ [400; 500]%nat)))
  /\ (forall k, castObjectId id = Some k ->
     (forall w : World Note, notOwned user k (store w) ->
        status (getNote castObjectId user id w).1 = 404%nat
        /\ status (deleteNote castObjectId user id w).1 = 404%nat
        /\ (forall req now,
              acceptable (noteUpdateData req) castNoteUpdate noteUpdateErrors ->
              status (updateNote castObjectId user id req now w).1 = 404%nat))
     /\ (forall w : World Bookmark, notOwned user k (store w) ->
        status (getBookmark castObjectId user id w).1 = 404%nat
        /\ status (deleteBookmark castObjectId user id w).1 = 404%nat
        /\ (forall req now,
              acceptable (bookmarkUpdateData req) castBookmarkUpdate
                         bookmarkUpdateErrors ->
              status (updateBookmark castObjectId user id req now w).1
              = 404%nat))).
Proof.
  split.
  - intros Hk. split; intros w; split_and!.
    + unfold getNote. by rewrite getRoute_run, Hk.
    + unfold deleteNote. by rewrite deleteRoute_run, Hk.
    + intros req now Hacc. unfold updateNote.
      by rewrite updateRoute_malformed.
    + intros req now. unfold updateNote.
      apply updateRoute_malformed_status; [apply noteUpdateData_early|done].
    + unfold getBookmark. by rewrite getRoute_run, Hk.
    + unfold deleteBookmark. by rewrite deleteRoute_run, Hk.
    + intros req now Hacc. unfold updateBookmark.
      by rewrite updateRoute_malformed.
    + intros req now. unfold updateBookmark.
      apply updateRoute_malformed_status; [apply bookmarkUpdateData_early|done].
  - intros k Hk. split; intros w Hn; pose proof Hn as Ho%owned_None;
      split_and!.
    + unfold getNote. by rewrite getRoute_run, Hk, Ho.
    + unfold deleteNote. by rewrite deleteRoute_run, Hk, Ho.
    + intros req now Hacc. unfold updateNote.
      by rewrite (updateRoute_notOwned _ _ _ _ _ _ user id k).
    + unfold getBookmark. by rewrite getRoute_run, Hk, Ho.
    + unfold deleteBookmark. by rewrite deleteRoute_run, Hk, Ho.
    + intros req now Hacc. unfold updateBookmark.
      by rewrite (updateRoute_notOwned _ _ _ _ _ _ user id k).
Qed.

Lemma non_match_reporting_witness :
  let st : gmap N Bookmark := {[100 := sample_bookmark]} in
  hexObjectId (lit "not-an-id") = None
  /\ getBookmark hexObjectId 7 (lit "not-an-id") (fresh st)
     = (respond 400 (BError [Text (lit "Invalid bookmark ID")]),
        {| store := st; calls := [CallFindOne (lit "not-an-id")] |})
  /\ hexObjectId sample_id = Some 100
  /\ notOwned 8 100 st
  /\ status (deleteBookmark hexObjectId 8 sample_id (fresh st)).1 = 404%nat
  /\ status (updateBookmark hexObjectId 8 sample_id favorite_bookmark_body 9
                            (fresh st)).1 = 404%nat.
Proof.
  intros st.
  assert (hexObjectId (lit "not-an-id") = None) as Hbad
    by (vm_compute; reflexivity).
  assert (hexObjectId sample_id = Some 100) as Hk by (vm_compute; reflexivity).
  assert (notOwned 8 100 st) as Hn.
  { right. exists sample_bookmark. split; [vm_compute; reflexivity|].
    vm_compute. discriminate. }
  assert (acceptable (bookmarkUpdateData favorite_bookmark_body)
                     castBookmarkUpdate bookmarkUpdateErrors) as Hacc.
  { eexists _, _. split_and!; reflexivity. }
  destruct (non_match_reporting hexObjectId 7 (lit "not-an-id"))
    as [Hmal _].
  destruct (Hmal Hbad) as [_ HB]. destruct (HB (fresh st)) as (Hget & _).
  destruct (non_match_reporting hexObjectId 8 sample_id) as [_ Hwf].
  destruct (Hwf 100 Hk) as [_ HB'].
  destruct (HB' (fresh st) Hn) as (_ & Hdel & Hupd).
  exact (conj Hbad (conj Hget (conj Hk (conj Hn (conj Hdel
           (Hupd favorite_bookmark_body 9%Z Hacc)))))).
Defined.

(** C8 as stated fails on a malformed id: get-one answers 400, not
    404. *)
Lemma malformed_id_is_400 :
  hexObjectId (lit "xyz") = None
  /\ (getNote hexObjectId 7 (lit "xyz") (fresh ∅)).1
     = respond 400 (BError [Text (lit "Invalid note ID")])
  /\ status (getNote hexObjectId 7 (lit "xyz") (fresh ∅)).1 <> 404%nat
  /\ status (deleteBookmark hexObjectId 7 (lit "xyz") (fresh ∅)).1 <> 404%nat.
Proof.
  split_and!.
  - vm_compute. reflexivity.
  - vm_compute. reflexivity.
  - vm_compute. discriminate.
  - vm_compute. discriminate.
Qed.

(** ** Field checks *)

Lemma stripPrefix_Some pre s r : stripPrefix pre s = Some r <-> s = pre ++ r.
Proof.
  revert s. induction pre as [|a pre IH]; intros s; simpl.
  - split; [by intros [= ->]|by intros ->].
  - destruct s as [|c s]; [done|].
    destruct (N.eqb_spec a c) as [->|Hne].
    + rewrite IH. split; [by intros ->|by intros [= ->]].
    + split; [done|]. by intros [= -> _].
Qed.

Lemma urlPattern_rest r :
  match stripPrefix (lit "://") r with
  | Some (c :: _) => negb (isLineTerminator c)
  | _ => false
  end = true ->
  exists c rest, isLineTerminator c = false /\ r = lit "://" ++ c :: rest.
Proof.
  destruct (stripPrefix (lit "://") r) as [[|c rest]|] eqn:E; try done.
  apply stripPrefix_Some in E. intros Hc%negb_true_iff. eauto.
Qed.

Lemma urlPattern_test_spec t : urlPattern_test t = true <-> matchesHttp t.
Proof.
  split.
  - unfold urlPattern_test.
    destruct (stripPrefix (lit "http") t) as [r|] eqn:E; [|done].
    apply stripPrefix_Some in E. subst t.
    assert (forall x,
      match stripPrefix (lit "://") x with
      | Some (c :: _) => negb (isLineTerminator c)
      | _ => false
      end = true ->
      x = r -> matchesHttp (lit "http" ++ r)) as Hplain.
    { intros x (c & rest & Hc & ->)%urlPattern_rest <-.
      exists c, rest. split; [done|]. by left. }
    destruct r as [|a r']; [by eauto|].
    destruct (N.eqb_spec a 115) as [->|Hne]; [|by eauto].
    intros [H|H]%orb_true_iff; [|by eauto].
    apply urlPattern_rest in H as (c & rest & Hc & ->).
    exists c, rest. split; [done|]. by right.
  - intros (c & rest & Hc & [-> | ->]).
    + change (urlPattern_test (lit "http://" ++ c :: rest))
        with (negb (isLineTerminator c)). by rewrite Hc.
    + change (urlPattern_test (lit "https://" ++ c :: rest))
        with (negb (isLineTerminator c) || false). by rewrite Hc.
Qed.

Lemma requiredString_Some v s :
  requiredString v = Some s ->
  v = Some (JStr s) /\ nonEmpty (trim s) = true /\ blank s = false.
Proof.
  unfold requiredString. destruct (truthy v); [|done]. simpl.
  destruct v as [[| | |s'| |]|]; try done.
  destruct (nonEmpty (trim s')) eqn:E; [|done]. simpl. intros [= ->].
  split_and!; [done..|].
  destruct (blank s) eqn:Hb; [|done]. by rewrite (trim_blank s Hb) in E.
Qed.

Lemma requiredString_None v : requiredString v = None <-> noText v.
Proof.
  unfold requiredString, noText.
  destruct v as [[|b|r|s|l|fs]|];
    try (split; [done|]; intros _; cbn; by repeat case_match).
  cbn [truthy].
  destruct (nonEmpty s) eqn:Hs; cbn [negb].
  - destruct (nonEmpty (trim s)) eqn:E; cbn [negb].
    + split; [done|]. intros Hb. by rewrite (trim_blank _ Hb) in E.
    + split; [|done]. intros _. apply trim_nil_blank. by destruct (trim s).
  - split; [|done]. intros _. by destruct s.
Qed.

Lemma matchesHttp_nonEmpty t : matchesHttp t -> nonEmpty t = true.
Proof. by intros (c & rest & _ & [-> | ->]). Qed.

(** The two URL checks of the bookmark routes pass exactly on the
    http(s) URLs. *)
Lemma url_checks v :
  (exists s, requiredString v = Some s /\ urlPattern_test (trim s) = true)
  <-> httpUrl v.
Proof.
  split.
  - intros (s & (-> & _)%requiredString_Some & Ht%urlPattern_test_spec).
    by exists s.
  - intros (s & -> & Hm). exists s. split; [|by apply urlPattern_test_spec].
    pose proof (matchesHttp_nonEmpty _ Hm) as Hne.
    unfold requiredString. simpl. rewrite Hne.
    destruct s; [done|]. done.
Qed.

(** ** The create routes *)

Lemma save_run {D} newId errors (d : D) (w : World D) :
  save newId errors d w
  = match errors with
    | _ :: _ => (Throw (ValidationError errors), saving w)
    | [] =>
        match store w !! newId with
        | Some _ => (Throw OtherError, saving w)
        | None =>
            (Ok (newId, d),
             {| store := <[newId := d]> (store w);
                calls := calls w ++ [CallSave] |})
        end
    end.
Proof.
  unfold save. run_route. destruct errors; [|done].
  cbn. by destruct (store w !! newId).
Qed.

Lemma createNote_run user req newId now (w : World Note) :
  createNote user req newId now w
  = match requiredString (nb_title req) with
    | None => (respond 400 (BError [Text (lit "Title is required")]), w)
    | Some title =>
    match requiredString (nb_content req) with
    | None => (respond 400 (BError [Text (lit "Content is required")]), w)
    | Some content =>
    match processTags (nb_tags req) with
    | Throw e => (createCatch "note" e, w)
    | Ok tagsArray =>
        let note := newNote user (trim title) (trim content) tagsArray
                            (orFalse (nb_isFavorite req)) now in
        match note.1 with
        | _ :: _ => (respond 400 (BError note.1), saving w)
        | [] =>
            match store w !! newId with
            | Some _ =>
                (respond 500 (BError [Text (lit "Server error while creating note")]),
                 saving w)
            | None =>
                (respond 201 (BDoc newId note.2),
                 {| store := <[newId := note.2]> (store w);
                    calls := calls w ++ [CallSave] |})
            end
        end
    end end end.
Proof.
  unfold createNote, tryCatch.
  destruct (requiredString (nb_title req)) as [title|]; [|done].
  destruct (requiredString (nb_content req)) as [content|]; [|done].
  unfold hbind at 1, liftJs.
  destruct (processTags (nb_tags req)) as [ts|e]; [|done].
  unfold hbind. rewrite save_run. cbn zeta.
  destruct (newNote _ _ _ _ _ _).1 eqn:E; [|done].
  by destruct (store w !! newId).
Qed.

Lemma createBookmark_run remote user req newId now (w : World Bookmark) :
  createBookmark remote user req newId now w
  = match requiredString (bb_url req) with
    | None => (respond 400 (BError [Text (lit "URL is required")]), w)
    | Some url =>
    if negb (urlPattern_test (trim url)) then
      (respond 400 (BError [Text (lit urlMessage)]), w)
    else
    match processTags (bb_tags req) with
    | Throw e => (createCatch "bookmark" e, w)
    | Ok tagsArray =>
    match givenTitle (bb_title req) with
    | Throw e => (createCatch "bookmark" e, w)
    | Ok given =>
        let w1 := match given with Some _ => w | None => fetching url w end in
        let bookmarkTitle :=
          match given with
          | Some s => s
          | None =>
              if negb (truthyStr (fetchMetadata remote url)) then url
              else default url (fetchMetadata remote url)
          end in
        match trimOrEmpty (bb_description req) with
        | Throw e => (createCatch "bookmark" e, w1)
        | Ok description =>
            let bookmark := newBookmark user (trim url) (trim bookmarkTitle)
                              description tagsArray
                              (orFalse (bb_isFavorite req)) now in
            match bookmark.1 with
            | _ :: _ => (respond 400 (BError bookmark.1), saving w1)
            | [] =>
                match store w !! newId with
                | Some _ =>
                    (respond 500
                       (BError [Text (lit "Server error while creating bookmark")]),
                     saving w1)
                | None =>
                    (respond 201 (BDoc newId bookmark.2),
                     {| store := <[newId := bookmark.2]> (store w);
                        calls := calls w1 ++ [CallSave] |})
                end
            end
        end
    end end end.
Proof.
  unfold createBookmark, tryCatch.
  destruct (requiredString (bb_url req)) as [url|]; [|done].
  destruct (negb (urlPattern_test (trim url))); [done|].
  unfold hbind at 1, liftJs at 1.
  destruct (processTags (bb_tags req)) as [ts|e]; [|done].
  unfold hbind at 1, bookmarkTitleOf, hbind at 1, liftJs at 1.
  destruct (givenTitle (bb_title req)) as [[s|]|e]; [| |done].
  - unfold hret at 1, hbind at 1, liftJs at 1.
    destruct (trimOrEmpty (bb_description req)) as [description|e]; [|done].
    unfold hbind. rewrite save_run. cbn zeta.
    destruct (newBookmark _ _ _ _ _ _ _).1 eqn:E; [|done].
    by destruct (store w !! newId).
  - unfold hbind at 2, logCall, hret at 1. unfold hbind at 1, liftJs at 1.
    destruct (trimOrEmpty (bb_description req)) as [description|e]; [|done].
    unfold hbind. rewrite save_run. cbn zeta.
    destruct (newBookmark _ _ _ _ _ _ _).1 eqn:E; [|done].
    cbn [fetching store]. by destruct (store w !! newId).
Qed.



(** ** Title of a new bookmark *)

Lemma givenTitle_nonBlank v :
  nonBlankTitle v -> exists s, v = Some (JStr s) /\ givenTitle v = Ok (Some s).
Proof.
  intros (s & -> & Hb). exists s. split; [done|].
  unfold givenTitle. cbn [truthy].
  destruct (nonEmpty s) eqn:Hs; [|by destruct s].
  cbn [negb]. case_bool_decide as Ht; [|done].
  apply trim_nil_blank in Ht. congruence.
Qed.

Lemma givenTitle_absent v : titleAbsentOrBlank v -> givenTitle v = Ok None.
Proof.
  intros [-> | (s & -> & Hb)]; [done|].
  unfold givenTitle. cbn [truthy]. destruct (nonEmpty s); [|done].
  cbn [negb]. by rewrite (trim_blank s Hb).
Qed.

Lemma givenTitle_None v :
  givenTitle v = Ok None ->
  truthy v = false \/ exists s, v = Some (JStr s) /\ blank s = true.
Proof.
  unfold givenTitle. destruct (truthy v) eqn:Hv; [|by left].
  cbn [negb]. destruct v as [[| | |s| |]|]; try done.
  case_bool_decide as Ht; [|done]. intros _. right. exists s.
  split; [done|]. by apply trim_nil_blank.
Qed.

Lemma fetchMetadata_nonEmpty remote url t :
  fetchMetadata remote url = Some t -> nonEmpty t = true.
Proof.
  destruct (remote url) as [p|e] eqn:Hp.
  - rewrite (fetchMetadata_page remote url p Hp).
    destruct (firstNonEmpty (candidates p)) as [c|]; [|done].
    destruct (blank c) eqn:Hb; [done|]. intros [= <-].
    by rewrite cleanTitle_nonEmpty, Hb.
  - unfold fetchMetadata, fetchMetadata_try. by rewrite Hp.
Qed.

(** C5 (as the code has it).  On [POST /] of a bookmark the metadata
    fetcher is called only when the request has no title -- never when a
    non-blank title is supplied -- and then with the URL of the request;
    it is called whenever the URL is an http(s) URL, the title is absent
    or blank and the tags can be processed; and when such a request
    ends in a stored bookmark, the calls were the fetch and the save,
    and the stored title is the fetched title, trimmed, or, if the
    fetcher returned null, the URL trimmed -- which is the stored URL,
    and the raw URL when that has no whitespace around it. *)
Theorem bookmark_title_fallback
    (remote : Remote) (user : N) (req : BookmarkBody) (newId : N) (now : Z)
    (st : gmap N Bookmark) :
  let out := createBookmark remote user req newId now (fresh st) in
  (nonBlankTitle (bb_title req) ->
     forall u, CallFetchMetadata u ∉ calls out.2)
  /\ (forall u, CallFetchMetadata u ∈ calls out.2 ->
        bb_url req = Some (JStr u)
        /\ (truthy (bb_title req) = false
            \/ exists s, bb_title req = Some (JStr s) /\ blank s = true))
  /\ (forall url ts,
        bb_url req = Some (JStr url) -> matchesHttp (trim url) ->
        titleAbsentOrBlank (bb_title req) ->
        processTags (bb_tags req) = Ok ts ->
        calls out.2 !! 0%nat = Some (CallFetchMetadata url))
  /\ (forall url,
        bb_url req = Some (JStr url) ->
        titleAbsentOrBlank (bb_title req) ->
        status out.1 = 201%nat ->
        calls out.2 = [CallFetchMetadata url; CallSave]
        /\ exists d,
             body out.1 = BDoc newId d
             /\ store out.2 = <[newId := d]> st
             /\ bm_url d = trim url
             /\ (fetchMetadata remote url = None -> bm_title d = trim url)
             /\ (forall t, fetchMetadata remote url = Some t ->
                   bm_title d = trim t)
             /\ (noLead url -> noTrail url ->
                 fetchMetadata remote url = None -> bm_title d = url)).
Proof.
  intros out. subst out. rewrite createBookmark_run.
  destruct (requiredString (bb_url req)) as [url|] eqn:Hurl.
  2:{ cbn [fst snd fresh calls]. split_and!.
      - intros _ u Hu. by apply elem_of_nil in Hu.
      - intros u Hu. by apply elem_of_nil in Hu.
      - intros url ts Hu Hm _ _.
        assert (httpUrl (bb_url req)) as Hh by (by exists url).
        apply url_checks in Hh as (s & Hs & _). congruence.
      - done. }
  apply requiredString_Some in Hurl as (Hurl & _ & _).
  destruct (urlPattern_test (trim url)) eqn:Hpat; cbn [negb].
  2:{ cbn [fst snd fresh calls]. split_and!.
      - intros _ u Hu. by apply elem_of_nil in Hu.
      - intros u Hu. by apply elem_of_nil in Hu.
      - intros url' ts Hu Hm _ _. rewrite Hurl in Hu. injection Hu as <-.
        apply urlPattern_test_spec in Hm. congruence.
      - done. }
  destruct (processTags (bb_tags req)) as [tagsArray|e] eqn:Htags.
  2:{ cbn [fst snd fresh calls]. split_and!.
      - intros _ u Hu. by apply elem_of_nil in Hu.
      - intros u Hu. by apply elem_of_nil in Hu.
      - done.
      - intros url' _ _ H201. by destruct e. }
  destruct (givenTitle (bb_title req)) as [given|e] eqn:Hgiven.
  2:{ cbn [fst snd fresh calls]. split_and!.
      - intros _ u Hu. by apply elem_of_nil in Hu.
      - intros u Hu. by apply elem_of_nil in Hu.
      - intros url' ts _ _ Habs _. apply givenTitle_absent in Habs. congruence.
      - intros url' _ Habs. apply givenTitle_absent in Habs. congruence. }
  cbn zeta.
  set (title := match given with
                | Some s => s
                | None => if negb (truthyStr (fetchMetadata remote url))
                          then url else default url (fetchMetadata remote url)
                end).
  set (w1 := match given with
             | Some _ => fresh st
             | None => fetching url (fresh st)
             end).
  assert (forall o : Response Bookmark * World Bookmark,
            calls o.2 = calls w1 \/ calls o.2 = calls w1 ++ [CallSave] ->
            (nonBlankTitle (bb_title req) ->
               forall u, CallFetchMetadata u ∉ calls o.2)
            /\ (forall u, CallFetchMetadata u ∈ calls o.2 ->
                  bb_url req = Some (JStr u)
                  /\ (truthy (bb_title req) = false
                      \/ exists s, bb_title req = Some (JStr s)
                                   /\ blank s = true))
            /\ (forall url',
                  bb_url req = Some (JStr url') -> matchesHttp (trim url') ->
                  titleAbsentOrBlank (bb_title req) ->
                  calls o.2 !! 0%nat = Some (CallFetchMetadata url')))
    as Hcalls.
  { intros o Ho.
    assert (forall u, CallFetchMetadata u ∈ calls o.2 ->
              given = None /\ u = url) as Hin.
    { intros u Hu. subst w1. destruct given as [s|].
      - destruct Ho as [Ho|Ho]; rewrite Ho in Hu; cbn in Hu.
        + by apply elem_of_nil in Hu.
        + by apply list_elem_of_singleton in Hu.
      - destruct Ho as [Ho|Ho]; rewrite Ho in Hu; cbn in Hu.
        + by apply list_elem_of_singleton in Hu as [= ->].
        + apply elem_of_cons in Hu as [[= ->]|Hu]; [done|].
          by apply list_elem_of_singleton in Hu. }
    split_and!.
    - intros (s & Hs & Hg)%givenTitle_nonBlank u Hu.
      destruct (Hin u Hu) as [-> _]. congruence.
    - intros u Hu. destruct (Hin u Hu) as [-> ->]. split; [done|].
      by apply givenTitle_None.
    - intros url' Hu _ Habs%givenTitle_absent.
      rewrite Hurl in Hu. injection Hu as <-.
      assert (given = None) as -> by congruence. subst w1.
      by destruct Ho as [-> | ->]. }
  destruct (trimOrEmpty (bb_description req)) as [description|e].
  2:{ destruct (Hcalls (createCatch "bookmark" e, w1)) as (H1 & H2 & H3);
        [by left|].
      split_and!; [done|done|by intros url' ts ? ? ? _; apply H3|].
      intros url' _ _ H201. by destruct e. }
  destruct (newBookmark user (trim url) (trim title) description tagsArray
              (orFalse (bb_isFavorite req)) now) as [errors d] eqn:Hnew.
  cbn [fst snd].
  destruct errors as [|m ms].
  2:{ destruct (Hcalls (respond 400 (BError (m :: ms)), saving w1))
        as (H1 & H2 & H3); [by right|].
      split_and!; [done|done|by intros url' ts ? ? ? _; apply H3|done]. }
  cbn [fresh store].
  destruct (st !! newId) eqn:Hfree.
  { destruct (Hcalls (respond 500
       (BError [Text (lit "Server error while creating bookmark")]),
       saving w1)) as (H1 & H2 & H3); [by right|].
    split_and!; [done|done|by intros url' ts ? ? ? _; apply H3|done]. }
  destruct (Hcalls (respond 201 (BDoc newId d),
              {| store := <[newId := d]> st; calls := calls w1 ++ [CallSave] |}))
    as (H1 & H2 & H3); [by right|].
  split_and!; [done|done|by intros url' ts ? ? ? _; apply H3|].
  intros url' Hu Habs%givenTitle_absent _. cbn [fst snd calls store body].
  rewrite Hurl in Hu. injection Hu as <-.
  assert (given = None) as -> by congruence. subst w1 title.
  split; [done|]. exists d. split_and!; [done..| | | |].
  - unfold newBookmark in Hnew. injection Hnew as _ <-. cbn [bm_url].
    apply trim_idemp.
  - intros Hnull. unfold newBookmark in Hnew. injection Hnew as _ <-.
    cbn [bm_title]. rewrite Hnull. cbn [truthyStr negb]. apply trim_idemp.
  - intros t Ht. unfold newBookmark in Hnew. injection Hnew as _ <-.
    cbn [bm_title]. rewrite Ht. cbn [truthyStr].
    rewrite (fetchMetadata_nonEmpty _ _ _ Ht).
    change (default url (Some t)) with t. cbn [negb]. apply trim_idemp.
  - intros Hl Ht Hnull. unfold newBookmark in Hnew. injection Hnew as _ <-.
    cbn [bm_title]. rewrite Hnull. cbn [truthyStr negb].
    rewrite trim_idemp. by apply trim_id.
Qed.

Lemma bookmark_title_fallback_witness :
  let url := lit "http://x.com" in
  let out := createBookmark unreachable 7 blank_title_bookmark_body 1 5 (fresh ∅) in
  (forall u, CallFetchMetadata u ∉
             calls (createBookmark unreachable 7 titled_bookmark_body 1 5
                                   (fresh ∅)).2)
  /\ calls out.2 = [CallFetchMetadata url; CallSave]
  /\ exists d, store out.2 = <[1 := d]> ∅ /\ bm_title d = url.
Proof.
  intros url out.
  destruct (bookmark_title_fallback unreachable 7 titled_bookmark_body 1 5 ∅)
    as (Hnever & _).
  destruct (bookmark_title_fallback unreachable 7 blank_title_bookmark_body 1 5 ∅)
    as (_ & _ & _ & Hstored).
  assert (nonBlankTitle (bb_title titled_bookmark_body)) as Ht.
  { exists (lit "X"). split; reflexivity. }
  assert (titleAbsentOrBlank (bb_title blank_title_bookmark_body)) as Hb.
  { right. exists (lit "  "). split; reflexivity. }
  assert (status out.1 = 201%nat) as H201 by (vm_compute; reflexivity).
  destruct (Hstored url eq_refl Hb H201)
    as (Hcalls & d & _ & Hstore & _ & _ & _ & Htitle).
  split; [exact (Hnever Ht)|]. split; [exact Hcalls|].
  exists d. split; [exact Hstore|].
  apply Htitle; vm_compute; reflexivity.
Defined.

(** C5 as stated fails on a URL followed by a space.  The URL matches
    the pattern as it stands; the fetcher is called with it and returns
    null; the stored title is the trimmed URL, not the raw one. *)
Lemma padded_url_title_is_trimmed :
  let url := lit "http://x.com " in
  let out := createBookmark unreachable 7 padded_url_body 1 5 (fresh ∅) in
  bb_url padded_url_body = Some (JStr url)
  /\ urlPattern_test url = true
  /\ fetchMetadata unreachable url = None
  /\ status out.1 = 201%nat
  /\ calls out.2 = [CallFetchMetadata url; CallSave]
  /\ exists d, store out.2 !! 1 = Some d
               /\ bm_title d = lit "http://x.com"
               /\ bm_title d <> url.
Proof.
  intros url out. split_and!; try (vm_compute; reflexivity).
  eexists. split_and!.
  - vm_compute. reflexivity.
  - vm_compute. reflexivity.
  - vm_compute. discriminate.
Qed.

(** ** Updates *)

Section update_effect.
Variable castObjectId : jsstring -> option N.
Context {D U : Type} `{Document D}.
Variable what What : string.
Variable prepared : Js (Response D + U).
Variable cast : U -> Js (D -> D).
Variable validate : U -> list Message.

(** Whatever the answer, only the record named by the id can change. *)
Lemma updateRoute_other user id now (w : World D) k' :
  castObjectId id <> Some k' ->
  store (updateRoute castObjectId what What prepared cast validate
                     user id now w).2 !! k' = store w !! k'.
Proof.
  intros Hk. rewrite updateRoute_run.
  destruct prepared as [[early|u]|e]; [done| |done].
  destruct (castObjectId id) as [k|]; [|done].
  destruct (cast u) as [f|e]; [|done].
  destruct (validate u); [|done].
  destruct (owned user k (store w)); [|done].
  cbn [snd store]. apply lookup_insert_ne. congruence.
Qed.

Lemma updateRoute_not_200 user id now (w : World D) :
  status (updateRoute castObjectId what What prepared cast validate
                      user id now w).1 <> 200%nat ->
  store (updateRoute castObjectId what What prepared cast validate
                     user id now w).2 = store w.
Proof.
  rewrite updateRoute_run.
  destruct prepared as [[early|u]|e]; [done| |done].
  destruct (castObjectId id) as [k|]; [|done].
  destruct (cast u) as [f|e]; [|done].
  destruct (validate u); [|done].
  by destruct (owned user k (store w)).
Qed.
Hypothesis early_400 :
  forall r, prepared = Ok (inl r) -> status r = 400%nat.

Lemma updateRoute_200 user id now (w : World D) :
  status (updateRoute castObjectId what What prepared cast validate
                      user id now w).1 = 200%nat ->
  exists u f k d,
    prepared = Ok (inr u) /\ cast u = Ok f /\ validate u = []
    /\ castObjectId id = Some k /\ store w !! k = Some d /\ doc_user d = user
    /\ updateRoute castObjectId what What prepared cast validate user id now w
       = (respond 200 (BDoc k (doc_touch now (f d))),
          {| store := <[k := doc_touch now (f d)]> (store w);
             calls := calls w ++ [CallFindOneAndUpdate id] |}).
Proof using early_400.
  rewrite updateRoute_run.
  destruct prepared as [[early|u]|e] eqn:Hp; cbn [fst].
  - by rewrite (early_400 early eq_refl).
  - destruct (castObjectId id) as [k|]; [|done].
    destruct (cast u) as [f|e] eqn:Hc.
    + destruct (validate u) eqn:Hv; [|done].
      destruct (owned user k (store w)) as [d|] eqn:Ho; [|done].
      apply owned_Some in Ho as [Hd Hu]. intros _.
      exists u, f, k, d. done.
    + cbn [fst]. by destruct (updateCatch_status (D:=D) what e) as [-> | ->].
  - by destruct (updateCatch_status (D:=D) what e) as [-> | ->].
Qed.

End update_effect.

Lemma processTags_trimmed tags out :
  processTags tags = Ok out -> trim <$> out = out.
Proof.
  rewrite processTags_entries.
  destruct (tagEntries tags) as [entries|e] eqn:He; [|done].
  simpl. intros [= <-].
  pose proof (tagEntries_normal _ _ He) as Hnorm.
  rewrite Forall_forall in Hnorm.
  transitivity (id <$> Set_from entries); [|apply list_fmap_id].
  apply list_fmap_ext. intros i t Ht%list_elem_of_lookup_2.
  apply Hnorm. by apply elem_of_Set_from.
Qed.

Lemma checkPresent_Accepted v o :
  checkPresent v = Accepted o ->
  (v = None /\ o = None)
  \/ exists s, v = Some (JStr s) /\ o = Some s /\ blank s = false.
Proof.
  unfold checkPresent. destruct v as [x|]; [|intros [= <-]; by left].
  destruct (requiredString (Some x)) as [s|] eqn:E; [|done].
  intros [= <-]. apply requiredString_Some in E as (-> & _ & Hb).
  right. by exists s.
Qed.

Lemma checkPresent_Rejected v :
  checkPresent v = Rejected <-> v <> None /\ noText v.
Proof.
  unfold checkPresent. destruct v as [x|].
  - destruct (requiredString (Some x)) as [s|] eqn:E.
    + split; [done|]. intros [_ Hn%requiredString_None]. congruence.
    + split; [|done]. intros _. split; [done|]. by apply requiredString_None.
  - split; [done|]. by intros [? _].
Qed.

Lemma updateTags_inv tags o :
  updateTags tags = Ok o ->
  (tags = None /\ o = None)
  \/ exists v ts, tags = Some v /\ o = Some ts /\ processTags (Some v) = Ok ts.
Proof.
  unfold updateTags. destruct tags as [v|]; [|intros [= <-]; by left].
  rewrite processTagsUpdate_processTags.
  destruct (processTags (Some v)) as [ts|] eqn:E; [|done].
  intros [= <-]. right. by exists v, ts.
Qed.

Lemma castFavorite_inv v o :
  castFavorite v = Ok o ->
  (v = None /\ o = None)
  \/ exists x b, v = Some x /\ o = Some b /\ castBoolean x = Ok b.
Proof.
  unfold castFavorite. destruct v as [x|]; [|intros [= <-]; by left].
  destruct (castBoolean x) as [b|] eqn:E; [|done].
  intros [= <-]. right. by exists x, b.
Qed.

Lemma note_update_fields castObjectId user id req now (w : World Note) :
  let out := updateNote castObjectId user id req now w in
  status out.1 = 200%nat ->
  exists k d d',
    castObjectId id = Some k /\ store w !! k = Some d /\ note_user d = user
    /\ body out.1 = BDoc k d' /\ store out.2 = <[k := d']> (store w)
    /\ note_user d' = note_user d
    /\ note_createdAt d' = note_createdAt d
    /\ (nb_title req = None -> note_title d' = note_title d)
    /\ (nb_content req = None -> note_content d' = note_content d)
    /\ (nb_tags req = None -> note_tags d' = note_tags d)
    /\ (nb_isFavorite req = None -> note_isFavorite d' = note_isFavorite d)
    /\ (forall v, nb_title req = Some v ->
          exists s, v = JStr s /\ blank s = false /\ note_title d' = trim s)
    /\ (forall v, nb_content req = Some v ->
          exists s, v = JStr s /\ blank s = false /\ note_content d' = trim s)
    /\ (forall v, nb_tags req = Some v ->
          processTags (Some v) = Ok (note_tags d'))
    /\ (forall v, nb_isFavorite req = Some v ->
          castBoolean v = Ok (note_isFavorite d')).
Proof.
  intros out H200. subst out. unfold updateNote in *.
  apply updateRoute_200 in H200
    as (u & f & k & d & Hp & Hc & _ & Hk & Hd & Hu & ->);
    [|apply noteUpdateData_early].
  exists k, d, (doc_touch now (f d)).
  split_and!; [done..| | | | | | | | | |].
  all: unfold noteUpdateData in Hp;
    destruct (checkPresent (nb_title req)) as [|title] eqn:Ht; [done|];
    destruct (checkPresent (nb_content req)) as [|content] eqn:Hcn; [done|];
    destruct (updateTags (nb_tags req)) as [tags|] eqn:Htg; [|done];
    injection Hp as <-;
    unfold castNoteUpdate in Hc; cbn [nu_isFavorite] in Hc;
    destruct (castFavorite (nb_isFavorite req)) as [fav|] eqn:Hf; [|done];
    injection Hc as <-;
    cbn [doc_touch Note_Document note_user note_createdAt note_title
         note_content note_tags note_isFavorite nu_title nu_content nu_tags];
    apply checkPresent_Accepted in Ht as [[Ht ->]|(st & Ht & -> & Hbt)];
    apply checkPresent_Accepted in Hcn as [[Hcn ->]|(sc & Hcn & -> & Hbc)];
    apply updateTags_inv in Htg as [[Htg ->]|(vt & ts & Htg & -> & Hts)];
    apply castFavorite_inv in Hf as [[Hf ->]|(vf & b & Hf & -> & Hb)];
    try done; try congruence.
  all: try (intros v Hv; rewrite Hv in *; simplify_eq; cbn;
            first [ by rewrite (processTags_trimmed _ _ Hts)
                  | eexists; split_and!; [done..|]; by rewrite trim_idemp
                  | done ]).
Qed.

Lemma trimOrEmpty_trimmed v s : trimOrEmpty v = Ok s -> trim s = s.
Proof.
  unfold trimOrEmpty. destruct (truthy v); [|by intros [= <-]].
  destruct v as [[| | |s'| |]|]; try done. intros [= <-]. apply trim_idemp.
Qed.

Lemma updateText_inv v o :
  updateText v = Ok o ->
  (v = None /\ o = None)
  \/ exists x s, v = Some x /\ o = Some s /\ trimOrEmpty (Some x) = Ok s.
Proof.
  unfold updateText. destruct v as [x|]; [|intros [= <-]; by left].
  destruct (trimOrEmpty (Some x)) as [s|] eqn:E; [|done].
  intros [= <-]. right. by exists x, s.
Qed.

Lemma bookmark_update_fields castObjectId user id req now (w : World Bookmark) :
  let out := updateBookmark castObjectId user id req now w in
  status out.1 = 200%nat ->
  exists k d d',
    castObjectId id = Some k /\ store w !! k = Some d /\ bm_user d = user
    /\ body out.1 = BDoc k d' /\ store out.2 = <[k := d']> (store w)
    /\ bm_user d' = bm_user d
    /\ bm_createdAt d' = bm_createdAt d
    /\ (bb_url req = None -> bm_url d' = bm_url d)
    /\ (bb_title req = None -> bm_title d' = bm_title d)
    /\ (bb_description req = None -> bm_description d' = bm_description d)
    /\ (bb_tags req = None -> bm_tags d' = bm_tags d)
    /\ (bb_isFavorite req = None -> bm_isFavorite d' = bm_isFavorite d)
    /\ (forall v, bb_url req = Some v ->
          exists s, v = JStr s /\ matchesHttp (trim s) /\ bm_url d' = trim s)
    /\ (forall v, bb_title req = Some v ->
          trimOrEmpty (Some v) = Ok (bm_title d'))
    /\ (forall v, bb_description req = Some v ->
          trimOrEmpty (Some v) = Ok (bm_description d'))
    /\ (forall v, bb_tags req = Some v ->
          processTags (Some v) = Ok (bm_tags d'))
    /\ (forall v, bb_isFavorite req = Some v ->
          castBoolean v = Ok (bm_isFavorite d')).
Proof.
  intros out H200. subst out. unfold updateBookmark in *.
  apply updateRoute_200 in H200
    as (u & f & k & d & Hp & Hc & _ & Hk & Hd & Hu & ->);
    [|apply bookmarkUpdateData_early].
  exists k, d, (doc_touch now (f d)).
  unfold bookmarkUpdateData in Hp.
  destruct (checkPresent (bb_url req)) as [|url] eqn:Hurl; [done|].
  destruct (from_option _ _ url) eqn:Hpat; [|done]. cbn [negb] in Hp.
  destruct (updateText (bb_title req)) as [title|] eqn:Ht; [|done].
  destruct (updateText (bb_description req)) as [description|] eqn:Hds; [|done].
  destruct (updateTags (bb_tags req)) as [tags|] eqn:Htg; [|done].
  injection Hp as <-.
  unfold castBookmarkUpdate in Hc. cbn [bu_isFavorite] in Hc.
  destruct (castFavorite (bb_isFavorite req)) as [fav|] eqn:Hf; [|done].
  injection Hc as <-.
  cbn [doc_touch Bookmark_Document bm_user bm_createdAt bm_url bm_title
       bm_description bm_tags bm_isFavorite bu_url bu_title bu_description
       bu_tags fst snd body store].
  apply checkPresent_Accepted in Hurl as [[Hurl ->]|(su & Hurl & -> & Hbu)];
    apply updateText_inv in Ht as [[Ht ->]|(xt & st & Ht & -> & Hst)];
    apply updateText_inv in Hds as [[Hds ->]|(xd & sd & Hds & -> & Hsd)];
    apply updateTags_inv in Htg as [[Htg ->]|(vt & ts & Htg & -> & Hts)];
    apply castFavorite_inv in Hf as [[Hf ->]|(vf & b & Hf & -> & Hb)];
    (split_and!; [done..| | | | | | | | | | | ]);
    try done; try congruence;
    intros v Hv; rewrite Hv in *; simplify_eq;
    cbn [fmap option_fmap option_map from_option];
    first [ by rewrite (processTags_trimmed _ _ Hts)
          | by rewrite (trimOrEmpty_trimmed _ _ Hst)
          | by rewrite (trimOrEmpty_trimmed _ _ Hsd)
          | eexists; split_and!;
            [done|by apply urlPattern_test_spec|by rewrite trim_idemp]
          | done ].
Qed.

(** C9.  An update that succeeds changes one record, the one named by
    the id and owned by the caller, and in it only what the request
    holds: owner, creation time and every absent field are kept, and
    every present field is set from the request, the tags having gone
    through the tag normaliser.  An update that does not succeed leaves
    the store as it was, and no update touches another record.  A
    required field that is present but holds no text (a note's title or
    content) or is not an http(s) URL (a bookmark's url) is rejected
    with 400 before the store is asked.  The store sets [updatedAt]
    itself; it is not a field of the request. *)
Theorem update_applies_present_fields
    (castObjectId : jsstring -> option N) (user : N) (id : jsstring) (now : Z) :
  (forall (req : NoteBody) (w : World Note),
     let out := updateNote castObjectId user id req now w in
     (status out.1 = 200%nat ->
        exists k d d',
          castObjectId id = Some k /\ store w !! k = Some d
          /\ note_user d = user
          /\ body out.1 = BDoc k d' /\ store out.2 = <[k := d']> (store w)
          /\ noteFieldsApplied req d d')
     /\ (status out.1 <> 200%nat -> store out.2 = store w)
     /\ (forall k', castObjectId id <> Some k' ->
           store out.2 !! k' = store w !! k')
     /\ (nb_title req <> None -> noText (nb_title req) ->
           out = (respond 400 (BError [Text (lit "Title is required")]), w))
     /\ (nb_content req <> None -> noText (nb_content req) ->
           status out.1 = 400%nat /\ out.2 = w))
  /\ (forall (req : BookmarkBody) (w : World Bookmark),
     let out := updateBookmark castObjectId user id req now w in
     (status out.1 = 200%nat ->
        exists k d d',
          castObjectId id = Some k /\ store w !! k = Some d
          /\ bm_user d = user
          /\ body out.1 = BDoc k d' /\ store out.2 = <[k := d']> (store w)
          /\ bookmarkFieldsApplied req d d')
     /\ (status out.1 <> 200%nat -> store out.2 = store w)
     /\ (forall k', castObjectId id <> Some k' ->
           store out.2 !! k' = store w !! k')
     /\ (bb_url req <> None -> ~ httpUrl (bb_url req) ->
           status out.1 = 400%nat /\ out.2 = w)).
Proof.
  split.
  - intros req w out. subst out. split_and!.
    + apply note_update_fields.
    + apply updateRoute_not_200.
    + apply updateRoute_other.
    + intros Hp Hn.
      assert (checkPresent (nb_title req) = Rejected) as Hr
        by (by apply checkPresent_Rejected).
      unfold updateNote. rewrite updateRoute_run.
      unfold noteUpdateData. by rewrite Hr.
    + intros Hp Hn.
      assert (checkPresent (nb_content req) = Rejected) as Hr
        by (by apply checkPresent_Rejected).
      unfold updateNote. rewrite updateRoute_run.
      unfold noteUpdateData. rewrite Hr.
      by destruct (checkPresent (nb_title req)).
  - intros req w out. subst out. split_and!.
    + apply bookmark_update_fields.
    + apply updateRoute_not_200.
    + apply updateRoute_other.
    + intros Hp Hn. unfold updateBookmark. rewrite updateRoute_run.
      unfold bookmarkUpdateData, checkPresent.
      destruct (bb_url req) as [x|] eqn:Hx; [|done].
      destruct (requiredString (Some x)) as [s|] eqn:Hs; [|done].
      cbn [from_option].
      destruct (urlPattern_test (trim s)) eqn:Ht; [|done].
      destruct Hn. apply url_checks. eauto.
Qed.

Lemma update_applies_present_fields_witness :
  let st : gmap N Note := {[100 := sample_note]} in
  let out := updateNote hexObjectId 7 sample_id retag_body 9 (fresh st) in
  status out.1 = 200%nat
  /\ exists d',
       store out.2 = <[100 := d']> st
       /\ note_title d' = lit "Meeting notes"
       /\ note_content d' = lit "agenda"
       /\ processTags (Some (JStr (lit "b, a b"))) = Ok (note_tags d')
       /\ castBoolean (JStr (lit "yes")) = Ok (note_isFavorite d').
Proof.
  intros st out.
  assert (status out.1 = 200%nat) as H200 by (vm_compute; reflexivity).
  split; [exact H200|].
  destruct (update_applies_present_fields hexObjectId 7 sample_id 9) as [HN _].
  destruct (HN retag_body (fresh st)) as (Hok & _).
  destruct (Hok H200)
    as (k & d & d' & Hk & Hd & _ & _ & Hst & _ & _ & Ht & Hc & _ & _ & _ & _
        & Htags & Hfav).
  assert (k = 100) as -> by (vm_compute in Hk; congruence).
  assert (d = sample_note) as ->.
  { change (store (fresh st) !! 100) with (Some sample_note) in Hd. congruence. }
  exists d'. split; [exact Hst|].
  split; [exact (Ht eq_refl)|]. split; [exact (Hc eq_refl)|].
  split; [exact (Htags _ eq_refl)|exact (Hfav _ eq_refl)].
Defined.

(** ** The list routes *)

Section listing.
Variable foldCase : N -> N.
Variable regexOther : jsstring -> option (jsstring -> bool).
Context {D : Type} `{Document D}.
Variable what : string.
Variable fields : list (D -> jsstring).
Implicit Types (w : World D) (user : N) (q tags favorite : option QValue).

Lemma listRoute_run user q tags favorite w :
  listRoute foldCase regexOther what fields user q tags favorite w
  = match buildQuery fields user q tags favorite with
    | Throw _ =>
        (respond 500 (BError (msg ["Server error while fetching "; what; "s"])),
         w)
    | Ok query =>
        match queryPattern foldCase regexOther query with
        | Throw _ =>
            (respond 500
               (BError (msg ["Server error while fetching "; what; "s"])),
             finding w)
        | Ok re => (respond 200 (BList (selected query re (store w))), finding w)
        end
    end.
Proof.
  unfold listRoute, tryCatch, hbind at 1, liftJs at 1.
  destruct (buildQuery fields user q tags favorite) as [query|e]; [|done].
  unfold find, hbind, logCall, liftJs, hret. cbn [store calls].
  by destruct (queryPattern foldCase regexOther query).
Qed.

Lemma elem_of_selected (query : Query D) re (st : gmap N D) k d :
  (k, d) ∈ selected query re st
  <-> st !! k = Some d /\ matches query re d = true.
Proof.
  unfold selected. rewrite merge_sort_Permutation.
  rewrite list_elem_of_In, filter_In, <- list_elem_of_In.
  by rewrite elem_of_map_to_list.
Qed.

(** An empty [q] is no [q]. *)
Lemma buildQuery_empty_q user tags favorite :
  buildQuery fields user (Some (QStr [])) tags favorite
  = buildQuery fields user None tags favorite.
Proof. done. Qed.

(** A [tags] that holds no tag is no [tags]. *)
Lemma buildQuery_no_tags user q s favorite :
  tagFilter s = [] ->
  buildQuery fields user q (Some (QStr s)) favorite
  = buildQuery fields user q None favorite.
Proof.
  intros Hs. unfold buildQuery. cbn [truthyQ].
  destruct (nonEmpty s); [|done]. by rewrite Hs.
Qed.

(** A [favorite] that is not "true" is no [favorite]. *)
Lemma buildQuery_not_favorite user q tags favorite :
  isString_true favorite = false ->
  buildQuery fields user q tags favorite
  = buildQuery fields user q tags None.
Proof. intros Hf. unfold buildQuery. by rewrite Hf. Qed.

Lemma buildQuery_absent user :
  buildQuery fields user None None None = Ok (Build_Query user None None None).
Proof. done. Qed.

(** A non-empty [q] adds the [$or] to the filter and changes nothing
    else. *)
Lemma buildQuery_q user (qs : jsstring) tags favorite :
  qs <> [] ->
  buildQuery fields user (Some (QStr qs)) tags favorite
  = query ← buildQuery fields user None tags favorite;
    Ok (Build_Query (q_user query) (Some (fields, QStr qs))
                    (q_tags_in query) (q_isFavorite query)).
Proof.
  intros Hq. unfold buildQuery. cbn [truthyQ].
  assert (nonEmpty qs = true) as -> by (by destruct qs).
  destruct (truthyQ tags); [|by destruct (isString_true favorite)].
  destruct tags as [[s|]|]; try done.
  destruct (bool_decide _); by destruct (isString_true favorite).
Qed.

Lemma buildQuery_no_or user tags favorite query :
  buildQuery fields user None tags favorite = Ok query -> q_or query = None.
Proof.
  unfold buildQuery. cbn [truthyQ].
  destruct (truthyQ tags).
  - destruct tags as [[s|]|]; try done.
    destruct (bool_decide _), (isString_true favorite); by intros [= <-].
  - destruct (isString_true favorite); by intros [= <-].
Qed.

Lemma matches_with_or (query : Query D) (qv : QValue) re re0 d :
  q_or query = None ->
  matches (Build_Query (q_user query) (Some (fields, qv))
                       (q_tags_in query) (q_isFavorite query)) re d
  = matches query re0 d && existsb (fun f => re (f d)) fields.
Proof.
  intros Hor. unfold matches. rewrite Hor. cbn [q_user q_or q_tags_in
    q_isFavorite]. rewrite andb_true_r.
  destruct (doc_user d =? q_user query), (existsb _ fields); simpl;
    try done; by rewrite ?andb_true_r, ?andb_false_r.
Qed.
End listing.

(** ** Pattern search *)

Section search.
Variable foldCase : N -> N.
Variable regexOther : jsstring -> option (jsstring -> bool).
Implicit Types (a s : jsstring).

Lemma prefix_ci_spec a s :
  prefix_ci foldCase a s = true
  <-> exists mid post, s = mid ++ post /\ foldCase <$> mid = foldCase <$> a.
Proof.
  revert s. induction a as [|x a IH]; intros s.
  - simpl. split; [|done]. intros _. by exists [], s.
  - destruct s as [|y s]; simpl.
    + split; [done|]. intros (mid & post & Hs & Hm).
      destruct mid; [done|]. done.
    + rewrite andb_true_iff, N.eqb_eq, IH. split.
      * intros (Hxy & mid & post & -> & Hm).
        exists (y :: mid), post. split; [done|]. cbn. by rewrite Hxy, Hm.
      * intros (mid & post & Hs & Hm).
        destruct mid as [|m mid]; [done|]. cbn in Hm, Hs.
        injection Hs as -> ->. injection Hm as Hf Hm.
        split; [done|]. by exists mid, post.
Qed.

(** The search finds exactly the occurrences up to case. *)
Lemma search_ci_spec a s :
  search_ci foldCase a s = true <-> occurs_ci foldCase a s.
Proof.
  unfold occurs_ci. induction s as [|c s IH].
  - cbn [search_ci]. rewrite orb_false_r, prefix_ci_spec. split.
    + intros (mid & post & Hs & Hm). by exists [], mid, post.
    + intros (pre & mid & post & Hs & Hm).
      destruct pre; [|done]. by exists mid, post.
  - cbn [search_ci]. rewrite orb_true_iff, prefix_ci_spec, IH. split.
    + intros [(mid & post & Hs & Hm)|(pre & mid & post & Hs & Hm)].
      * by exists [], mid, post.
      * exists (c :: pre), mid, post. by rewrite Hs.
    + intros (pre & mid & post & Hs & Hm). destruct pre as [|p pre].
      * left. by exists mid, post.
      * right. injection Hs as -> ->. by exists pre, mid, post.
Qed.

Lemma split_on_absent d cur s :
  Forall (fun c => c <> d) s -> split_on d cur s = [cur ++ s].
Proof.
  intros Hs. revert cur. induction Hs as [|c s Hc _ IH]; intros cur.
  - by rewrite app_nil_r.
  - simpl. destruct (N.eqb_spec c d) as [?|_]; [done|].
    by rewrite IH, <- app_assoc.
Qed.

(** A pattern without metacharacters matches where it occurs up to
    case. *)
Lemma regexCompile_literal q :
  literalPattern q = true ->
  exists re, regexCompile foldCase regexOther q = Ok re
             /\ forall s, re s = true <-> occurs_ci foldCase q s.
Proof.
  intros Hq. unfold regexCompile.
  assert (forallb (fun c => negb (isMeta c) || (c =? 124)) q = true) as ->.
  { unfold literalPattern in Hq. rewrite forallb_forall in *.
    intros c Hc. by rewrite (Hq c Hc). }
  eexists. split; [done|]. intros s.
  rewrite (split_on_absent 124 [] q).
  - cbn [existsb app]. rewrite orb_false_r. apply search_ci_spec.
  - unfold literalPattern in Hq. rewrite forallb_forall in Hq.
    apply Forall_forall. intros c Hc%list_elem_of_In ->.
    by specialize (Hq _ Hc).
Qed.
End search.

Section listing_q.
Variable foldCase : N -> N.
Variable regexOther : jsstring -> option (jsstring -> bool).
Context {D : Type} `{Document D}.
Variable what : string.
Variable fields : list (D -> jsstring).

(** With nothing asked, the list holds the caller's records. *)
Lemma listRoute_absent user (w : World D) :
  exists L,
    listRoute foldCase regexOther what fields user None None None w
    = (respond 200 (BList L), finding w)
    /\ forall k d, (k, d) ∈ L <-> store w !! k = Some d /\ doc_user d = user.
Proof.
  rewrite listRoute_run, buildQuery_absent. cbn [queryPattern q_or].
  eexists. split; [done|]. intros k d. rewrite elem_of_selected.
  unfold matches. cbn [q_user q_or q_tags_in q_isFavorite].
  rewrite !andb_true_r, N.eqb_eq. done.
Qed.

(** A non-empty [q] whose pattern compiles keeps, of the records that
    the same request without [q] lists, those in which the pattern
    matches one of the text fields. *)
Lemma listRoute_q user (qs : jsstring) re tags favorite (w : World D) L0 :
  qs <> [] ->
  regexCompile foldCase regexOther qs = Ok re ->
  (listRoute foldCase regexOther what fields user None tags favorite w).1
  = respond 200 (BList L0) ->
  exists L1,
    listRoute foldCase regexOther what fields user (Some (QStr qs))
              tags favorite w
    = (respond 200 (BList L1), finding w)
    /\ forall k d,
         (k, d) ∈ L1
         <-> (k, d) ∈ L0 /\ existsb (fun f => re (f d)) fields = true.
Proof.
  intros Hq Hre. rewrite !listRoute_run, (buildQuery_q _ _ _ _ _ Hq).
  destruct (buildQuery fields user None tags favorite) as [query|e] eqn:Hb;
    [|done].
  pose proof (buildQuery_no_or _ _ _ _ _ Hb) as Hor.
  cbn [mbind Js_bind]. unfold queryPattern at 1. rewrite Hor.
  cbn [fst]. intros [= <-].
  unfold queryPattern. cbn [q_or]. rewrite Hre.
  eexists. split; [done|]. intros k d. rewrite !elem_of_selected.
  rewrite (matches_with_or fields query (QStr qs) re (fun _ => true) d Hor).
  rewrite andb_true_iff. tauto.
Qed.

(** A pattern that does not compile fails the request. *)
Lemma listRoute_bad_pattern user (qs : jsstring) e tags favorite (w : World D) :
  qs <> [] ->
  regexCompile foldCase regexOther qs = Throw e ->
  status (listRoute foldCase regexOther what fields user (Some (QStr qs))
                    tags favorite w).1 = 500%nat.
Proof.
  intros Hq Hre. rewrite listRoute_run, (buildQuery_q _ _ _ _ _ Hq).
  destruct (buildQuery fields user None tags favorite) as [query|e']; [|done].
  cbn [mbind Js_bind]. unfold queryPattern. cbn [q_or]. by rewrite Hre.
Qed.
End listing_q.

(** C6 (as the code has it).  The free-text term is a pattern, not a
    literal: a non-empty [q] whose pattern compiles lists exactly those
    records of the same request without [q] -- with no other parameter,
    exactly those records of the caller -- in which the pattern matches,
    caselessly, the title or the content (for notes) or the title, the
    description or the URL (for bookmarks); when [q] holds no
    metacharacter the pattern matches a text exactly when [q] occurs in
    it as a substring up to case. *)
Theorem text_search_matches
    (foldCase : N -> N) (regexOther : jsstring -> option (jsstring -> bool))
    (user : N) (qs : jsstring) (re : jsstring -> bool) :
  qs <> [] ->
  regexCompile foldCase regexOther qs = Ok re ->
  (forall tags favorite (w : World Note) L0,
     (listNotes foldCase regexOther user None tags favorite w).1
     = respond 200 (BList L0) ->
     exists L1,
       (listNotes foldCase regexOther user (Some (QStr qs)) tags favorite w).1
       = respond 200 (BList L1)
       /\ forall k d, (k, d) ∈ L1 <-> (k, d) ∈ L0 /\ noteText re d = true)
  /\ (forall w : World Note,
      exists L,
        (listNotes foldCase regexOther user (Some (QStr qs)) None None w).1
        = respond 200 (BList L)
        /\ forall k d,
             (k, d) ∈ L
             <-> store w !! k = Some d /\ note_user d = user
                 /\ noteText re d = true)
  /\ (forall tags favorite (w : World Bookmark) L0,
     (listBookmarks foldCase regexOther user None tags favorite w).1
     = respond 200 (BList L0) ->
     exists L1,
       (listBookmarks foldCase regexOther user (Some (QStr qs)) tags favorite w).1
       = respond 200 (BList L1)
       /\ forall k d, (k, d) ∈ L1 <-> (k, d) ∈ L0 /\ bookmarkText re d = true)
  /\ (forall w : World Bookmark,
      exists L,
        (listBookmarks foldCase regexOther user (Some (QStr qs)) None None w).1
        = respond 200 (BList L)
        /\ forall k d,
             (k, d) ∈ L
             <-> store w !! k = Some d /\ bm_user d = user
                 /\ bookmarkText re d = true)
  /\ (literalPattern qs = true ->
      forall s, re s = true <-> occurs_ci foldCase qs s).
Proof.
  intros Hq Hre.
  assert (forall d, existsb (fun f => re (f d)) [note_title; note_content]
                    = noteText re d) as HN.
  { intros d. unfold noteText. cbn. by rewrite orb_false_r. }
  assert (forall d, existsb (fun f => re (f d))
                      [bm_title; bm_description; bm_url]
                    = bookmarkText re d) as HB.
  { intros d. unfold bookmarkText. cbn. by rewrite orb_false_r, orb_assoc. }
  split_and!.
  - intros tags favorite w L0 H0. unfold listNotes in *.
    destruct (listRoute_q _ _ _ _ _ _ _ _ _ _ _ Hq Hre H0) as (L1 & -> & HL).
    exists L1. split; [done|]. intros k d. by rewrite HL, HN.
  - intros w. unfold listNotes.
    destruct (listRoute_absent foldCase regexOther "note"
                [note_title; note_content] user w) as (L0 & H0 & HL0).
    destruct (listRoute_q foldCase regexOther "note"
                [note_title; note_content] user qs re None None
                w L0 Hq Hre) as (L1 & -> & HL); [by rewrite H0|].
    exists L1. split; [done|]. intros k d. rewrite HL, HL0, HN.
    cbn [doc_user Note_Document]. tauto.
  - intros tags favorite w L0 H0. unfold listBookmarks in *.
    destruct (listRoute_q _ _ _ _ _ _ _ _ _ _ _ Hq Hre H0) as (L1 & -> & HL).
    exists L1. split; [done|]. intros k d. by rewrite HL, HB.
  - intros w. unfold listBookmarks.
    destruct (listRoute_absent foldCase regexOther "bookmark"
                [bm_title; bm_description; bm_url] user w) as (L0 & H0 & HL0).
    destruct (listRoute_q foldCase regexOther "bookmark"
                [bm_title; bm_description; bm_url] user qs re None None
                w L0 Hq Hre) as (L1 & -> & HL); [by rewrite H0|].
    exists L1. split; [done|]. intros k d. rewrite HL, HL0, HB.
    cbn [doc_user Bookmark_Document]. tauto.
  - intros Hlit s.
    destruct (regexCompile_literal foldCase regexOther qs Hlit)
      as (re' & Hre' & Hspec).
    rewrite Hre in Hre'. injection Hre' as <-. apply Hspec.
Qed.

Lemma text_search_matches_witness :
  let st : gmap N Note := {[100 := sample_note]} in
  let re := fun s => search_ci asciiFold (lit "meeting") s || false in
  regexCompile asciiFold noOtherRegex (lit "meeting") = Ok re
  /\ (exists L,
        (listNotes asciiFold noOtherRegex 7 (Some (QStr (lit "meeting")))
                   None None (fresh st)).1 = respond 200 (BList L)
        /\ (100, sample_note) ∈ L)
  /\ occurs_ci asciiFold (lit "meeting") (note_title sample_note).
Proof.
  intros st re.
  assert (lit "meeting" <> []) as Hq by discriminate.
  assert (regexCompile asciiFold noOtherRegex (lit "meeting") = Ok re) as Hre
    by reflexivity.
  destruct (text_search_matches asciiFold noOtherRegex 7 (lit "meeting") re
              Hq Hre) as (_ & Hall & _ & _ & Hlit).
  destruct (Hall (fresh st)) as (L & HL & Hin).
  split; [exact Hre|]. split.
  - exists L. split; [exact HL|]. apply Hin.
    split_and!; vm_compute; reflexivity.
  - apply Hlit; vm_compute; reflexivity.
Defined.

(** C6 as stated fails on a term with a metacharacter: "notes|zzz"
    selects the note titled "Meeting notes", in which the term does not
    occur as a substring. *)
Lemma alternation_is_not_a_substring :
  let q := lit "notes|zzz" in
  let st : gmap N Note := {[100 := sample_note]} in
  (listNotes asciiFold noOtherRegex 7 (Some (QStr q)) None None (fresh st)).1
  = respond 200 (BList [(100, sample_note)])
  /\ ~ occurs_ci asciiFold q (note_title sample_note)
  /\ ~ occurs_ci asciiFold q (note_content sample_note).
Proof.
  intros q st. split_and!.
  - vm_compute. reflexivity.
  - intros H%search_ci_spec. vm_compute in H. discriminate.
  - intros H%search_ci_spec. vm_compute in H. discriminate.
Qed.

(** ** Parameters that ask nothing *)

Lemma isString_true_spec v :
  isString_true v = true <-> v = Some (QStr (lit "true")).
Proof.
  unfold isString_true. destruct v as [[s|]|]; try done.
  rewrite bool_decide_eq_true. split; [by intros ->|by intros [= ->]].
Qed.

Lemma blank_snoc cur c :
  blank cur = true -> isWhiteSpace c = true -> blank (cur ++ [c]) = true.
Proof. unfold blank. intros Hc Hw. rewrite forallb_app, Hc. simpl. by rewrite Hw. Qed.

Lemma split_on_comma_blank cur s :
  blank cur = true -> commasAndSpace s = true ->
  Forall (fun p => blank p = true) (split_on 44 cur s).
Proof.
  revert cur. induction s as [|c s IH]; intros cur Hcur.
  - intros _. by constructor.
  - simpl. intros [Hc Hs]%andb_prop. destruct (N.eqb_spec c 44) as [->|Hne].
    + constructor; [done|]. by apply IH.
    + apply IH; [|done]. by apply blank_snoc.
Qed.

(** A [tags] of commas and whitespace holds no tag. *)
Lemma tagFilter_commasAndSpace s : commasAndSpace s = true -> tagFilter s = [].
Proof.
  intros Hs. unfold tagFilter.
  pose proof (split_on_comma_blank [] s eq_refl Hs) as Hp.
  induction Hp as [|p ps Hp _ IH]; [done|].
  cbn. by rewrite (trim_blank p Hp).
Qed.

(** C10.  In a list request, a [q] that is the empty string, a [tags]
    that leaves no tag after splitting on commas, trimming and dropping
    the empty pieces (such as ",, ,", or any text of commas and
    whitespace), and a [favorite] that is anything but the string "true"
    each ask nothing: the outcome is that of the same request without
    the parameter, and with all three such it is the list of every
    record the caller owns. *)
Theorem empty_parameters_ask_nothing
    (foldCase : N -> N) (regexOther : jsstring -> option (jsstring -> bool))
    (user : N) (q tags favorite : option QValue) :
  (forall w : World Note,
     listNotes foldCase regexOther user (Some (QStr [])) tags favorite w
     = listNotes foldCase regexOther user None tags favorite w
     /\ (forall s, tagFilter s = [] ->
           listNotes foldCase regexOther user q (Some (QStr s)) favorite w
           = listNotes foldCase regexOther user q None favorite w)
     /\ (favorite <> Some (QStr (lit "true")) ->
           listNotes foldCase regexOther user q tags favorite w
           = listNotes foldCase regexOther user q tags None w)
     /\ (forall s, tagFilter s = [] ->
         favorite <> Some (QStr (lit "true")) ->
         exists L,
           listNotes foldCase regexOther user (Some (QStr []))
                     (Some (QStr s)) favorite w
           = (respond 200 (BList L), finding w)
           /\ forall k d,
                (k, d) ∈ L <-> store w !! k = Some d /\ note_user d = user))
  /\ (forall w : World Bookmark,
     listBookmarks foldCase regexOther user (Some (QStr [])) tags favorite w
     = listBookmarks foldCase regexOther user None tags favorite w
     /\ (forall s, tagFilter s = [] ->
           listBookmarks foldCase regexOther user q (Some (QStr s)) favorite w
           = listBookmarks foldCase regexOther user q None favorite w)
     /\ (favorite <> Some (QStr (lit "true")) ->
           listBookmarks foldCase regexOther user q tags favorite w
           = listBookmarks foldCase regexOther user q tags None w)
     /\ (forall s, tagFilter s = [] ->
         favorite <> Some (QStr (lit "true")) ->
         exists L,
           listBookmarks foldCase regexOther user (Some (QStr []))
                         (Some (QStr s)) favorite w
           = (respond 200 (BList L), finding w)
           /\ forall k d,
                (k, d) ∈ L <-> store w !! k = Some d /\ bm_user d = user))
  /\ tagFilter (lit ",, ,") = []
  /\ (forall s, commasAndSpace s = true -> tagFilter s = []).
Proof.
  assert (forall f, f <> Some (QStr (lit "true")) -> isString_true f = false)
    as Hfav.
  { intros f Hf. destruct (isString_true f) eqn:E; [|done].
    by apply isString_true_spec in E. }
  split_and!.
  - intros w. split_and!.
    + unfold listNotes. by rewrite !listRoute_run, buildQuery_empty_q.
    + intros s Hs. unfold listNotes.
      by rewrite !listRoute_run, (buildQuery_no_tags _ _ _ _ _ Hs).
    + intros Hf%Hfav. unfold listNotes.
      by rewrite !listRoute_run, (buildQuery_not_favorite _ _ _ _ _ Hf).
    + intros s Hs Hf%Hfav. unfold listNotes.
      destruct (listRoute_absent foldCase regexOther "note"
                  [note_title; note_content] user w) as (L & HL & Hin).
      exists L. split; [|exact Hin]. rewrite <- HL.
      rewrite !listRoute_run, buildQuery_empty_q.
      by rewrite (buildQuery_no_tags _ _ _ _ _ Hs),
                 (buildQuery_not_favorite _ _ _ _ _ Hf).
  - intros w. split_and!.
    + unfold listBookmarks. by rewrite !listRoute_run, buildQuery_empty_q.
    + intros s Hs. unfold listBookmarks.
      by rewrite !listRoute_run, (buildQuery_no_tags _ _ _ _ _ Hs).
    + intros Hf%Hfav. unfold listBookmarks.
      by rewrite !listRoute_run, (buildQuery_not_favorite _ _ _ _ _ Hf).
    + intros s Hs Hf%Hfav. unfold listBookmarks.
      destruct (listRoute_absent foldCase regexOther "bookmark"
                  [bm_title; bm_description; bm_url] user w) as (L & HL & Hin).
      exists L. split; [|exact Hin]. rewrite <- HL.
      rewrite !listRoute_run, buildQuery_empty_q.
      by rewrite (buildQuery_no_tags _ _ _ _ _ Hs),
                 (buildQuery_not_favorite _ _ _ _ _ Hf).
  - vm_compute. reflexivity.
  - apply tagFilter_commasAndSpace.
Qed.

Lemma empty_parameters_ask_nothing_witness :
  let st : gmap N Note := {[100 := sample_note]} in
  listNotes asciiFold noOtherRegex 7 (Some (QStr [])) (Some (QStr (lit ",, ,")))
            (Some (QStr (lit "false"))) (fresh st)
  = listNotes asciiFold noOtherRegex 7 None None None (fresh st)
  /\ exists L,
       listNotes asciiFold noOtherRegex 7 (Some (QStr []))
                 (Some (QStr (lit ",, ,"))) (Some (QStr (lit "false")))
                 (fresh st)
       = (respond 200 (BList L), finding (fresh st))
       /\ (100, sample_note) ∈ L.
Proof.
  intros st.
  assert (tagFilter (lit ",, ,") = []) as Hs by (vm_compute; reflexivity).
  assert (Some (QStr (lit "false")) <> Some (QStr (lit "true"))) as Hf
    by discriminate.
  destruct (empty_parameters_ask_nothing asciiFold noOtherRegex 7 None
              (Some (QStr (lit ",, ,"))) (Some (QStr (lit "false"))))
    as (HN & _).
  destruct (HN (fresh st)) as (Hq & Ht & Hfv & Hall).
  destruct (empty_parameters_ask_nothing asciiFold noOtherRegex 7 None
              None (Some (QStr (lit "false"))))
    as (HN' & _).
  destruct (HN' (fresh st)) as (_ & _ & Hfv' & _).
  split.
  - rewrite Hq, (Ht _ Hs). exact (Hfv' Hf).
  - destruct (Hall _ Hs Hf) as (L & HL & Hin). exists L. split; [exact HL|].
    apply Hin. split; vm_compute; reflexivity.
Defined.

(** ** Order of a listing, content of a tokenisation *)

(** The pieces of a tokenisation hold the non-separator characters of
    the text, in order, and nothing else. *)
Lemma tokens_from_concat sep cur s :
  concat (tokens_from sep cur s)
  = cur ++ List.filter (fun c => negb (sep c)) s.
Proof.
  revert cur. induction s as [|c s IH]; intros cur.
  - simpl. rewrite app_nil_r. destruct cur; [done|]. simpl.
    by rewrite app_nil_r.
  - simpl. destruct (sep c); simpl.
    + destruct cur; simpl; by rewrite IH.
    + by rewrite IH, <- app_assoc.
Qed.

(** A listing is ordered by creation time, newest first. *)
Lemma selected_sorted {D} `{Document D} (query : Query D) re (st : gmap N D) :
  Sorted newerFirst (selected query re st).
Proof.
  unfold selected. apply Sorted_merge_sort.
  intros a b. unfold newerFirst. lia.
Qed.

(** * Further properties of the code *)

(** ** Authentication *)

Lemma removeFirst_prefix pat t : removeFirst pat (pat ++ t) = t.
Proof.
  destruct (pat ++ t) as [|c s] eqn:E.
  - by destruct pat, t.
  - cbn [removeFirst]. rewrite <- E.
    by rewrite (proj2 (stripPrefix_Some pat (pat ++ t) t) eq_refl).
Qed.

Lemma removeFirst_absent pat s : ~ occursIn pat s -> removeFirst pat s = s.
Proof.
  induction s as [|c s IH]; intros Hno; [done|].
  cbn [removeFirst].
  destruct (stripPrefix pat (c :: s)) as [rest|] eqn:E.
  - apply stripPrefix_Some in E. destruct Hno. exists [], rest. by rewrite E.
  - f_equal. apply IH. intros (a & b & ->). apply Hno.
    by exists (c :: a), b.
Qed.

Section auth_facts.
Variable Payload : Type.
Variable jwtVerify : jsstring -> Js Payload.
Variable findUserById : Payload -> Js (option N).
Context {D : Type}.

(** X1.  The middleware lets a request through exactly when the header
    is there, a token is left once the first "Bearer " is removed, the
    token verifies and its user is found; it then sets that user.  In
    every other case -- no header, no token, a token that does not
    verify, a user id that cannot be looked up, no such user -- it
    answers 401, and the guarded route does not run: the world is left
    as it was. *)
Theorem auth_lets_through (authorization : option jsstring) :
  (forall u,
     auth Payload jwtVerify findUserById (D:=D) authorization = Next u
     <-> exists h decoded,
           authorization = Some h
           /\ removeFirst (lit "Bearer ") h <> []
           /\ jwtVerify (removeFirst (lit "Bearer ") h) = Ok decoded
           /\ findUserById decoded = Ok (Some u))
  /\ (forall r,
        auth Payload jwtVerify findUserById (D:=D) authorization = Denied r ->
        status r = 401%nat
        /\ forall route w,
             guarded Payload jwtVerify findUserById route authorization w
             = (r, w))
  /\ (forall u (route : N -> World D -> Response D * World D) w,
        auth Payload jwtVerify findUserById (D:=D) authorization = Next u ->
        guarded Payload jwtVerify findUserById route authorization w
        = route u w).
Proof.
  split_and!.
  - intros u. unfold auth, auth_try.
    destruct authorization as [h|]; cbn [fmap option_fmap option_map truthyStr].
    2:{ cbn. split; [done|]. by intros (h & d & ? & _). }
    destruct (removeFirst (lit "Bearer ") h) as [|c t] eqn:Ht.
    { cbn. split; [done|]. by intros (h' & d & [= <-] & Hne & _). }
    cbn [nonEmpty negb default from_option id].
    change (default [] (Some (c :: t))) with (c :: t).
    destruct (jwtVerify (c :: t)) as [decoded|e] eqn:Hv; cbn [mbind Js_bind].
    2:{ split; [done|]. intros (h' & d & [= <-] & _ & Hv' & _).
        rewrite Ht in Hv'. congruence. }
    destruct (findUserById decoded) as [[u'|]|e] eqn:Hu.
    + split.
      * intros [= <-]. exists h, decoded. by rewrite Ht.
      * intros (h' & d & [= <-] & _ & Hv' & Hu'). rewrite Ht, Hv in Hv'.
        injection Hv' as <-. rewrite Hu in Hu'. by injection Hu' as <-.
    + split; [done|]. intros (h' & d & [= <-] & _ & Hv' & Hu').
      rewrite Ht, Hv in Hv'. injection Hv' as <-. congruence.
    + split; [done|]. intros (h' & d & [= <-] & _ & Hv' & Hu').
      rewrite Ht, Hv in Hv'. injection Hv' as <-. congruence.
  - intros r Hr. split.
    + revert Hr. unfold auth, auth_try.
      destruct (negb _); [by intros [= <-]|].
      destruct (jwtVerify _) as [decoded|e]; [|by intros [= <-]].
      cbn [mbind Js_bind].
      destruct (findUserById decoded) as [[u'|]|e]; [done| |];
        by intros [= <-].
    + intros route w. unfold guarded. by rewrite Hr.
  - intros u route w Hu. unfold guarded. by rewrite Hu.
Qed.

(** X2.  The "Bearer " scheme is optional: the token that follows a
    leading "Bearer " is the one verified, and a header that holds the
    bare token (with no "Bearer " in it) is treated exactly like the
    header with the scheme in front. *)
Theorem bearer_scheme_optional (t : jsstring) :
  ~ occursIn (lit "Bearer ") t ->
  auth Payload jwtVerify findUserById (D:=D) (Some t)
  = auth Payload jwtVerify findUserById (Some (lit "Bearer " ++ t))
  /\ (forall u,
        auth Payload jwtVerify findUserById (D:=D) (Some t) = Next u
        <-> t <> [] /\ exists decoded,
              jwtVerify t = Ok decoded /\ findUserById decoded = Ok (Some u)).
Proof.
  intros Hno.
  assert (removeFirst (lit "Bearer ") t = t) as Ht
    by (by apply removeFirst_absent).
  assert (auth Payload jwtVerify findUserById (D:=D) (Some t)
          = auth Payload jwtVerify findUserById (Some (lit "Bearer " ++ t)))
    as Heq.
  { unfold auth, auth_try. cbn [fmap option_fmap option_map].
    by rewrite removeFirst_prefix, Ht. }
  split; [exact Heq|]. intros u.
  unfold auth, auth_try. cbn [fmap option_fmap option_map]. rewrite Ht.
  cbn [truthyStr]. destruct t as [|c t']; cbn [nonEmpty negb].
  { split; [done|]. by intros [? _]. }
  change (default [] (Some (c :: t'))) with (c :: t').
  destruct (jwtVerify (c :: t')) as [decoded|e]; cbn [mbind Js_bind].
  2:{ split; [done|]. by intros (_ & d & ? & _). }
  destruct (findUserById decoded) as [[u'|]|e] eqn:Hu.
  - split.
    + intros [= <-]. split; [done|]. by exists decoded.
    + intros (_ & d & [= <-] & Hu'). rewrite Hu in Hu'. by injection Hu' as <-.
  - split; [done|]. intros (_ & d & [= <-] & Hu'). congruence.
  - split; [done|]. intros (_ & d & [= <-] & Hu'). congruence.
Qed.
End auth_facts.

Lemma auth_lets_through_witness :
  auth N demoVerify demoFindUser (D:=Note) (Some (lit "Bearer tok")) = Next 7
  /\ status (guarded N demoVerify demoFindUser
               (fun u => getNote hexObjectId u sample_id)
               (Some (lit "Bearer nope")) (fresh ∅)).1 = 401%nat
  /\ (guarded N demoVerify demoFindUser
        (fun u => getNote hexObjectId u sample_id)
        (Some (lit "Bearer nope")) (fresh ∅)).2 = fresh ∅.
Proof.
  destruct (auth_lets_through N demoVerify demoFindUser (D:=Note)
              (Some (lit "Bearer tok"))) as (Hnext & _ & _).
  destruct (auth_lets_through N demoVerify demoFindUser (D:=Note)
              (Some (lit "Bearer nope"))) as (_ & Hden & _).
  assert (auth N demoVerify demoFindUser (D:=Note) (Some (lit "Bearer nope"))
          = Denied (respond 401
                      (BError [Text (lit "Invalid token. Please authenticate.")])))
    as Hd by (vm_compute; reflexivity).
  destruct (Hden _ Hd) as [H401 Hg].
  split_and!.
  - apply Hnext. exists (lit "Bearer tok"), 7.
    split_and!; [reflexivity|vm_compute; discriminate|vm_compute; reflexivity
                |vm_compute; reflexivity].
  - rewrite Hg. exact H401.
  - by rewrite Hg.
Defined.

Lemma bearer_scheme_optional_witness :
  auth N demoVerify demoFindUser (D:=Note) (Some (lit "tok"))
  = auth N demoVerify demoFindUser (Some (lit "Bearer tok"))
  /\ auth N demoVerify demoFindUser (D:=Note) (Some (lit "tok")) = Next 7.
Proof.
  assert (~ occursIn (lit "Bearer ") (lit "tok")) as Hno.
  { intros (a & b & E). apply (f_equal length) in E.
    rewrite !length_app in E.
    change (length (lit "tok")) with 3%nat in E.
    change (length (lit "Bearer ")) with 7%nat in E. lia. }
  destruct (bearer_scheme_optional N demoVerify demoFindUser (D:=Note)
              (lit "tok") Hno) as [Heq Hiff].
  split; [exact Heq|]. apply Hiff. split; [discriminate|].
  exists 7. split; vm_compute; reflexivity.
Defined.

(** ** What a route does to the store and what it shows *)

Section effects.
Variable castObjectId : jsstring -> option N.
Context {D U : Type} `{Document D}.
Variable what What : string.
Implicit Types (w : World D) (user k : N) (id : jsstring).

Lemma getRoute_effect user id w :
  store (getRoute castObjectId what What user id w).2 = store w
  /\ forall k d,
       (k, d) ∈ shown (getRoute castObjectId what What user id w).1 ->
       castObjectId id = Some k /\ owned user k (store w) = Some d.
Proof.
  rewrite getRoute_run. split; [done|]. intros k d. cbn [fst].
  destruct (castObjectId id) as [k'|]; [|by intros ?%elem_of_nil].
  destruct (owned user k' (store w)) as [d'|] eqn:Ho;
    [|by intros ?%elem_of_nil].
  by intros [= -> ->]%list_elem_of_singleton.
Qed.

Lemma deleteRoute_effect user id w :
  shown (deleteRoute castObjectId what What user id w).1 = []
  /\ (store (deleteRoute castObjectId what What user id w).2 = store w
      \/ exists k d,
           castObjectId id = Some k /\ owned user k (store w) = Some d
           /\ status (deleteRoute castObjectId what What user id w).1 = 200%nat
           /\ store (deleteRoute castObjectId what What user id w).2
              = delete k (store w)).
Proof.
  rewrite deleteRoute_run.
  destruct (castObjectId id) as [k|]; [|by split; [|left]].
  destruct (owned user k (store w)) as [d|] eqn:Ho; [|by split; [|left]].
  split; [done|]. right. by exists k, d.
Qed.

Variable prepared : Js (Response D + U).
Variable cast : U -> Js (D -> D).
Variable validate : U -> list Message.

Lemma updateCatch_shown e : shown (updateCatch (D:=D) what e) = [].
Proof. by destruct e. Qed.

Hypothesis early_error :
  forall r, prepared = Ok (inl r) -> status r = 400%nat /\ shown r = [].

(** An update either changes the record found, or changes nothing and
    shows nothing. *)
Lemma updateRoute_effect user id now w :
  (exists u f k d,
     prepared = Ok (inr u) /\ cast u = Ok f /\ validate u = []
     /\ castObjectId id = Some k /\ owned user k (store w) = Some d
     /\ updateRoute castObjectId what What prepared cast validate user id now w
        = (respond 200 (BDoc k (doc_touch now (f d))),
           {| store := <[k := doc_touch now (f d)]> (store w);
              calls := calls w ++ [CallFindOneAndUpdate id] |}))
  \/ (shown (updateRoute castObjectId what What prepared cast validate
                         user id now w).1 = []
      /\ store (updateRoute castObjectId what What prepared cast validate
                            user id now w).2 = store w).
Proof using early_error.
  rewrite updateRoute_run.
  destruct prepared as [[early|u]|e] eqn:Hp.
  - right. cbn [fst snd]. by destruct (early_error early eq_refl) as [_ ->].
  - destruct (castObjectId id) as [k|]; [|by right].
    destruct (cast u) as [f|e] eqn:Hc.
    + destruct (validate u) eqn:Hv; [|by right].
      destruct (owned user k (store w)) as [d|] eqn:Ho; [|by right].
      left. by exists u, f, k, d.
    + right. cbn [fst snd]. by rewrite updateCatch_shown.
  - right. cbn [fst snd]. by rewrite updateCatch_shown.
Qed.
End effects.

Section list_effect.
Variable foldCase : N -> N.
Variable regexOther : jsstring -> option (jsstring -> bool).
Context {D : Type} `{Document D}.
Variable what : string.
Variable fields : list (D -> jsstring).

Lemma selected_owned (query : Query D) re (st : gmap N D) k d :
  (k, d) ∈ selected query re st ->
  st !! k = Some d /\ doc_user d = q_user query.
Proof.
  intros [Hd Hm]%elem_of_selected. split; [done|].
  unfold matches in Hm. rewrite !andb_true_iff in Hm.
  destruct Hm as [[[Hu _] _] _]. by apply N.eqb_eq.
Qed.

Lemma buildQuery_user user q tags favorite (query : Query D) :
  buildQuery fields user q tags favorite = Ok query -> q_user query = user.
Proof.
  unfold buildQuery.
  destruct (truthyQ q), q as [qv|], (truthyQ tags), tags as [[s|]|];
    cbn [mbind Js_bind]; try done;
    try (destruct (bool_decide _));
    destruct (isString_true favorite); by intros [= <-].
Qed.

Lemma listRoute_effect user q tags favorite (w : World D) :
  store (listRoute foldCase regexOther what fields user q tags favorite w).2
  = store w
  /\ forall k d,
       (k, d) ∈ shown (listRoute foldCase regexOther what fields
                                 user q tags favorite w).1 ->
       store w !! k = Some d /\ doc_user d = user.
Proof.
  rewrite listRoute_run.
  destruct (buildQuery fields user q tags favorite) as [query|e] eqn:Hb;
    [|split; [done|]; by intros k d ?%elem_of_nil].
  destruct (queryPattern foldCase regexOther query) as [re|e];
    [|split; [done|]; by intros k d ?%elem_of_nil].
  split; [done|]. intros k d Hin%selected_owned.
  by rewrite (buildQuery_user _ _ _ _ _ Hb) in Hin.
Qed.
End list_effect.

Lemma noteUpdateData_early_error req r :
  noteUpdateData req = Ok (inl r) -> status r = 400%nat /\ shown r = [].
Proof.
  unfold noteUpdateData.
  destruct (checkPresent (nb_title req)); [by intros [= <-]|].
  destruct (checkPresent (nb_content req)); [by intros [= <-]|].
  by destruct (updateTags (nb_tags req)).
Qed.

Lemma bookmarkUpdateData_early_error req r :
  bookmarkUpdateData req = Ok (inl r) -> status r = 400%nat /\ shown r = [].
Proof.
  unfold bookmarkUpdateData.
  destruct (checkPresent (bb_url req)) as [|url]; [by intros [= <-]|].
  destruct (negb _); [by intros [= <-]|].
  destruct (updateText (bb_title req)); [|done].
  destruct (updateText (bb_description req)); [|done].
  by destruct (updateTags (bb_tags req)).
Qed.

Lemma castNoteUpdate_user u f d :
  castNoteUpdate u = Ok f -> note_user (f d) = note_user d.
Proof.
  unfold castNoteUpdate. destruct (castFavorite (nu_isFavorite u)); [|done].
  by intros [= <-].
Qed.

Lemma castBookmarkUpdate_user u f d :
  castBookmarkUpdate u = Ok f -> bm_user (f d) = bm_user d.
Proof.
  unfold castBookmarkUpdate. destruct (castFavorite (bu_isFavorite u)); [|done].
  by intros [= <-].
Qed.

Lemma createCatch_shown {D} what e : shown (createCatch (D:=D) what e) = [].
Proof. by destruct e. Qed.

(** A create either stores the new document under a free id, or
    changes nothing and shows nothing. *)
Lemma createNote_effect user req newId now (w : World Note) :
  (exists title content tagsArray,
     requiredString (nb_title req) = Some title
     /\ requiredString (nb_content req) = Some content
     /\ processTags (nb_tags req) = Ok tagsArray
     /\ (newNote user (trim title) (trim content) tagsArray
                 (orFalse (nb_isFavorite req)) now).1 = []
     /\ store w !! newId = None
     /\ createNote user req newId now w
        = (respond 201
             (BDoc newId (newNote user (trim title) (trim content) tagsArray
                                  (orFalse (nb_isFavorite req)) now).2),
           {| store := <[newId := (newNote user (trim title) (trim content)
                                     tagsArray (orFalse (nb_isFavorite req))
                                     now).2]> (store w);
              calls := calls w ++ [CallSave] |}))
  \/ (shown (createNote user req newId now w).1 = []
      /\ store (createNote user req newId now w).2 = store w).
Proof.
  rewrite createNote_run.
  destruct (requiredString (nb_title req)) as [title|]; [|by right].
  destruct (requiredString (nb_content req)) as [content|]; [|by right].
  destruct (processTags (nb_tags req)) as [ts|e];
    [|right; cbn [fst snd]; by rewrite createCatch_shown].
  cbn zeta.
  destruct (newNote user (trim title) (trim content) ts
              (orFalse (nb_isFavorite req)) now).1 eqn:E; [|by right].
  destruct (store w !! newId) eqn:Hfree; [by right|].
  left. by exists title, content, ts.
Qed.

Lemma createBookmark_effect remote user req newId now (w : World Bookmark) :
  (exists url title description tagsArray,
     requiredString (bb_url req) = Some url
     /\ urlPattern_test (trim url) = true
     /\ processTags (bb_tags req) = Ok tagsArray
     /\ (givenTitle (bb_title req) = Ok (Some title)
         \/ givenTitle (bb_title req) = Ok None
            /\ title = (if negb (truthyStr (fetchMetadata remote url)) then url
                        else default url (fetchMetadata remote url)))
     /\ trimOrEmpty (bb_description req) = Ok description
     /\ (newBookmark user (trim url) (trim title) description tagsArray
                     (orFalse (bb_isFavorite req)) now).1 = []
     /\ store w !! newId = None
     /\ (createBookmark remote user req newId now w).1
        = respond 201
            (BDoc newId (newBookmark user (trim url) (trim title) description
                           tagsArray (orFalse (bb_isFavorite req)) now).2)
     /\ store (createBookmark remote user req newId now w).2
        = <[newId := (newBookmark user (trim url) (trim title) description
                        tagsArray (orFalse (bb_isFavorite req)) now).2]>
            (store w))
  \/ (shown (createBookmark remote user req newId now w).1 = []
      /\ store (createBookmark remote user req newId now w).2 = store w).
Proof.
  rewrite createBookmark_run.
  destruct (requiredString (bb_url req)) as [url|]; [|by right].
  destruct (urlPattern_test (trim url)) eqn:Hpat; [|by right]. cbn [negb].
  destruct (processTags (bb_tags req)) as [ts|e];
    [|right; cbn [fst snd]; by rewrite createCatch_shown].
  destruct (givenTitle (bb_title req)) as [given|e] eqn:Hg;
    [|right; cbn [fst snd]; by rewrite createCatch_shown].
  cbn zeta.
  destruct (trimOrEmpty (bb_description req)) as [description|e];
    [|right; cbn [fst snd]; rewrite createCatch_shown; by destruct given].
  match goal with
  | |- context [newBookmark user (trim url) (trim ?t) description ts
                  (orFalse (bb_isFavorite req)) now] => set (title := t)
  end.
  destruct (newBookmark user (trim url) (trim title) description ts
              (orFalse (bb_isFavorite req)) now).1 eqn:E;
    [|right; by destruct given].
  destruct (store w !! newId) eqn:Hfree; [right; by destruct given|].
  left. exists url, title, description, ts.
  split_and!; try done.
  - subst title. destruct given; [by left|by right].
Qed.

Lemma notesRouter_keeps
    (castObjectId : jsstring -> option N) (foldCase : N -> N)
    (regexOther : jsstring -> option (jsstring -> bool)) (user : N)
    (r : NoteRequest) (w : World Note) :
  let out := notesRouter castObjectId foldCase regexOther user r w in
  (forall k d, store w !! k = Some d -> note_user d <> user ->
               store out.2 !! k = Some d)
  /\ (forall k d, (k, d) ∈ shown out.1 ->
                  store out.2 !! k = Some d /\ note_user d = user).
Proof.
  intros out. subst out. destruct r as [req newId now|q tags favorite|id|id req now|id];
    cbn [notesRouter].
  - destruct (createNote_effect user req newId now w)
      as [(t & c & ts & _ & _ & _ & _ & Hfree & ->)|[-> ->]].
    + cbn [fst snd store shown body]. split.
      * intros k d Hd _. rewrite lookup_insert_ne; [done|congruence].
      * intros k d [= -> ->]%list_elem_of_singleton.
         by rewrite lookup_insert_eq.
    + split; [done|]. by intros k d ?%elem_of_nil.
  - unfold listNotes.
    destruct (listRoute_effect foldCase regexOther "note"
                [note_title; note_content] user q tags favorite w)
      as [-> Hs].
    split; [done|]. exact Hs.
  - unfold getNote.
    destruct (getRoute_effect castObjectId "note" "Note" user id w)
      as [-> Hs].
    split; [done|]. intros k d [_ Ho%owned_Some]%Hs. exact Ho.
  - unfold updateNote.
    destruct (updateRoute_effect castObjectId "note" "Note"
                (noteUpdateData req) castNoteUpdate noteUpdateErrors
                (noteUpdateData_early_error req) user id now w)
      as [(u & f & k' & d' & _ & Hc & _ & _ & Ho & ->)|[-> ->]].
    + apply owned_Some in Ho as [Hd' Hu']. cbn [fst snd store shown body].
      split.
      * intros k d Hd Hne. rewrite lookup_insert_ne; [done|].
         intros ->. cbn in Hu'. congruence.
      * intros k d [= -> ->]%list_elem_of_singleton.
         rewrite lookup_insert_eq. split; [done|].
         cbn. by rewrite (castNoteUpdate_user _ _ _ Hc).
    + split; [done|]. by intros k d ?%elem_of_nil.
  - unfold deleteNote.
    destruct (deleteRoute_effect castObjectId "note" "Note" user id w)
      as [-> [-> |(k' & d' & _ & Ho & _ & ->)]].
    + split; [done|]. by intros k d ?%elem_of_nil.
    + apply owned_Some in Ho as [Hd' Hu']. split.
      * intros k d Hd Hne. rewrite lookup_delete_ne; [done|].
         intros ->. cbn in Hu'. congruence.
      * by intros k d ?%elem_of_nil.
Qed.

Lemma bookmarksRouter_keeps
    (castObjectId : jsstring -> option N) (foldCase : N -> N)
    (regexOther : jsstring -> option (jsstring -> bool)) (remote : Remote)
    (user : N) (r : BookmarkRequest) (w : World Bookmark) :
  let out := bookmarksRouter castObjectId foldCase regexOther remote
                             user r w in
  (forall k d, store w !! k = Some d -> bm_user d <> user ->
               store out.2 !! k = Some d)
  /\ (forall k d, (k, d) ∈ shown out.1 ->
                  store out.2 !! k = Some d /\ bm_user d = user).
Proof.
  intros out. subst out. destruct r as [req newId now|q tags favorite|id|id req now|id];
    cbn [bookmarksRouter].
  - destruct (createBookmark_effect remote user req newId now w)
      as [(url & t & ds & ts & _ & _ & _ & _ & _ & _ & Hfree & -> & ->)
         |[-> ->]].
    + cbn [fst snd store shown body]. split.
      * intros k d Hd _. rewrite lookup_insert_ne; [done|congruence].
      * intros k d [= -> ->]%list_elem_of_singleton.
         by rewrite lookup_insert_eq.
    + split; [done|]. by intros k d ?%elem_of_nil.
  - unfold listBookmarks.
    destruct (listRoute_effect foldCase regexOther "bookmark"
                [bm_title; bm_description; bm_url] user q tags favorite w)
      as [-> Hs].
    split; [done|]. exact Hs.
  - unfold getBookmark.
    destruct (getRoute_effect castObjectId "bookmark" "Bookmark" user id w)
      as [-> Hs].
    split; [done|]. intros k d [_ Ho%owned_Some]%Hs. exact Ho.
  - unfold updateBookmark.
    destruct (updateRoute_effect castObjectId "bookmark" "Bookmark"
                (bookmarkUpdateData req) castBookmarkUpdate
                bookmarkUpdateErrors
                (bookmarkUpdateData_early_error req) user id now w)
      as [(u & f & k' & d' & _ & Hc & _ & _ & Ho & ->)|[-> ->]].
    + apply owned_Some in Ho as [Hd' Hu']. cbn [fst snd store shown body].
      split.
      * intros k d Hd Hne. rewrite lookup_insert_ne; [done|].
         intros ->. cbn in Hu'. congruence.
      * intros k d [= -> ->]%list_elem_of_singleton.
         rewrite lookup_insert_eq. split; [done|].
         cbn. by rewrite (castBookmarkUpdate_user _ _ _ Hc).
    + split; [done|]. by intros k d ?%elem_of_nil.
  - unfold deleteBookmark.
    destruct (deleteRoute_effect castObjectId "bookmark" "Bookmark" user id w)
      as [-> [-> |(k' & d' & _ & Ho & _ & ->)]].
    + split; [done|]. by intros k d ?%elem_of_nil.
    + apply owned_Some in Ho as [Hd' Hu']. split.
      * intros k d Hd Hne. rewrite lookup_delete_ne; [done|].
         intros ->. cbn in Hu'. congruence.
      * by intros k d ?%elem_of_nil.
Qed.

(** X3.  No request changes, removes or shows a record of another
    user: whatever a note or bookmark route is asked by [user], every
    record owned by someone else is in the store afterwards as it was
    before, and every record shown in the response is owned by [user]
    and is in the store afterwards exactly as shown. *)
Theorem routes_keep_to_own_records
    (castObjectId : jsstring -> option N) (foldCase : N -> N)
    (regexOther : jsstring -> option (jsstring -> bool)) (remote : Remote)
    (user : N) :
  (forall (r : NoteRequest) (w : World Note),
     let out := notesRouter castObjectId foldCase regexOther user r w in
     (forall k d, store w !! k = Some d -> note_user d <> user ->
                  store out.2 !! k = Some d)
     /\ (forall k d, (k, d) ∈ shown out.1 ->
                     store out.2 !! k = Some d /\ note_user d = user))
  /\ (forall (r : BookmarkRequest) (w : World Bookmark),
     let out := bookmarksRouter castObjectId foldCase regexOther remote
                                user r w in
     (forall k d, store w !! k = Some d -> bm_user d <> user ->
                  store out.2 !! k = Some d)
     /\ (forall k d, (k, d) ∈ shown out.1 ->
                     store out.2 !! k = Some d /\ bm_user d = user)).
Proof.
  split.
  - intros r w. apply notesRouter_keeps.
  - intros r w. apply bookmarksRouter_keeps.
Qed.

(** ** The form of the stored records *)

Lemma maxlength_nil n m s : maxlength n m s = [] -> (length s <= n)%nat.
Proof. unfold maxlength. case_bool_decide; [done|]. intros _. lia. Qed.

Lemma required_nil m s : required m s = [] -> nonEmpty s = true.
Proof. unfold required. by destruct (nonEmpty s). Qed.

Lemma processTags_tagsOK tags ts : processTags tags = Ok ts -> tagsOK ts.
Proof.
  rewrite processTags_entries.
  destruct (tagEntries tags) as [entries|e] eqn:He; [|done].
  cbn [mbind Js_bind]. intros [= <-]. split; [apply NoDup_Set_from|].
  pose proof (tagEntries_normal _ _ He) as Hn. rewrite Forall_forall in Hn.
  apply Forall_forall. intros t Ht. apply Hn. by apply elem_of_Set_from.
Qed.

Lemma tagsOK_trim ts : tagsOK ts -> trim <$> ts = ts.
Proof.
  intros [_ Hts]. rewrite Forall_forall in Hts.
  transitivity (id <$> ts); [|apply list_fmap_id].
  apply list_fmap_ext. intros i t Ht%list_elem_of_lookup_2.
  by destruct (Hts t Ht).
Qed.

Lemma newNote_OK user title content ts fav now :
  (newNote user title content ts fav now).1 = [] -> tagsOK ts ->
  noteOK (newNote user title content ts fav now).2.
Proof.
  unfold newNote. cbn [fst snd]. intros He Hts.
  apply app_nil in He as [_ He]. apply app_nil in He as [Hr He].
  apply app_nil in He as [Hm Hc].
  unfold noteOK. cbn [note_title note_content note_tags].
  rewrite (tagsOK_trim _ Hts), !trim_idemp.
  split_and!; [by eapply required_nil|done|by eapply maxlength_nil
              |by eapply required_nil|done|done].
Qed.

Lemma updateTags_tagsOK tags ts : updateTags tags = Ok (Some ts) -> tagsOK ts.
Proof.
  intros [[_ [=]]|(v & ts' & _ & [= <-] & Hts)]%updateTags_inv.
  by eapply processTags_tagsOK.
Qed.

Lemma noteUpdate_OK req u f now d :
  noteUpdateData req = Ok (inr u) -> castNoteUpdate u = Ok f ->
  noteUpdateErrors u = [] -> noteOK d -> noteOK (doc_touch now (f d)).
Proof.
  intros Hp Hc He (Ht1 & Ht2 & Ht3 & Hc1 & Hc2 & Htg).
  assert (forall ts, nu_tags u = Some ts -> tagsOK ts) as Htags.
  { intros ts Hts. unfold noteUpdateData in Hp.
    destruct (checkPresent (nb_title req)); [done|].
    destruct (checkPresent (nb_content req)); [done|].
    destruct (updateTags (nb_tags req)) as [o|] eqn:Hu; [|done].
    injection Hp as <-. cbn in Hts. subst o. by eapply updateTags_tagsOK. }
  unfold castNoteUpdate in Hc.
  destruct (castFavorite (nu_isFavorite u)) as [fav|]; [|done].
  injection Hc as <-.
  unfold noteUpdateErrors in He. apply app_nil in He as [Het Hec].
  unfold noteOK. cbn [doc_touch Note_Document note_title note_content
                      note_tags].
  destruct (nu_title u) as [t|], (nu_content u) as [c|],
    (nu_tags u) as [ts|];
    cbn [fmap option_fmap option_map from_option]; unfold id;
    try (apply app_nil in Het as [Hr Hm]);
    rewrite ?trim_idemp;
    try (rewrite (tagsOK_trim ts) by (by apply Htags));
    split_and!;
    first [ done | by eapply required_nil | by eapply maxlength_nil
          | by apply Htags ].
Qed.

Lemma urlErrors_nil url : urlErrors url = [] -> matchesHttp url.
Proof.
  unfold urlErrors. intros [_ Hp]%app_nil.
  apply urlPattern_test_spec. by destruct (urlPattern_test url).
Qed.

Lemma newBookmark_OK user url title description ts fav now :
  (newBookmark user url title description ts fav now).1 = [] ->
  trim description = description -> tagsOK ts ->
  bookmarkOK (newBookmark user url title description ts fav now).2.
Proof.
  unfold newBookmark. cbn [fst snd]. intros He Hd Hts.
  apply app_nil in He as [_ He]. apply app_nil in He as [Hu He].
  apply app_nil in He as [Hm Hmd].
  unfold bookmarkOK. cbn [bm_url bm_title bm_description bm_tags].
  rewrite (tagsOK_trim _ Hts), !trim_idemp.
  split_and!; [by apply urlErrors_nil|done|done|by eapply maxlength_nil
              |by rewrite Hd|by eapply maxlength_nil|done].
Qed.

Lemma updateText_trimmed v s : updateText v = Ok (Some s) -> trim s = s.
Proof.
  intros [[_ [=]]|(x & s' & _ & [= <-] & Hs)]%updateText_inv.
  by eapply trimOrEmpty_trimmed.
Qed.

Lemma bookmarkUpdate_OK req u f now d :
  bookmarkUpdateData req = Ok (inr u) -> castBookmarkUpdate u = Ok f ->
  bookmarkUpdateErrors u = [] -> bookmarkOK d ->
  bookmarkOK (doc_touch now (f d)).
Proof.
  intros Hp Hc He (Hu1 & Hu2 & Ht1 & Ht2 & Hd1 & Hd2 & Htg).
  assert (forall ts, bu_tags u = Some ts -> tagsOK ts) as Htags.
  { intros ts Hts. unfold bookmarkUpdateData in Hp.
    destruct (checkPresent (bb_url req)); [done|].
    destruct (negb _); [done|].
    destruct (updateText (bb_title req)); [|done].
    destruct (updateText (bb_description req)); [|done].
    destruct (updateTags (bb_tags req)) as [o|] eqn:Hu; [|done].
    injection Hp as <-. cbn in Hts. subst o. by eapply updateTags_tagsOK. }
  unfold castBookmarkUpdate in Hc.
  destruct (castFavorite (bu_isFavorite u)) as [fav|]; [|done].
  injection Hc as <-.
  unfold bookmarkUpdateErrors in He. apply app_nil in He as [Heu He].
  apply app_nil in He as [Het Hed].
  unfold bookmarkOK. cbn [doc_touch Bookmark_Document bm_url bm_title
                          bm_description bm_tags].
  destruct (bu_url u) as [v|], (bu_title u) as [t|],
    (bu_description u) as [ds|], (bu_tags u) as [ts|];
    cbn [fmap option_fmap option_map from_option]; unfold id;
    rewrite ?trim_idemp;
    try (rewrite (tagsOK_trim ts) by (by apply Htags));
    split_and!;
    first [ done | by apply urlErrors_nil | by eapply maxlength_nil
          | by apply Htags ].
Qed.

(** X4.  The note routes keep every stored note in form: a title that
    is non-empty, trimmed and at most 200 characters long, a content
    that is non-empty and trimmed, and tags that are non-empty, trimmed
    and distinct.  No request by any user breaks this, so it holds of
    every store that a session of requests reaches from the empty
    store. *)
Theorem notes_stay_well_formed
    (castObjectId : jsstring -> option N) (foldCase : N -> N)
    (regexOther : jsstring -> option (jsstring -> bool)) :
  (forall user (r : NoteRequest) (w : World Note),
     map_Forall (fun _ => noteOK) (store w) ->
     map_Forall (fun _ => noteOK)
       (store (notesRouter castObjectId foldCase regexOther user r w).2))
  /\ (forall rs : list (N * NoteRequest),
        map_Forall (fun _ => noteOK)
          (serveNotes castObjectId foldCase regexOther rs ∅)).
Proof.
  assert (forall user (r : NoteRequest) (w : World Note),
     map_Forall (fun _ => noteOK) (store w) ->
     map_Forall (fun _ => noteOK)
       (store (notesRouter castObjectId foldCase regexOther user r w).2))
    as Hstep.
  { intros user r w Hinv.
    destruct r as [req newId now|q tags favorite|id|id req now|id];
      cbn [notesRouter].
    - destruct (createNote_effect user req newId now w)
        as [(t & c & ts & _ & _ & Hts & He & _ & ->)|[_ ->]]; [|done].
      cbn [snd store]. apply map_Forall_insert_2; [|done].
      apply newNote_OK; [done|]. by eapply processTags_tagsOK.
    - unfold listNotes.
      by destruct (listRoute_effect foldCase regexOther "note"
                     [note_title; note_content] user q tags favorite w)
        as [-> _].
    - unfold getNote.
      by destruct (getRoute_effect castObjectId "note" "Note" user id w)
        as [-> _].
    - unfold updateNote.
      destruct (updateRoute_effect castObjectId "note" "Note"
                  (noteUpdateData req) castNoteUpdate noteUpdateErrors
                  (noteUpdateData_early_error req) user id now w)
        as [(u & f & k & d & Hp & Hc & Hv & _ & Ho & ->)|[_ ->]]; [|done].
      apply owned_Some in Ho as [Hd _]. cbn [snd store].
      apply map_Forall_insert_2; [|done].
      eapply noteUpdate_OK; [done..|]. by eapply (map_Forall_lookup_1 _ _ _ _ Hinv).
    - unfold deleteNote.
      destruct (deleteRoute_effect castObjectId "note" "Note" user id w)
        as [_ [-> |(k & d & _ & _ & _ & ->)]]; [done|].
      by apply map_Forall_delete. }
  split; [exact Hstep|].
  intros rs. unfold serveNotes.
  assert (forall st : gmap N Note,
            map_Forall (fun _ => noteOK) st ->
            map_Forall (fun _ => noteOK)
              (foldl (fun st ur =>
                        store (notesRouter castObjectId foldCase regexOther
                                 ur.1 ur.2 (fresh st)).2) st rs)) as Hall.
  { induction rs as [|[user r] rs IH]; intros st Hst; [done|].
    cbn [foldl]. apply IH. by apply (Hstep user r (fresh st)). }
  apply Hall, map_Forall_empty.
Qed.

(** X5.  The bookmark routes keep every stored bookmark in form: a URL
    that is trimmed and matches the http(s) pattern, a trimmed title of
    at most 200 characters, a trimmed description of at most 500, and
    tags that are non-empty, trimmed and distinct; this holds of every
    store that a session of requests reaches from the empty store,
    whatever the remote pages are. *)
Theorem bookmarks_stay_well_formed
    (castObjectId : jsstring -> option N) (foldCase : N -> N)
    (regexOther : jsstring -> option (jsstring -> bool)) (remote : Remote) :
  (forall user (r : BookmarkRequest) (w : World Bookmark),
     map_Forall (fun _ => bookmarkOK) (store w) ->
     map_Forall (fun _ => bookmarkOK)
       (store (bookmarksRouter castObjectId foldCase regexOther remote
                               user r w).2))
  /\ (forall rs : list (N * BookmarkRequest),
        map_Forall (fun _ => bookmarkOK)
          (serveBookmarks castObjectId foldCase regexOther remote rs ∅)).
Proof.
  assert (forall user (r : BookmarkRequest) (w : World Bookmark),
     map_Forall (fun _ => bookmarkOK) (store w) ->
     map_Forall (fun _ => bookmarkOK)
       (store (bookmarksRouter castObjectId foldCase regexOther remote
                               user r w).2))
    as Hstep.
  { intros user r w Hinv.
    destruct r as [req newId now|q tags favorite|id|id req now|id];
      cbn [bookmarksRouter].
    - destruct (createBookmark_effect remote user req newId now w)
        as [(url & t & ds & ts & _ & _ & Hts & _ & Hds & He & _ & _ & ->)
           |[_ ->]]; [|done].
      apply map_Forall_insert_2; [|done].
      apply newBookmark_OK; [done| |by eapply processTags_tagsOK].
      by eapply trimOrEmpty_trimmed.
    - unfold listBookmarks.
      by destruct (listRoute_effect foldCase regexOther "bookmark"
                     [bm_title; bm_description; bm_url] user q tags favorite w)
        as [-> _].
    - unfold getBookmark.
      by destruct (getRoute_effect castObjectId "bookmark" "Bookmark"
                     user id w) as [-> _].
    - unfold updateBookmark.
      destruct (updateRoute_effect castObjectId "bookmark" "Bookmark"
                  (bookmarkUpdateData req) castBookmarkUpdate
                  bookmarkUpdateErrors
                  (bookmarkUpdateData_early_error req) user id now w)
        as [(u & f & k & d & Hp & Hc & Hv & _ & Ho & ->)|[_ ->]]; [|done].
      apply owned_Some in Ho as [Hd _]. cbn [snd store].
      apply map_Forall_insert_2; [|done].
      eapply bookmarkUpdate_OK; [done..|].
      by eapply (map_Forall_lookup_1 _ _ _ _ Hinv).
    - unfold deleteBookmark.
      destruct (deleteRoute_effect castObjectId "bookmark" "Bookmark"
                  user id w)
        as [_ [-> |(k & d & _ & _ & _ & ->)]]; [done|].
      by apply map_Forall_delete. }
  split; [exact Hstep|].
  intros rs. unfold serveBookmarks.
  assert (forall st : gmap N Bookmark,
            map_Forall (fun _ => bookmarkOK) st ->
            map_Forall (fun _ => bookmarkOK)
              (foldl (fun st ur =>
                        store (bookmarksRouter castObjectId foldCase
                                 regexOther remote ur.1 ur.2 (fresh st)).2)
                     st rs)) as Hall.
  { induction rs as [|[user r] rs IH]; intros st Hst; [done|].
    cbn [foldl]. apply IH. by apply (Hstep user r (fresh st)). }
  apply Hall, map_Forall_empty.
Qed.

(** ** Examples of the store properties *)

Lemma sample_note_OK : noteOK sample_note.
Proof.
  unfold noteOK, tagsOK. split_and!; try (vm_compute; reflexivity).
  - vm_compute. lia.
  - apply NoDup_singleton.
  - apply Forall_singleton. split; vm_compute; reflexivity.
Qed.

Lemma sample_bookmark_OK : bookmarkOK sample_bookmark.
Proof.
  unfold bookmarkOK, tagsOK. split_and!; try (vm_compute; reflexivity).
  - exists 101, (lit "xample.org"). split; [reflexivity|]. by right.
  - vm_compute. lia.
  - vm_compute. lia.
  - apply NoDup_singleton.
  - apply Forall_singleton. split; vm_compute; reflexivity.
Qed.

Lemma routes_keep_to_own_records_witness :
  let w : World Note := fresh {[100 := sample_note]} in
  store w !! 100 = Some sample_note
  /\ note_user sample_note <> 8
  /\ store (notesRouter hexObjectId asciiFold noOtherRegex 8
              (DeleteNote sample_id) w).2 !! 100 = Some sample_note.
Proof.
  intros w.
  assert (store w !! 100 = Some sample_note) as Hd by (vm_compute; reflexivity).
  assert (note_user sample_note <> 8) as Hu by (vm_compute; discriminate).
  destruct (routes_keep_to_own_records hexObjectId asciiFold noOtherRegex
              unreachable 8) as [HN _].
  destruct (HN (DeleteNote sample_id) w) as [Hkeep _].
  exact (conj Hd (conj Hu (Hkeep 100 sample_note Hd Hu))).
Defined.

Lemma notes_stay_well_formed_witness :
  let w : World Note := fresh {[100 := sample_note]} in
  map_Forall (fun _ => noteOK) (store w)
  /\ map_Forall (fun _ => noteOK)
       (store (notesRouter hexObjectId asciiFold noOtherRegex 7
                 (PutNote sample_id retag_body 9%Z) w).2).
Proof.
  intros w.
  assert (map_Forall (fun _ => noteOK) (store w)) as Hw.
  { apply map_Forall_singleton. exact sample_note_OK. }
  destruct (notes_stay_well_formed hexObjectId asciiFold noOtherRegex)
    as [Hstep _].
  exact (conj Hw (Hstep 7 (PutNote sample_id retag_body 9%Z) w Hw)).
Defined.

Lemma bookmarks_stay_well_formed_witness :
  let w : World Bookmark := fresh {[100 := sample_bookmark]} in
  map_Forall (fun _ => bookmarkOK) (store w)
  /\ map_Forall (fun _ => bookmarkOK)
       (store (bookmarksRouter hexObjectId asciiFold noOtherRegex unreachable 7
                 (PutBookmark sample_id titled_bookmark_body 9%Z) w).2).
Proof.
  intros w.
  assert (map_Forall (fun _ => bookmarkOK) (store w)) as Hw.
  { apply map_Forall_singleton. exact sample_bookmark_OK. }
  destruct (bookmarks_stay_well_formed hexObjectId asciiFold noOtherRegex
              unreachable) as [Hstep _].
  exact (conj Hw (Hstep 7 (PutBookmark sample_id titled_bookmark_body 9%Z)
                        w Hw)).
Defined.

(** ** Reading back, deleting and listing *)

(** X6.  What a response shows can be read back: after any request of
    [user], each record that the response showed is what [GET /:id]
    returns to [user] for its id, with the status 200, and what the
    same request of any other user is refused with the status 404. *)
Theorem shown_records_can_be_read_back
    (castObjectId : jsstring -> option N) (foldCase : N -> N)
    (regexOther : jsstring -> option (jsstring -> bool)) (remote : Remote)
    (user : N) :
  (forall (r : NoteRequest) (w : World Note) k d id,
     (k, d) ∈ shown (notesRouter castObjectId foldCase regexOther
                                 user r w).1 ->
     castObjectId id = Some k ->
     let w' := (notesRouter castObjectId foldCase regexOther user r w).2 in
     (getNote castObjectId user id w').1 = respond 200 (BDoc k d)
     /\ forall stranger, stranger <> user ->
          (getNote castObjectId stranger id w').1
          = respond 404 (BError [Text (lit "Note not found")]))
  /\ (forall (r : BookmarkRequest) (w : World Bookmark) k d id,
     (k, d) ∈ shown (bookmarksRouter castObjectId foldCase regexOther remote
                                     user r w).1 ->
     castObjectId id = Some k ->
     let w' := (bookmarksRouter castObjectId foldCase regexOther remote
                                user r w).2 in
     (getBookmark castObjectId user id w').1 = respond 200 (BDoc k d)
     /\ forall stranger, stranger <> user ->
          (getBookmark castObjectId stranger id w').1
          = respond 404 (BError [Text (lit "Bookmark not found")])).
Proof.
  split.
  - intros r w k d id Hin Hid w'.
    destruct (notesRouter_keeps castObjectId foldCase regexOther user r w)
      as [_ Hshown].
    destruct (Hshown k d Hin) as [Hd Hu]. fold w' in Hd.
    unfold getNote. split.
    + rewrite getRoute_run, Hid. cbn [fst].
      assert (owned user k (store w') = Some d) as ->; [|done].
      by apply owned_Some.
    + intros stranger Hne. rewrite getRoute_run, Hid. cbn [fst].
      assert (owned stranger k (store w') = None) as ->; [|done].
      apply owned_None. right. exists d. split; [done|].
      cbn. congruence.
  - intros r w k d id Hin Hid w'.
    destruct (bookmarksRouter_keeps castObjectId foldCase regexOther remote
                                    user r w) as [_ Hshown].
    destruct (Hshown k d Hin) as [Hd Hu]. fold w' in Hd.
    unfold getBookmark. split.
    + rewrite getRoute_run, Hid. cbn [fst].
      assert (owned user k (store w') = Some d) as ->; [|done].
      by apply owned_Some.
    + intros stranger Hne. rewrite getRoute_run, Hid. cbn [fst].
      assert (owned stranger k (store w') = None) as ->; [|done].
      apply owned_None. right. exists d. split; [done|].
      cbn. congruence.
Qed.

Lemma shown_records_can_be_read_back_witness :
  let w : World Note := fresh {[100 := sample_note]} in
  let w' := (notesRouter hexObjectId asciiFold noOtherRegex 7
               (ListNotes None None None) w).2 in
  (100, sample_note) ∈ shown (notesRouter hexObjectId asciiFold noOtherRegex 7
                                (ListNotes None None None) w).1
  /\ hexObjectId sample_id = Some 100
  /\ (getNote hexObjectId 7 sample_id w').1
     = respond 200 (BDoc 100 sample_note)
  /\ (getNote hexObjectId 8 sample_id w').1
     = respond 404 (BError [Text (lit "Note not found")]).
Proof.
  intros w w'.
  assert ((100, sample_note)
          ∈ shown (notesRouter hexObjectId asciiFold noOtherRegex 7
                     (ListNotes None None None) w).1) as Hin.
  { vm_compute. apply list_elem_of_here. }
  assert (hexObjectId sample_id = Some 100) as Hid by (vm_compute; reflexivity).
  destruct (shown_records_can_be_read_back hexObjectId asciiFold noOtherRegex
              unreachable 7) as [HN _].
  destruct (HN (ListNotes None None None) w 100 sample_note sample_id Hin Hid)
    as [Hme Hother].
  refine (conj Hin (conj Hid (conj Hme (Hother 8 _)))).
  discriminate.
Defined.

Section gone.
Variable castObjectId : jsstring -> option N.
Context {D : Type} `{Document D} {U : Type}.
Variable what What : string.
Variable prepared : Js (Response D + U).
Variable cast : U -> Js (D -> D).
Variable validate : U -> list Message.
Hypothesis early_400 :
  forall r, prepared = Ok (inl r) -> status r = 400%nat.

(** Once a record is gone, every route by id fails for its id. *)
Lemma deleted_is_gone user id k d (w : World D) :
  castObjectId id = Some k -> store w !! k = Some d -> doc_user d = user ->
  let out := deleteRoute castObjectId what What user id w in
  out.1 = respond 200 (BMessage (lit (String.concat EmptyString
                                        [What; " deleted successfully"])))
  /\ store out.2 = delete k (store w)
  /\ forall anyone id', castObjectId id' = Some k ->
       status (getRoute castObjectId what What anyone id' out.2).1 = 404%nat
       /\ status (deleteRoute castObjectId what What anyone id' out.2).1
          = 404%nat
       /\ forall now,
            status (updateRoute castObjectId what What prepared cast validate
                                anyone id' now out.2).1 <> 200%nat.
Proof using early_400.
  intros Hid Hd Hu out. subst out. rewrite deleteRoute_run, Hid.
  rewrite (proj2 (owned_Some user k (store w) d) (conj Hd Hu)).
  cbn [fst snd store]. split; [done|]. split; [done|].
  intros anyone id' Hid'.
  set (w' := {| store := delete k (store w);
                calls := calls w ++ [CallFindOneAndDelete id] |}).
  assert (forall a, owned a k (store w') = None) as Hgone.
  { intros a. apply owned_None. left. cbn. apply lookup_delete_eq. }
  split_and!.
  - by rewrite getRoute_run, Hid', Hgone.
  - by rewrite deleteRoute_run, Hid', Hgone.
  - intros now H200.
    apply (updateRoute_200 castObjectId what What prepared cast validate
                           early_400) in H200
      as (u & f & k' & d' & _ & _ & _ & Hk' & Hd' & _).
    rewrite Hid' in Hk'. injection Hk' as <-.
    cbn in Hd'. by rewrite lookup_delete_eq in Hd'.
Qed.
End gone.

(** X7.  A deleted record is gone for everyone: when [user] deletes a
    record of their own, the answer is 200 with the message of success,
    the store loses that record and nothing else, and from then on
    [GET], [DELETE] and [PUT] of its id answer 404 to [GET] and
    [DELETE], and never 200 to [PUT], whoever asks. *)
Theorem deleted_records_are_gone
    (castObjectId : jsstring -> option N) (user : N) (id : jsstring) (k : N) :
  castObjectId id = Some k ->
  (forall (w : World Note) d,
     store w !! k = Some d -> note_user d = user ->
     let out := deleteNote castObjectId user id w in
     out.1 = respond 200 (BMessage (lit "Note deleted successfully"))
     /\ store out.2 = delete k (store w)
     /\ forall anyone id', castObjectId id' = Some k ->
          status (getNote castObjectId anyone id' out.2).1 = 404%nat
          /\ status (deleteNote castObjectId anyone id' out.2).1 = 404%nat
          /\ forall req now,
               status (updateNote castObjectId anyone id' req now out.2).1
               <> 200%nat)
  /\ (forall (w : World Bookmark) d,
     store w !! k = Some d -> bm_user d = user ->
     let out := deleteBookmark castObjectId user id w in
     out.1 = respond 200 (BMessage (lit "Bookmark deleted successfully"))
     /\ store out.2 = delete k (store w)
     /\ forall anyone id', castObjectId id' = Some k ->
          status (getBookmark castObjectId anyone id' out.2).1 = 404%nat
          /\ status (deleteBookmark castObjectId anyone id' out.2).1 = 404%nat
          /\ forall req now,
               status (updateBookmark castObjectId anyone id' req now out.2).1
               <> 200%nat).
Proof.
  intros Hid. split.
  - intros w d Hd Hu out. subst out.
    unfold deleteNote, getNote, updateNote.
    pose proof (fun req =>
      deleted_is_gone castObjectId "note" "Note" (noteUpdateData req)
        castNoteUpdate noteUpdateErrors
        (fun r E => proj1 (noteUpdateData_early_error req r E))
        user id k d w Hid Hd Hu) as G.
    cbn zeta in G.
    destruct (G blank_title_body) as (H200 & Hst & Hl).
    split; [exact H200|]. split; [exact Hst|].
    intros anyone id' Hid'.
    destruct (Hl anyone id' Hid') as (Hget & Hdel & _).
    split; [exact Hget|]. split; [exact Hdel|].
    intros req now. destruct (G req) as (_ & _ & Hl').
    destruct (Hl' anyone id' Hid') as (_ & _ & Hput). apply Hput.
  - intros w d Hd Hu out. subst out.
    unfold deleteBookmark, getBookmark, updateBookmark.
    pose proof (fun req =>
      deleted_is_gone castObjectId "bookmark" "Bookmark" (bookmarkUpdateData req)
        castBookmarkUpdate bookmarkUpdateErrors
        (fun r E => proj1 (bookmarkUpdateData_early_error req r E))
        user id k d w Hid Hd Hu) as G.
    cbn zeta in G.
    destruct (G favorite_bookmark_body) as (H200 & Hst & Hl).
    split; [exact H200|]. split; [exact Hst|].
    intros anyone id' Hid'.
    destruct (Hl anyone id' Hid') as (Hget & Hdel & _).
    split; [exact Hget|]. split; [exact Hdel|].
    intros req now. destruct (G req) as (_ & _ & Hl').
    destruct (Hl' anyone id' Hid') as (_ & _ & Hput). apply Hput.
Qed.

Lemma deleted_records_are_gone_witness :
  let w : World Note := fresh {[100 := sample_note]} in
  let out := deleteNote hexObjectId 7 sample_id w in
  hexObjectId sample_id = Some 100
  /\ store w !! 100 = Some sample_note
  /\ note_user sample_note = 7
  /\ out.1 = respond 200 (BMessage (lit "Note deleted successfully"))
  /\ store out.2 = delete 100 (store w)
  /\ status (getNote hexObjectId 7 sample_id out.2).1 = 404%nat.
Proof.
  intros w out.
  assert (hexObjectId sample_id = Some 100) as Hid by (vm_compute; reflexivity).
  assert (store w !! 100 = Some sample_note) as Hd by (vm_compute; reflexivity).
  assert (note_user sample_note = 7) as Hu by reflexivity.
  destruct (deleted_records_are_gone hexObjectId 7 sample_id 100 Hid)
    as [HN _].
  destruct (HN w sample_note Hd Hu) as (H200 & Hst & Hlater).
  destruct (Hlater 7 sample_id Hid) as [Hget _].
  exact (conj Hid (conj Hd (conj Hu (conj H200 (conj Hst Hget))))).
Defined.

Section list_order.
Variable foldCase : N -> N.
Variable regexOther : jsstring -> option (jsstring -> bool).
Context {D : Type} `{Document D}.
Variable what : string.
Variable fields : list (D -> jsstring).

Lemma selected_NoDup (query : Query D) re (st : gmap N D) :
  NoDup (selected query re st).*1.
Proof.
  apply NoDup_fmap_fst.
  - intros k d1 d2 [H1 _]%elem_of_selected [H2 _]%elem_of_selected.
    congruence.
  - unfold selected. rewrite merge_sort_Permutation.
    apply NoDup_ListNoDup, List.NoDup_filter, NoDup_ListNoDup.
    apply NoDup_map_to_list.
Qed.

Lemma selected_strongly_sorted (query : Query D) re (st : gmap N D) :
  StronglySorted newerFirst (selected query re st).
Proof.
  apply Sorted_StronglySorted; [|apply selected_sorted].
  intros a b c. unfold newerFirst. lia.
Qed.

Lemma listRoute_ordered user q tags favorite (w : World D) :
  let out := listRoute foldCase regexOther what fields user q tags favorite w in
  store out.2 = store w
  /\ StronglySorted newerFirst (shown out.1)
  /\ NoDup (shown out.1).*1.
Proof.
  intros out. subst out. rewrite listRoute_run.
  destruct (buildQuery fields user q tags favorite) as [query|e].
  - destruct (queryPattern foldCase regexOther query) as [re|e].
    + cbn [fst snd shown body]. split_and!; [done| |].
      * apply selected_strongly_sorted.
      * apply selected_NoDup.
    + cbn. split_and!; [done|constructor|constructor].
  - cbn. split_and!; [done|constructor|constructor].
Qed.
End list_order.

(** X8.  A listing is in order and changes nothing: [GET /] leaves the
    store as it was, and the records it shows are ordered by creation
    time, every record created no earlier than all that follow it, and
    no record is shown twice. *)
Theorem listings_are_ordered (foldCase : N -> N)
    (regexOther : jsstring -> option (jsstring -> bool))
    (user : N) (q tags favorite : option QValue) :
  (forall w : World Note,
     let out := listNotes foldCase regexOther user q tags favorite w in
     store out.2 = store w
     /\ StronglySorted
          (fun a b => (note_createdAt b.2 <= note_createdAt a.2)%Z)
          (shown out.1)
     /\ NoDup (shown out.1).*1)
  /\ (forall w : World Bookmark,
     let out := listBookmarks foldCase regexOther user q tags favorite w in
     store out.2 = store w
     /\ StronglySorted
          (fun a b => (bm_createdAt b.2 <= bm_createdAt a.2)%Z)
          (shown out.1)
     /\ NoDup (shown out.1).*1).
Proof.
  split; intros w.
  - exact (listRoute_ordered foldCase regexOther "note"
             [note_title; note_content] user q tags favorite w).
  - exact (listRoute_ordered foldCase regexOther "bookmark"
             [bm_title; bm_description; bm_url] user q tags favorite w).
Qed.

(** ** The tag and favourite filters of a listing *)

Section list_filters.
Variable foldCase : N -> N.
Variable regexOther : jsstring -> option (jsstring -> bool).
Context {D : Type} `{Document D}.
Variable what : string.
Variable fields : list (D -> jsstring).

Lemma buildQuery_tags_favorite user (tags : option jsstring) favorite :
  buildQuery fields user None (QStr <$> tags) favorite
  = Ok (Build_Query user None
          (match tags with
           | Some s => match tagFilter s with [] => None | ts => Some ts end
           | None => None
           end)
          (if isString_true favorite then Some true else None)).
Proof.
  unfold buildQuery. destruct tags as [s|]; cbn [fmap option_fmap option_map
    truthyQ q_user q_or q_tags_in q_isFavorite].
  - destruct s as [|c s].
    + cbn. by destruct (isString_true favorite).
    + cbn [nonEmpty]. destruct (tagFilter (c :: s)) as [|t ts];
        cbn; by destruct (isString_true favorite).
  - cbn. by destruct (isString_true favorite).
Qed.

Lemma listRoute_tags_favorite user (tags : option jsstring) favorite
    (w : World D) :
  exists L,
    listRoute foldCase regexOther what fields user None (QStr <$> tags)
              favorite w
    = (respond 200 (BList L), finding w)
    /\ forall k d,
         (k, d) ∈ L
         <-> store w !! k = Some d /\ doc_user d = user
             /\ (forall s, tags = Some s -> tagFilter s <> [] ->
                   exists t, t ∈ tagFilter s /\ t ∈ doc_tags d)
             /\ (isString_true favorite = true -> doc_isFavorite d = Some true).
Proof.
  rewrite listRoute_run, buildQuery_tags_favorite.
  cbn [queryPattern q_or]. eexists. split; [done|]. intros k d.
  rewrite elem_of_selected. unfold matches.
  cbn [q_user q_or q_tags_in q_isFavorite].
  rewrite andb_true_r, !andb_true_iff, N.eqb_eq.
  assert (forall ts : list jsstring,
            existsb (fun t => bool_decide (t ∈ doc_tags d)) ts = true
            <-> exists t, t ∈ ts /\ t ∈ doc_tags d) as Hex.
  { intros ts. rewrite existsb_exists. split.
    - intros (t & Ht%list_elem_of_In & Hd%bool_decide_eq_true). eauto.
    - intros (t & Ht%list_elem_of_In & Hd). exists t.
      by rewrite bool_decide_eq_true. }
  assert ((match (match tags with
                  | Some s =>
                      match tagFilter s with [] => None | ts => Some ts end
                  | None => None
                  end) with
           | Some ts => existsb (fun t => bool_decide (t ∈ doc_tags d)) ts
           | None => true
           end = true)
          <-> (forall s, tags = Some s -> tagFilter s <> [] ->
                 exists t, t ∈ tagFilter s /\ t ∈ doc_tags d)) as Htags.
  { destruct tags as [s|]; [|split; [by intros _ s [=]|done]].
    destruct (tagFilter s) as [|t ts] eqn:Ets.
    - split; [by intros _ s' [= <-] ?|done].
    - rewrite Hex. split.
      + intros Hx s' [= <-] _. by rewrite Ets.
      + intros Hx. specialize (Hx s eq_refl). rewrite Ets in Hx.
        by apply Hx. }
  assert ((match (if isString_true favorite then Some true else None) with
           | Some b => bool_decide (doc_isFavorite d = Some b)
           | None => true
           end = true)
          <-> (isString_true favorite = true -> doc_isFavorite d = Some true))
    as Hfav.
  { destruct (isString_true favorite).
    - rewrite bool_decide_eq_true. split; [done|]. intros Hx. by apply Hx.
    - split; done. }
  rewrite Htags, Hfav. tauto.
Qed.

(** A [tags] that is not a string has no [split]. *)
Lemma listRoute_tags_not_string user q favorite (w : World D) :
  listRoute foldCase regexOther what fields user q (Some QOther) favorite w
  = (respond 500 (BError (msg ["Server error while fetching "; what; "s"])),
     w).
Proof.
  rewrite listRoute_run. unfold buildQuery. cbn [truthyQ].
  by destruct (truthyQ q); [destruct q|].
Qed.
End list_filters.

(** X9.  The tag and favourite filters of [GET /]: with no [q], a
    listing holds exactly the caller's records that carry at least one
    of the tags named in [tags] (split on commas, trimmed, empty pieces
    dropped; compared exactly), when any is named, and that are marked
    favourite, when [favorite] is the string "true".  A [tags] that is
    not a string fails the request with the status 500 before the store
    is asked. *)
Theorem tag_and_favorite_filters (foldCase : N -> N)
    (regexOther : jsstring -> option (jsstring -> bool)) (user : N)
    (tags : option jsstring) (q favorite : option QValue) :
  (forall w : World Note,
     (exists L,
        listNotes foldCase regexOther user None (QStr <$> tags) favorite w
        = (respond 200 (BList L), finding w)
        /\ forall k d,
             (k, d) ∈ L
             <-> store w !! k = Some d /\ note_user d = user
                 /\ (forall s, tags = Some s -> tagFilter s <> [] ->
                       exists t, t ∈ tagFilter s /\ t ∈ note_tags d)
                 /\ (isString_true favorite = true ->
                     note_isFavorite d = Some true))
     /\ listNotes foldCase regexOther user q (Some QOther) favorite w
        = (respond 500 (BError [Text (lit "Server error while fetching notes")]),
           w))
  /\ (forall w : World Bookmark,
     (exists L,
        listBookmarks foldCase regexOther user None (QStr <$> tags) favorite w
        = (respond 200 (BList L), finding w)
        /\ forall k d,
             (k, d) ∈ L
             <-> store w !! k = Some d /\ bm_user d = user
                 /\ (forall s, tags = Some s -> tagFilter s <> [] ->
                       exists t, t ∈ tagFilter s /\ t ∈ bm_tags d)
                 /\ (isString_true favorite = true ->
                     bm_isFavorite d = Some true))
     /\ listBookmarks foldCase regexOther user q (Some QOther) favorite w
        = (respond 500
             (BError [Text (lit "Server error while fetching bookmarks")]),
           w)).
Proof.
  split; intros w; split.
  - exact (listRoute_tags_favorite foldCase regexOther "note"
             [note_title; note_content] user tags favorite w).
  - exact (listRoute_tags_not_string foldCase regexOther "note"
             [note_title; note_content] user q favorite w).
  - exact (listRoute_tags_favorite foldCase regexOther "bookmark"
             [bm_title; bm_description; bm_url] user tags favorite w).
  - exact (listRoute_tags_not_string foldCase regexOther "bookmark"
             [bm_title; bm_description; bm_url] user q favorite w).
Qed.

(** ** The title of a bookmark, and what the fetcher returns *)

Lemma replace_ws_runs_length b s :
  (length (replace_ws_runs b s) <= length s)%nat.
Proof.
  revert b. induction s as [|c s IH]; intros b; [done|].
  cbn [replace_ws_runs]. destruct (isWhiteSpace c); [destruct b|]; cbn [length].
  - specialize (IH true). lia.
  - specialize (IH true). lia.
  - specialize (IH false). lia.
Qed.

Lemma trim_length s : (length (trim s) <= length s)%nat.
Proof.
  destruct (trim_span s) as (a & b & Hs & _).
  rewrite Hs at 2. rewrite !length_app. lia.
Qed.

Lemma trim_same_length s : length (trim s) = length s -> trim s = s.
Proof.
  intros Hl. destruct (trim_span s) as (a & b & Hs & _).
  assert (length a = 0%nat /\ length b = 0%nat) as [Ha Hb].
  { apply (f_equal length) in Hs. rewrite !length_app in Hs. lia. }
  destruct a; [|done]. destruct b; [|done].
  rewrite Hs at 2. by rewrite app_nil_r.
Qed.

Lemma tokens_from_word sep cur (w rest : jsstring) :
  Forall (fun c => sep c = false) w ->
  tokens_from sep cur (w ++ rest) = tokens_from sep (cur ++ w) rest.
Proof.
  intros Hw. revert cur. induction Hw as [|c w Hc _ IH]; intros cur.
  - by rewrite app_nil_r.
  - cbn [app tokens_from]. rewrite Hc, IH. by rewrite <- app_assoc.
Qed.

(** Words joined by single spaces are split again into the same
    words. *)
Lemma tokens_joinSpace (ws : list jsstring) :
  Forall (fun w => nonEmpty w = true
                   /\ Forall (fun c => isWhiteSpace c = false) w) ws ->
  tokens isWhiteSpace (joinSpace ws) = ws.
Proof.
  unfold tokens. induction 1 as [|w ws [Hne Hw] Hws IH]; [done|].
  destruct ws as [|w' ws'].
  - cbn [joinSpace].
    pose proof (tokens_from_word isWhiteSpace [] w [] Hw) as E.
    rewrite app_nil_r in E. rewrite E. cbn. by rewrite Hne.
  - rewrite joinSpace_cons by done. rewrite tokens_from_word by done.
    cbn [app tokens_from]. change (isWhiteSpace 32) with true.
    cbn iota. rewrite Hne. by rewrite IH.
Qed.

Lemma tokens_words s :
  Forall (fun w => nonEmpty w = true
                   /\ Forall (fun c => isWhiteSpace c = false) w)
         (tokens isWhiteSpace s).
Proof.
  apply Forall_forall. intros w Hw.
  by apply (tokens_from_pieces isWhiteSpace [] s w).
Qed.

Lemma cleanTitle_idemp s : cleanTitle (cleanTitle s) = cleanTitle s.
Proof.
  rewrite (cleanTitle_words (cleanTitle s)), (cleanTitle_words s).
  by rewrite tokens_joinSpace by apply tokens_words.
Qed.

Lemma cleanTitle_trimmed s : trim (cleanTitle s) = cleanTitle s.
Proof.
  apply trim_same_length.
  pose proof (trim_length (cleanTitle s)) as H1.
  pose proof (replace_ws_runs_length false (trim (cleanTitle s))) as H2.
  fold (cleanTitle (cleanTitle s)) in H2. rewrite cleanTitle_idemp in H2.
  lia.
Qed.

Lemma fetchMetadata_clean remote url t :
  fetchMetadata remote url = Some t -> exists c, t = cleanTitle c.
Proof.
  destruct (remote url) as [p|e] eqn:Hp.
  - rewrite (fetchMetadata_page remote url p Hp).
    destruct (firstNonEmpty (candidates p)) as [c|]; [|done].
    destruct (blank c); [done|]. intros [= <-]. by exists c.
  - unfold fetchMetadata, fetchMetadata_try. by rewrite Hp.
Qed.

Lemma givenTitle_Some v s :
  givenTitle v = Ok (Some s) -> nonEmpty (trim s) = true.
Proof.
  unfold givenTitle. destruct (negb (truthy v)); [done|].
  destruct v as [[| | |s'| |]|]; try done.
  case_bool_decide as Ht; [done|]. intros [= <-].
  by destruct (trim s').
Qed.

Lemma givenTitle_falsy v :
  truthy v = false \/ (exists s, v = Some (JStr s) /\ blank s = true) ->
  givenTitle v = Ok None.
Proof.
  intros [Hv|(s & -> & Hb)].
  - unfold givenTitle. by rewrite Hv.
  - apply givenTitle_absent. right. by exists s.
Qed.

(** The title with which a bookmark is created. *)
Lemma created_title remote user req newId now (w : World Bookmark) k d :
  (createBookmark remote user req newId now w).1 = respond 201 (BDoc k d) ->
  exists url,
    bb_url req = Some (JStr url) /\ matchesHttp (trim url)
    /\ ((exists s, givenTitle (bb_title req) = Ok (Some s)
                   /\ bm_title d = trim s)
        \/ (givenTitle (bb_title req) = Ok None
            /\ bm_title d = match fetchMetadata remote url with
                            | Some t => t
                            | None => trim url
                            end)).
Proof.
  intros H201.
  destruct (createBookmark_effect remote user req newId now w)
    as [(url & title & description & ts & Hurl & Hpat & _ & Ht & _ & _ & _
         & Hresp & _)|[Hshown _]].
  2:{ rewrite H201 in Hshown. done. }
  rewrite H201 in Hresp. injection Hresp as -> ->.
  apply requiredString_Some in Hurl as (Hurl & _ & _).
  apply urlPattern_test_spec in Hpat.
  exists url. split; [done|]. split; [done|].
  unfold newBookmark. cbn [snd bm_title]. rewrite trim_idemp.
  destruct Ht as [Hg|[Hg ->]]; [left; by exists title|right].
  split; [done|].
  destruct (fetchMetadata remote url) as [t|] eqn:Hf; [|done].
  cbn [truthyStr]. rewrite (fetchMetadata_nonEmpty remote url t Hf).
  cbn [negb default from_option]. unfold id.
  destruct (fetchMetadata_clean remote url t Hf) as [c ->].
  apply cleanTitle_trimmed.
Qed.

(** X10.  Only creation guarantees a title.  A bookmark that [POST /]
    stores never has an empty title: it is the title given, the title
    fetched or the URL.  [PUT /:id] gives no such guarantee: a title
    that is present but falsy or blank -- null, the empty string,
    spaces -- is stored as the empty title, with no fetch and no
    fallback. *)
Theorem only_creation_guarantees_a_title
    (castObjectId : jsstring -> option N) (remote : Remote) (user : N) :
  (forall req newId now (w : World Bookmark) k d,
     (createBookmark remote user req newId now w).1
     = respond 201 (BDoc k d) ->
     nonEmpty (bm_title d) = true)
  /\ (forall id req now (w : World Bookmark) v k d,
     bb_title req = Some v ->
     truthy (Some v) = false \/ (exists s, v = JStr s /\ blank s = true) ->
     (updateBookmark castObjectId user id req now w).1
     = respond 200 (BDoc k d) ->
     bm_title d = []
     /\ calls (updateBookmark castObjectId user id req now w).2
        = calls w ++ [CallFindOneAndUpdate id]).
Proof.
  split.
  - intros req newId now w k d H201.
    destruct (created_title remote user req newId now w k d H201)
      as (url & _ & Hm & [(s & Hg & ->)|[_ ->]]).
    + by apply givenTitle_Some in Hg.
    + destruct (fetchMetadata remote url) as [t|] eqn:Hf.
      * by apply fetchMetadata_nonEmpty in Hf.
      * by apply matchesHttp_nonEmpty.
  - intros id req now w v k d Hv Hfalsy H200.
    assert (status (updateBookmark castObjectId user id req now w).1
            = 200%nat) as Hst by (by rewrite H200).
    split.
    + destruct (bookmark_update_fields castObjectId user id req now w Hst)
        as (k' & d0 & d' & _ & _ & _ & Hbody & _ & _ & _ & _ & _ & _ & _ & _
            & _ & Htitle & _).
      rewrite H200 in Hbody. cbn [body] in Hbody. injection Hbody as <- <-.
      specialize (Htitle v Hv).
      assert (trimOrEmpty (Some v) = Ok []) as Hte.
      { destruct Hfalsy as [Hf|(s & -> & Hb)].
        - unfold trimOrEmpty. by rewrite Hf.
        - unfold trimOrEmpty. cbn [truthy].
          destruct (nonEmpty s); [|done]. by rewrite (trim_blank s Hb). }
      congruence.
    + unfold updateBookmark in *.
      apply updateRoute_200 in Hst
        as (u & f & k' & d0 & _ & _ & _ & _ & _ & _ & ->);
        [done|apply bookmarkUpdateData_early].
Qed.

Lemma only_creation_guarantees_a_title_witness :
  let w : World Bookmark := fresh {[100 := sample_bookmark]} in
  let req := {| bb_url := None; bb_title := Some (JStr (lit "  "));
                bb_description := None; bb_tags := None;
                bb_isFavorite := None |} in
  let d := {| bm_user := 7; bm_url := lit "https://example.org";
              bm_title := []; bm_description := [];
              bm_tags := [lit "web"]; bm_isFavorite := Some true;
              bm_createdAt := 6; bm_updatedAt := 9 |} in
  (updateBookmark hexObjectId 7 sample_id req 9 w).1
  = respond 200 (BDoc 100 d)
  /\ bm_title d = []
  /\ calls (updateBookmark hexObjectId 7 sample_id req 9 w).2
     = calls w ++ [CallFindOneAndUpdate sample_id].
Proof.
  intros w req d.
  assert ((updateBookmark hexObjectId 7 sample_id req 9 w).1
          = respond 200 (BDoc 100 d)) as H200 by (vm_compute; reflexivity).
  destruct (only_creation_guarantees_a_title hexObjectId unreachable 7)
    as [_ HP].
  refine (conj H200 (HP sample_id req 9%Z w (JStr (lit "  ")) 100 d
                        eq_refl _ H200)).
  right. exists (lit "  "). split; reflexivity.
Defined.

(** X11.  What the fetcher returns is clean and is stored as it is:
    a fetched title is never empty, cleaning or trimming it again
    changes nothing, and a bookmark created without a title of its own
    -- absent, falsy or blank -- is stored with exactly the fetched
    title. *)
Theorem fetched_titles_are_clean (remote : Remote) (url t : jsstring) :
  fetchMetadata remote url = Some t ->
  nonEmpty t = true /\ cleanTitle t = t /\ trim t = t
  /\ forall user req newId now (w : World Bookmark) k d,
       bb_url req = Some (JStr url) ->
       truthy (bb_title req) = false
       \/ (exists s, bb_title req = Some (JStr s) /\ blank s = true) ->
       (createBookmark remote user req newId now w).1
       = respond 201 (BDoc k d) ->
       bm_title d = t.
Proof.
  intros Hf. destruct (fetchMetadata_clean remote url t Hf) as [c Hc].
  split_and!.
  - by apply fetchMetadata_nonEmpty in Hf.
  - rewrite Hc. apply cleanTitle_idemp.
  - rewrite Hc. apply cleanTitle_trimmed.
  - intros user req newId now w k d Hurl Hfalsy H201.
    destruct (created_title remote user req newId now w k d H201)
      as (url' & Hurl' & _ & [(s & Hg & _)|[_ Ht]]).
    + rewrite (givenTitle_falsy _ Hfalsy) in Hg. done.
    + rewrite Hurl in Hurl'. injection Hurl' as <-.
      by rewrite Hf in Ht.
Qed.

Lemma fetched_titles_are_clean_witness :
  let t := lit "Example Domain" in
  fetchMetadata online (lit "http://x.com") = Some t
  /\ nonEmpty t = true /\ cleanTitle t = t /\ trim t = t.
Proof.
  intros t.
  assert (fetchMetadata online (lit "http://x.com") = Some t) as Hf
    by (vm_compute; reflexivity).
  destruct (fetched_titles_are_clean online (lit "http://x.com") t Hf)
    as (H1 & H2 & H3 & _).
  exact (conj Hf (conj H1 (conj H2 H3))).
Defined.

(** ** The calls of a request *)

Lemma notesRouter_calls
    (castObjectId : jsstring -> option N) (foldCase : N -> N)
    (regexOther : jsstring -> option (jsstring -> bool)) (user : N)
    (r : NoteRequest) (w : World Note) :
  let out := notesRouter castObjectId foldCase regexOther user r w in
  out.2 = w \/ calls out.2 = calls w ++ [noteCall r].
Proof.
  intros out. subst out. destruct r as [req newId now|q tags favorite|id
    |id req now|id]; cbn [notesRouter noteCall].
  - rewrite createNote_run.
    destruct (requiredString (nb_title req)) as [title|]; [|by left].
    destruct (requiredString (nb_content req)) as [content|]; [|by left].
    destruct (processTags (nb_tags req)) as [ts|e]; [|by left].
    cbn zeta.
    destruct (newNote user (trim title) (trim content) ts
                (orFalse (nb_isFavorite req)) now).1; [|by right].
    destruct (store w !! newId); by right.
  - unfold listNotes. rewrite listRoute_run.
    destruct (buildQuery _ user q tags favorite) as [query|e]; [|by left].
    destruct (queryPattern foldCase regexOther query); by right.
  - unfold getNote. rewrite getRoute_run. by right.
  - unfold updateNote. rewrite updateRoute_run.
    destruct (noteUpdateData req) as [[early|u]|e]; [by left| |by left].
    destruct (castObjectId id) as [k|]; [|by right].
    destruct (castNoteUpdate u) as [f|e]; [|by right].
    destruct (noteUpdateErrors u); [|by right].
    destruct (owned user k (store w)); by right.
  - unfold deleteNote. rewrite deleteRoute_run.
    destruct (castObjectId id) as [k|]; [|by right].
    destruct (owned user k (store w)); by right.
Qed.

Lemma bookmarksRouter_calls
    (castObjectId : jsstring -> option N) (foldCase : N -> N)
    (regexOther : jsstring -> option (jsstring -> bool)) (remote : Remote)
    (user : N) (r : BookmarkRequest) (w : World Bookmark) :
  let out := bookmarksRouter castObjectId foldCase regexOther remote
                             user r w in
  exists fetched,
    (fetched = []
     \/ exists req newId now url,
          r = PostBookmark req newId now
          /\ bb_url req = Some (JStr url)
          /\ fetched = [CallFetchMetadata url])
    /\ ((calls out.2 = calls w ++ fetched /\ store out.2 = store w)
        \/ calls out.2 = calls w ++ fetched ++ [bookmarkCall r]).
Proof.
  intros out. subst out. destruct r as [req newId now|q tags favorite|id
    |id req now|id]; cbn [bookmarksRouter bookmarkCall].
  - rewrite createBookmark_run.
    destruct (requiredString (bb_url req)) as [url|] eqn:Hurl.
    2:{ exists []. split; [by left|]. left. by rewrite app_nil_r. }
    apply requiredString_Some in Hurl as (Hurl & _ & _).
    destruct (negb (urlPattern_test (trim url))).
    { exists []. split; [by left|]. left. by rewrite app_nil_r. }
    destruct (processTags (bb_tags req)) as [ts|e].
    2:{ exists []. split; [by left|]. left. by rewrite app_nil_r. }
    destruct (givenTitle (bb_title req)) as [[s|]|e].
    + exists []. split; [by left|]. cbn zeta.
      destruct (trimOrEmpty (bb_description req)) as [description|e].
      2:{ left. by rewrite app_nil_r. }
      destruct (newBookmark _ _ _ _ _ _ _).1; [|by right].
      destruct (store w !! newId); by right.
    + exists [CallFetchMetadata url].
      split; [right; by exists req, newId, now, url|]. cbn zeta.
      destruct (trimOrEmpty (bb_description req)) as [description|e].
      2:{ by left. }
      destruct (newBookmark _ _ _ _ _ _ _).1;
        [|right; cbn; by rewrite <- app_assoc].
      destruct (store w !! newId); right; cbn; by rewrite <- app_assoc.
    + exists []. split; [by left|]. left. by rewrite app_nil_r.
  - exists []. split; [by left|].
    unfold listBookmarks. rewrite listRoute_run.
    destruct (buildQuery _ user q tags favorite) as [query|e];
      [|left; by rewrite app_nil_r].
    destruct (queryPattern foldCase regexOther query); by right.
  - exists []. split; [by left|].
    unfold getBookmark. rewrite getRoute_run. by right.
  - exists []. split; [by left|].
    unfold updateBookmark. rewrite updateRoute_run.
    destruct (bookmarkUpdateData req) as [[early|u]|e];
      [left; by rewrite app_nil_r| |left; by rewrite app_nil_r].
    destruct (castObjectId id) as [k|]; [|by right].
    destruct (castBookmarkUpdate u) as [f|e]; [|by right].
    destruct (bookmarkUpdateErrors u); [|by right].
    destruct (owned user k (store w)); by right.
  - exists []. split; [by left|].
    unfold deleteBookmark. rewrite deleteRoute_run.
    destruct (castObjectId id) as [k|]; [|by right].
    destruct (owned user k (store w)); by right.
Qed.

(** X12.  One store call per request at most.  A request to the notes
    router either leaves the world as it was or adds one call to the
    log, the call of its route.  A request to the bookmarks router does
    the same, except that a creation may first call the fetcher, once,
    with the URL of the request; no other route calls the fetcher, and
    a request that stops before its store call leaves the store as it
    was. *)
Theorem one_store_call_per_request
    (castObjectId : jsstring -> option N) (foldCase : N -> N)
    (regexOther : jsstring -> option (jsstring -> bool)) (remote : Remote)
    (user : N) :
  (forall (r : NoteRequest) (w : World Note),
     let out := notesRouter castObjectId foldCase regexOther user r w in
     out.2 = w \/ calls out.2 = calls w ++ [noteCall r])
  /\ (forall (r : BookmarkRequest) (w : World Bookmark),
     let out := bookmarksRouter castObjectId foldCase regexOther remote
                                user r w in
     exists fetched,
       (fetched = []
        \/ exists req newId now url,
             r = PostBookmark req newId now
             /\ bb_url req = Some (JStr url)
             /\ fetched = [CallFetchMetadata url])
       /\ ((calls out.2 = calls w ++ fetched /\ store out.2 = store w)
           \/ calls out.2 = calls w ++ fetched ++ [bookmarkCall r])).
Proof.
  split.
  - intros r w. apply notesRouter_calls.
  - intros r w. apply bookmarksRouter_calls.
Qed.

(** ** Tags given as a string *)

Lemma tag_tokens s :
  Forall (fun t => nonEmpty t = true
                   /\ Forall (fun c => isTagSep c = false) t)
         (tokens isTagSep s).
Proof.
  apply Forall_forall. intros t Ht.
  by apply (tokens_from_pieces isTagSep [] s t).
Qed.

(** X13.  A tag string means the array of its pieces: the normaliser
    gives the same for a string as for the array of the string's maximal
    runs of characters other than comma, whitespace and [#], and a tag
    that comes from a string holds none of these characters. *)
Theorem tag_string_as_array (s : jsstring) :
  processTags (Some (JStr s))
  = processTags (Some (JArr (JStr <$> tokens isTagSep s)))
  /\ processTagsUpdate (JStr s)
     = processTagsUpdate (JArr (JStr <$> tokens isTagSep s))
  /\ exists out,
       processTags (Some (JStr s)) = Ok out
       /\ forall t c, t ∈ out -> c ∈ t ->
            c <> 44 /\ c <> 35 /\ isWhiteSpace c = false.
Proof.
  assert (processTags (Some (JStr s))
          = processTags (Some (JArr (JStr <$> tokens isTagSep s)))) as Heq.
  { rewrite !processTags_entries. cbn [tagEntries].
    rewrite mapJs_strings. cbn [mbind Js_bind].
    pose proof (tag_tokens s) as Hts.
    assert (trim <$> tokens isTagSep s = tokens isTagSep s) as ->.
    { transitivity (id <$> tokens isTagSep s); [|apply list_fmap_id].
      apply list_fmap_ext. intros i t Ht%list_elem_of_lookup_2.
      rewrite Forall_forall in Hts. destruct (Hts t Ht) as [_ Hc].
      apply no_ws_trim. eapply Forall_impl; [exact Hc|apply isTagSep_ws]. }
    rewrite filter_nonEmpty_id; [done|].
    eapply Forall_impl; [exact Hts|]. by intros t [? _]. }
  split; [exact Heq|]. split.
  - by rewrite !processTagsUpdate_processTags.
  - rewrite processTags_entries. cbn [tagEntries mbind Js_bind].
    eexists. split; [done|]. intros t c Ht Hc.
    apply (proj1 (elem_of_Set_from _ _)) in Ht.
    pose proof (tag_tokens s) as Hts. rewrite Forall_forall in Hts.
    destruct (Hts t Ht) as [_ Hsep]. rewrite Forall_forall in Hsep.
    specialize (Hsep c Hc). unfold isTagSep in Hsep.
    apply orb_false_elim in Hsep as [Hsep H35].
    apply orb_false_elim in Hsep as [H44 Hws].
    apply N.eqb_neq in H35, H44. done.
Qed.

(** ** Creation *)

Lemma requiredString_text s :
  blank s = false -> requiredString (Some (JStr s)) = Some s.
Proof.
  intros Hb. unfold requiredString. cbn [truthy].
  assert (nonEmpty s = true) as -> by (by destruct s).
  cbn [negb]. destruct (trim s) eqn:Ht; [|done].
  apply trim_nil_blank in Ht. congruence.
Qed.

Lemma nonEmpty_trim s : blank s = false -> nonEmpty (trim s) = true.
Proof.
  intros Hb. destruct (trim s) eqn:Ht; [|done].
  apply trim_nil_blank in Ht. congruence.
Qed.

Lemma maxlength_ok n m s : (length s <= n)%nat -> maxlength n m s = [].
Proof. intros Hl. unfold maxlength. case_bool_decide; [lia|done]. Qed.

Lemma maxlength_over n m s :
  (n < length s)%nat -> maxlength n m s = [Text (lit m)].
Proof. intros Hl. unfold maxlength. by case_bool_decide. Qed.

(** X14.  A long URL needs a title.  When a bookmark is created with
    an http(s) URL of more than 200 characters and no title of its own,
    and the fetcher finds none, the URL stands in as the title and the
    store rejects it: the answer is 400 with the message that the title
    cannot exceed 200 characters, after the fetch and the save have been
    called, and nothing is stored. *)
Theorem long_url_needs_a_title
    (remote : Remote) (user : N) (req : BookmarkBody) (newId : N) (now : Z)
    (w : World Bookmark) (url : jsstring) (ts : list jsstring)
    (description : jsstring) :
  bb_url req = Some (JStr url) ->
  matchesHttp (trim url) ->
  (200 < length (trim url))%nat ->
  truthy (bb_title req) = false
  \/ (exists s, bb_title req = Some (JStr s) /\ blank s = true) ->
  fetchMetadata remote url = None ->
  processTags (bb_tags req) = Ok ts ->
  trimOrEmpty (bb_description req) = Ok description ->
  let out := createBookmark remote user req newId now w in
  status out.1 = 400%nat
  /\ (exists errors,
        body out.1 = BError errors
        /\ Text (lit "Title cannot exceed 200 characters") ∈ errors)
  /\ store out.2 = store w
  /\ calls out.2 = calls w ++ [CallFetchMetadata url; CallSave].
Proof.
  intros Hurl Hm Hlen Htitle Hf Hts Hds out. subst out.
  rewrite createBookmark_run.
  assert (requiredString (bb_url req) = Some url) as ->.
  { rewrite Hurl. apply requiredString_text.
    destruct (blank url) eqn:Hb; [|done].
    rewrite (trim_blank url Hb) in Hm. by apply matchesHttp_nonEmpty in Hm. }
  rewrite (proj2 (urlPattern_test_spec (trim url)) Hm). cbn [negb].
  rewrite Hts, (givenTitle_falsy _ Htitle), Hf, Hds. cbn zeta.
  cbn [truthyStr negb].
  assert (Text (lit "Title cannot exceed 200 characters")
          ∈ (newBookmark user (trim url) (trim url) description ts
               (orFalse (bb_isFavorite req)) now).1) as Hin.
  { unfold newBookmark. cbn [fst].
    rewrite !elem_of_app. right. right. left.
    rewrite trim_idemp, maxlength_over by done.
    apply list_elem_of_here. }
  destruct (newBookmark user (trim url) (trim url) description ts
              (orFalse (bb_isFavorite req)) now).1 as [|e errors] eqn:E.
  { by apply elem_of_nil in Hin. }
  cbn [fst snd status body saving fetching store calls].
  split_and!; [done| |done|by rewrite <- app_assoc].
  by exists (e :: errors).
Qed.

Lemma favorite_flag v :
  v = None \/ (exists b, v = Some (JBool b)) ->
  castBoolean (orFalse v)
  = Ok (Some match v with Some (JBool b) => b | _ => false end).
Proof. intros [->|[[] ->]]; done. Qed.

(** X15.  A valid request is stored as sent, trimmed.  A note with a
    non-blank title of at most 200 characters once trimmed, a non-blank
    content, tags that can be processed and a favourite flag that is
    absent or a boolean is answered 201 with the record stored under
    the new id: the caller as owner, title and content trimmed, the
    tags as normalised, the flag as given or false.  A bookmark with an
    http(s) URL, such a title of its own and a description that is
    absent or a text of at most 500 characters once trimmed is stored
    likewise, and the fetcher is not called. *)
Theorem valid_requests_are_stored :
  (forall user req newId now (w : World Note) title content ts,
     nb_title req = Some (JStr title) -> blank title = false ->
     (length (trim title) <= 200)%nat ->
     nb_content req = Some (JStr content) -> blank content = false ->
     processTags (nb_tags req) = Ok ts ->
     nb_isFavorite req = None \/ (exists b, nb_isFavorite req = Some (JBool b)) ->
     store w !! newId = None ->
     let d := {| note_user := user; note_title := trim title;
                 note_content := trim content; note_tags := ts;
                 note_isFavorite :=
                   Some match nb_isFavorite req with
                        | Some (JBool b) => b
                        | _ => false
                        end;
                 note_createdAt := now; note_updatedAt := now |} in
     createNote user req newId now w
     = (respond 201 (BDoc newId d),
        {| store := <[newId := d]> (store w);
           calls := calls w ++ [CallSave] |}))
  /\ (forall remote user req newId now (w : World Bookmark) url title ts,
     bb_url req = Some (JStr url) -> matchesHttp (trim url) ->
     bb_title req = Some (JStr title) -> blank title = false ->
     (length (trim title) <= 200)%nat ->
     bb_description req = None
     \/ (exists s, bb_description req = Some (JStr s)
                   /\ (length (trim s) <= 500)%nat) ->
     processTags (bb_tags req) = Ok ts ->
     bb_isFavorite req = None \/ (exists b, bb_isFavorite req = Some (JBool b)) ->
     store w !! newId = None ->
     let d := {| bm_user := user; bm_url := trim url; bm_title := trim title;
                 bm_description :=
                   match bb_description req with
                   | Some (JStr s) => trim s
                   | _ => []
                   end;
                 bm_tags := ts;
                 bm_isFavorite :=
                   Some match bb_isFavorite req with
                        | Some (JBool b) => b
                        | _ => false
                        end;
                 bm_createdAt := now; bm_updatedAt := now |} in
     createBookmark remote user req newId now w
     = (respond 201 (BDoc newId d),
        {| store := <[newId := d]> (store w);
           calls := calls w ++ [CallSave] |})).
Proof.
  split.
  - intros user req newId now w title content ts Ht Hbt Hlt Hc Hbc Hts Hfav
      Hfree d. subst d.
    rewrite createNote_run, Ht, Hc, !requiredString_text, Hts by done.
    cbn zeta. unfold newNote. cbn [fst snd].
    rewrite (favorite_flag _ Hfav), !trim_idemp. cbn [castErrors app].
    unfold required. rewrite !nonEmpty_trim by done. cbn [app].
    rewrite maxlength_ok by done. rewrite Hfree.
    by rewrite (processTags_trimmed _ _ Hts).
  - intros remote user req newId now w url title ts Hu Hm Ht Hbt Hlt Hds Hts
      Hfav Hfree d. subst d.
    assert (blank url = false) as Hbu.
    { destruct (blank url) eqn:Hb; [|done].
      rewrite (trim_blank url Hb) in Hm. by apply matchesHttp_nonEmpty in Hm. }
    assert (exists ds,
              trimOrEmpty (bb_description req) = Ok ds
              /\ ds = match bb_description req with
                      | Some (JStr s) => trim s
                      | _ => []
                      end
              /\ (length ds <= 500)%nat) as (ds & Hte & Hdeq & Hdl).
    { destruct Hds as [->|(s & -> & Hl)].
      - exists []. split_and!; [done|done|cbn; lia].
      - exists (trim s). split_and!; [|done|done].
        unfold trimOrEmpty. cbn [truthy]. by destruct s. }
    rewrite createBookmark_run, Hu, requiredString_text by done.
    rewrite (proj2 (urlPattern_test_spec (trim url)) Hm). cbn [negb].
    rewrite Hts, Ht.
    assert (givenTitle (Some (JStr title)) = Ok (Some title)) as ->.
    { destruct (givenTitle_nonBlank (Some (JStr title))) as (s & [= <-] & ->);
        [by exists title|done]. }
    rewrite Hte. cbn zeta. unfold newBookmark. cbn [fst snd].
    rewrite (favorite_flag _ Hfav), !trim_idemp. cbn [castErrors app].
    unfold urlErrors, required.
    rewrite (proj2 (urlPattern_test_spec (trim url)) Hm).
    rewrite (matchesHttp_nonEmpty _ Hm). cbn [app].
    assert (trim ds = ds) as Htd by (by eapply trimOrEmpty_trimmed).
    rewrite Htd, !maxlength_ok by done. cbn [app]. rewrite Hfree.
    rewrite (processTags_trimmed _ _ Hts). by rewrite <- Hdeq.
Qed.

Lemma tag_and_favorite_filters_witness :
  let w : World Note := fresh {[100 := sample_note]} in
  exists L,
    listNotes asciiFold noOtherRegex 7 None
              (Some (QStr (lit "home, work"))) None w
    = (respond 200 (BList L), finding w)
    /\ (100, sample_note) ∈ L.
Proof.
  intros w.
  destruct (tag_and_favorite_filters asciiFold noOtherRegex 7
              (Some (lit "home, work")) None None) as [HN _].
  destruct (HN w) as [(L & HL & Hiff) _].
  exists L. split; [exact HL|]. apply Hiff. split_and!.
  - vm_compute. reflexivity.
  - reflexivity.
  - intros s [= <-] _. exists (lit "work"). split.
    + vm_compute. apply list_elem_of_further, list_elem_of_here.
    + apply list_elem_of_here.
  - discriminate.
Defined.

Lemma tag_string_as_array_witness :
  processTags (Some (JStr (lit "a b,a #c")))
  = processTags (Some (JArr [JStr (lit "a"); JStr (lit "b"); JStr (lit "a");
                             JStr (lit "c")])).
Proof. exact (proj1 (tag_string_as_array (lit "a b,a #c"))). Defined.

Lemma long_url_needs_a_title_witness :
  let out := createBookmark unreachable 7 long_url_body 100 5 (fresh ∅) in
  status out.1 = 400%nat
  /\ (exists errors,
        body out.1 = BError errors
        /\ Text (lit "Title cannot exceed 200 characters") ∈ errors)
  /\ store out.2 = ∅
  /\ calls out.2 = [CallFetchMetadata long_url; CallSave].
Proof.
  refine (long_url_needs_a_title unreachable 7 long_url_body 100 5%Z (fresh ∅)
            long_url [] [] eq_refl _ _ _ eq_refl eq_refl eq_refl).
  - apply urlPattern_test_spec. vm_compute. reflexivity.
  - vm_compute. lia.
  - by left.
Defined.

Lemma valid_requests_are_stored_witness :
  let d := {| note_user := 7; note_title := lit "Shopping";
              note_content := lit "milk";
              note_tags := [lit "home"; lit "list"];
              note_isFavorite := Some true;
              note_createdAt := 5; note_updatedAt := 5 |} in
  createNote 7 valid_note_body 100 5 (fresh ∅)
  = (respond 201 (BDoc 100 d),
     {| store := <[100 := d]> ∅; calls := [CallSave] |}).
Proof.
  refine (proj1 valid_requests_are_stored 7 valid_note_body 100 5%Z (fresh ∅)
            (lit " Shopping ") (lit "milk") [lit "home"; lit "list"]
            eq_refl eq_refl _ eq_refl eq_refl _ _ _).
  - vm_compute. lia.
  - vm_compute. reflexivity.
  - right. by exists true.
  - reflexivity.
Defined.

(** ** Tags that cannot be turned into strings *)

(** [String] throws nothing but a TypeError. *)
Lemma ToString_throws : forall v e, ToString v = Throw e -> e = TypeError.
Proof.
  fix IH 1. intros v e. destruct v as [| b | r | s | l | fs].
  - cbn. discriminate.
  - destruct b; cbn; discriminate.
  - cbn. discriminate.
  - cbn. discriminate.
  - cbn [ToString]. induction l as [|x l' IHl]; [discriminate|].
    pose proof (IH x) as Hx.
    match goal with
    | |- mbind _ ?m = _ -> _ => destruct m as [a|e'] eqn:Ex
    end.
    + cbn [mbind Js_bind]. destruct l' as [|y l'']; [discriminate|].
      match goal with
      | |- mbind _ ?m = _ -> _ => destruct m as [b|e''] eqn:Ej
      end.
      * cbn. discriminate.
      * cbn. intros [= <-]. apply IHl. reflexivity.
    + cbn [mbind Js_bind]. intros [= <-]. clear IHl.
      destruct x; try discriminate Ex; exact (Hx _ Ex).
  - cbn [ToString]. destruct (hasOwn _ _); [|discriminate].
    intros [= <-]. reflexivity.
Qed.





(** ** The tag normaliser by the shape of its input *)

Lemma mapJs_ToString_throws (l : list JValue) e :
  mapJs ToString l = Throw e -> e = TypeError.
Proof.
  induction l as [|x l IH]; [discriminate|].
  cbn [mapJs]. destruct (ToString x) as [s|e'] eqn:Ex.
  - cbn [mbind Js_bind]. destruct (mapJs ToString l) as [ss|e''].
    + discriminate.
    + cbn [mbind Js_bind]. intros [= <-]. by apply IH.
  - cbn [mbind Js_bind]. intros [= <-]. by apply (ToString_throws x).
Qed.

Lemma processTags_array (l : list JValue) :
  processTags (Some (JArr l))
  = ss ← mapJs ToString l;
    Ok (Set_from (List.filter nonEmpty (trim <$> (ss : list jsstring)))).
Proof.
  rewrite processTags_entries. cbn [tagEntries].
  by destruct (mapJs ToString l).
Qed.

Lemma processTags_string (s : jsstring) :
  processTags (Some (JStr s))
  = Ok (Set_from (List.filter nonEmpty (trim <$> split isTagSep s))).
Proof. rewrite processTags_entries. cbn [tagEntries]. by rewrite tag_pieces. Qed.

Lemma processTags_throws tags e :
  processTags tags = Throw e ->
  e = TypeError
  /\ exists l, tags = Some (JArr l) /\ mapJs ToString l = Throw TypeError.
Proof.
  destruct tags as [[| b | r | s | l | fs]|];
    try (rewrite processTags_entries; cbn; discriminate).
  rewrite processTags_array.
  destruct (mapJs ToString l) as [ss|e'] eqn:El; [discriminate|].
  cbn [mbind Js_bind]. intros [= <-].
  pose proof (mapJs_ToString_throws l e' El) as ->. eauto.
Qed.

(** C3 (as the code has it).  The tag normaliser maps an array by
    coercing each element with [String], trimming and dropping the empty
    results, and a string by taking its pieces between runs of comma,
    whitespace or [#] (trimmed, empties dropped), the entries then going
    through the Set; "foo, bar #baz  qux" gives foo, bar, baz, qux; and
    an absent input or one that is neither an array nor a string (null,
    a boolean, a number, an object) gives the empty list.  It raises no
    error on these inputs, on any string, or on an array whose elements
    can all be coerced; the one error it can raise is the TypeError of
    [String] on an array element that cannot be coerced, and a creation
    of a note with such tags is answered 500 with nothing stored.  The
    PUT handlers' copy of the code computes the same function. *)
Theorem tag_normaliser_by_input_shape :
  (forall tags, processTags tags = entries ← tagEntries tags; Ok (Set_from entries))
  /\ (forall l ss,
        mapJs ToString l = Ok ss ->
        processTags (Some (JArr l))
        = Ok (Set_from (List.filter nonEmpty (trim <$> ss))))
  /\ (forall s,
        processTags (Some (JStr s))
        = Ok (Set_from (List.filter nonEmpty (trim <$> split isTagSep s)))
        /\ List.filter nonEmpty (trim <$> split isTagSep s) = tokens isTagSep s)
  /\ processTags (Some (JStr (lit "foo, bar #baz  qux")))
     = Ok [lit "foo"; lit "bar"; lit "baz"; lit "qux"]
  /\ processTags None = Ok []
  /\ processTags (Some JNull) = Ok []
  /\ (forall b, processTags (Some (JBool b)) = Ok [])
  /\ (forall r, processTags (Some (JNum r)) = Ok [])
  /\ (forall fs, processTags (Some (JObj fs)) = Ok [])
  /\ (forall v, processTagsUpdate v = processTags (Some v))
  /\ (forall tags e,
        processTags tags = Throw e ->
        e = TypeError
        /\ exists l, tags = Some (JArr l) /\ mapJs ToString l = Throw TypeError)
  /\ (forall l e,
        mapJs ToString l = Throw e ->
        processTags (Some (JArr l)) = Throw TypeError
        /\ forall user req newId now (w : World Note) title content,
             nb_title req = Some (JStr title) -> blank title = false ->
             nb_content req = Some (JStr content) -> blank content = false ->
             nb_tags req = Some (JArr l) ->
             createNote user req newId now w
             = (respond 500
                  (BError [Text (lit "Server error while creating note")]),
                w)).
Proof.
  split_and!.
  - apply processTags_entries.
  - intros l ss Hl. by rewrite processTags_array, Hl.
  - intros s. split; [apply processTags_string|apply tag_pieces].
  - vm_compute. reflexivity.
  - done.
  - done.
  - by intros [].
  - intros r. unfold processTags. simpl. by case_bool_decide.
  - done.
  - apply processTagsUpdate_processTags.
  - apply processTags_throws.
  - intros l e Hl.
    assert (processTags (Some (JArr l)) = Throw TypeError) as Hthrow.
    { rewrite processTags_array, Hl. cbn [mbind Js_bind].
      by rewrite (mapJs_ToString_throws l e Hl). }
    split; [exact Hthrow|].
    intros user req newId now w title content Ht Hbt Hc Hbc Htags.
    rewrite createNote_run, Ht, Hc, !requiredString_text by done.
    by rewrite Htags, Hthrow.
Qed.

Lemma tag_normaliser_by_input_shape_witness :
  processTags (Some (JArr [JStr (lit " a "); JNum (lit "7"); JNull;
                           JStr (lit "a"); JStr (lit "  ")]))
  = Ok [lit "a"; lit "7"; lit "null"].
Proof.
  destruct tag_normaliser_by_input_shape as (_ & Harr & _).
  exact (Harr [JStr (lit " a "); JNum (lit "7"); JNull; JStr (lit "a");
               JStr (lit "  ")]
              [lit " a "; lit "7"; lit "null"; lit "a"; lit "  "] eq_refl).
Defined.

(** C3 as stated fails on an array that holds an object with a key
    "toString" of its own: [String] throws on the element, the
    normaliser returns nothing, and the request, in order otherwise, is
    answered 500. *)
Lemma tag_array_fails_request :
  processTags (Some (JArr [unprintable])) = Throw TypeError
  /\ (forall out, processTags (Some (JArr [unprintable])) <> Ok out)
  /\ createNote 7 unprintable_tag_body 100 5 (fresh ∅)
     = (respond 500 (BError [Text (lit "Server error while creating note")]),
        fresh ∅).
Proof.
  split_and!.
  - vm_compute. reflexivity.
  - intros out. vm_compute. discriminate.
  - vm_compute. reflexivity.
Qed.
